(** * EXtra-data [writer2]: a shallow embedding of the train writer

    The development follows [extra_data/writer2.py]: the dataset
    descriptor with its chunk autosizing, the direct and the buffered
    dataset writers, the per-source index bookkeeping and the file
    writer that commits trains and rotates sequence files.

    Python integers are unbounded and become [Z]; NumPy's [int64]
    results are wrapped explicitly.  A raised exception ends the
    modelled run ([Raise]); dictionaries that the code only looks up
    are [gmap]s, dictionaries and lists that it iterates are lists. *)

From Stdlib Require Import ZArith Lia Ascii String.
From stdpp Require Import base option list gmap strings pretty.

Local Open Scope Z_scope.

(** ** Exceptions and results *)

Inductive exn : Type :=
| TypeError
| ValueError
| IndexError
| KeyError
| AttributeError
| ZeroDivisionError
| RuntimeError
(* ValueError("data was not submitted for dataset(s): ...") with the
   (source, missing keys) pairs the message is built from *)
| ValueError_not_submitted (status : list (string * list string)).

Inductive result (A : Type) : Type :=
| Ok (a : A)
| Raise (e : exn).
Arguments Ok {A} a.
Arguments Raise {A} e.

Definition bind {A B} (m : result A) (k : A -> result B) : result B :=
  match m with
  | Ok a => k a
  | Raise e => Raise e
  end.

Notation "'let!' x := m 'in' k" := (bind m (fun x => k))
  (at level 10, x name, m at level 100, k at level 200, only parsing).
Notation "'let!' ' p := m 'in' k" := (bind m (fun x => let 'p := x in k))
  (at level 10, p pattern, m at level 100, k at level 200, only parsing).

(* for x in xs: st = body(st, x) *)
Fixpoint for_each {A S} (xs : list A) (body : S -> A -> result S) (st : S)
  : result S :=
  match xs with
  | [] => Ok st
  | x :: xs' => let! st' := body st x in for_each xs' body st'
  end.

(** ** Python sequences and ordered dictionaries *)

(* a dict whose iteration order the code relies on: its items in
   insertion order, keys unique *)
Definition dict (V : Type) : Type := list (string * V).

(* d[k] *)
Fixpoint dict_get {V} (d : dict V) (k : string) : result V :=
  match d with
  | [] => Raise KeyError
  | (k', v) :: d' => if decide (k' = k) then Ok v else dict_get d' k
  end.

(* d[k] = v *)
Fixpoint dict_set {V} (d : dict V) (k : string) (v : V) : dict V :=
  match d with
  | [] => [(k, v)]
  | (k', v') :: d' =>
      if decide (k' = k) then (k', v) :: d' else (k', v') :: dict_set d' k v
  end.

Definition len {A} (l : list A) : Z := Z.of_nat (length l).

(* a[i:j]: the bounds as [slice.indices] gives them for step 1 *)
Record slice := Slice { start : option Z; stop : option Z }.

Definition slice_bound (n i : Z) : Z :=
  if i <? 0 then Z.max (i + n) 0 else Z.min i n.

Definition slice_indices (n : Z) (s : slice) : Z * Z :=
  (from_option (slice_bound n) 0 (start s),
   from_option (slice_bound n) n (stop s)).

Definition getslice {A} (l : list A) (s : slice) : list A :=
  let '(a, b) := slice_indices (len l) s in
  take (Z.to_nat (b - a)) (drop (Z.to_nat a) l).

(* the position an index denotes, negative indices counting from the end *)
Definition index_of {A} (l : list A) (i : Z) : result nat :=
  let j := if i <? 0 then i + len l else i in
  if (j <? 0) || (len l <=? j) then Raise IndexError else Ok (Z.to_nat j).

(* l[i] *)
Definition getitem {A} (l : list A) (i : Z) : result A :=
  let! j := index_of l i in
  match l !! j with
  | Some x => Ok x
  | None => Raise IndexError
  end.

(* l[i] = x *)
Definition setitem {A} (l : list A) (i : Z) (x : A) : result (list A) :=
  let! j := index_of l i in Ok (<[j := x]> l).

(** ** NumPy arrays as lists of rows

    An array of shape [(n,) + entry_shape] is the list of its [n] rows;
    a row is opaque.  A submitted value is the list of rows it has
    after broadcasting against [(1,) + entry_shape]. *)

(* rows broadcast along the first axis to n rows *)
Definition broadcast_rows {A} (src : list A) (n : Z) : result (list A) :=
  if len src =? n then Ok src
  else match src with
       | [r] => Ok (replicate (Z.to_nat n) r)
       | _ => Raise ValueError
       end.

(* np.broadcast_to(data, (n,) + entry_shape) *)
Definition broadcast_to {A} (data : list A) (n : Z) : result (list A) :=
  if n <? 0 then Raise ValueError else broadcast_rows data n.

(* a[s] = src *)
Definition np_setslice {A} (a : list A) (s : slice) (src : list A)
  : result (list A) :=
  let '(lo, hi) := slice_indices (len a) s in
  let n := Z.max (hi - lo) 0 in
  let! rows := broadcast_rows src n in
  Ok (take (Z.to_nat lo) a ++ rows ++ drop (Z.to_nat (lo + n)) a).

(* a[i] = value, the value broadcast to one row *)
Definition np_setitem {A} (a : list A) (i : Z) (value : list A)
  : result (list A) :=
  let! j := index_of a i in
  match value with
  | [r] => Ok (<[j := r]> a)
  | _ => Raise ValueError
  end.

(** ** The storage engine (h5py), at its interface

    Modelled from the spec: h5py is an external collaborator and no
    code of it is in the repository.  A dataset is the list of its rows
    along the growth axis together with the properties it was created
    with.  [resize] truncates or pads with the fill value; a range
    write needs its range inside the current extent and as many source
    rows as the range has (a single source row is broadcast). *)

Module h5py.

Record dataset (A : Type) : Type := Dataset {
  name : string;
  entry_shape : list Z;
  itemsize : Z;
  chunks : option (list Z);
  compression : option string;
  fillvalue : A;
  rows : list A
}.
Arguments Dataset {A}.
Arguments name {A}.
Arguments entry_shape {A}.
Arguments itemsize {A}.
Arguments chunks {A}.
Arguments compression {A}.
Arguments fillvalue {A}.
Arguments rows {A}.

Definition with_rows {A} (ds : dataset A) (r : list A) : dataset A :=
  Dataset (name ds) (entry_shape ds) (itemsize ds) (chunks ds)
          (compression ds) (fillvalue ds) r.

(* grp.create_dataset(name, (n,) + entry_shape, dtype=..., chunks=...,
     maxshape=(None,) + entry_shape, compression=...) *)
Definition create_dataset {A} (name : string) (n : Z) (entry_shape : list Z)
    (itemsize : Z) (fill : A) (chunks : option (list Z))
    (compression : option string) : result (dataset A) :=
  if n <? 0 then Raise ValueError
  else if negb (forallb (Z.ltb 0) (default [] chunks)) then Raise ValueError
  else Ok (Dataset name entry_shape itemsize chunks compression fill
                   (replicate (Z.to_nat n) fill)).

(* ds.resize(n, 0) *)
Definition resize {A} (ds : dataset A) (n : Z) : result (dataset A) :=
  if n <? 0 then Raise ValueError
  else Ok (with_rows ds
             (take (Z.to_nat n) (rows ds)
              ++ replicate (Z.to_nat n - length (rows ds)) (fillvalue ds))).

(* the rows a selection [a:b] addresses; the range has to lie inside
   the extent *)
Definition select {A} (ds : dataset A) (s : slice) : result (Z * Z) :=
  let n := len (rows ds) in
  let lo := default 0 (start s) in
  let hi := default n (stop s) in
  if (0 <=? lo) && (lo <=? hi) && (hi <=? n) then Ok (lo, hi)
  else Raise TypeError.

Definition put {A} (ds : dataset A) (lo hi : Z) (src : list A)
  : result (dataset A) :=
  let! new := broadcast_rows src (hi - lo) in
  Ok (with_rows ds (take (Z.to_nat lo) (rows ds) ++ new
                    ++ drop (Z.to_nat hi) (rows ds))).

(* ds.write_direct(source, source_sel, dest_sel) *)
Definition write_direct {A} (ds : dataset A) (source : list A)
    (source_sel dest_sel : slice) : result (dataset A) :=
  let! '(lo, hi) := select ds dest_sel in
  put ds lo hi (getslice source source_sel).

(* ds[dest_sel] = data; an empty selection writes nothing *)
Definition assign {A} (ds : dataset A) (dest_sel : slice) (data : list A)
  : result (dataset A) :=
  let! '(lo, hi) := select ds dest_sel in
  if hi =? lo then Ok ds else put ds lo hi data.

(* a group: the datasets below it by their path *)
Definition group (A : Type) : Type := dict (dataset A).

End h5py.

(** ** Strings and NumPy scalars used by the descriptor *)

(* c in s *)
Fixpoint contains_char (c : ascii) (s : string) : bool :=
  match s with
  | EmptyString => false
  | String a s' => if decide (a = c) then true else contains_char c s'
  end.

(* s.split(c, 1) when it has two parts *)
Fixpoint split_once (c : ascii) (s : string) : option (string * string) :=
  match s with
  | EmptyString => None
  | String a s' =>
      if decide (a = c) then Some (EmptyString, s')
      else '(l, r) ← split_once c s'; Some (String a l, r)
  end.

(* s.replace(c, d) for single characters *)
Fixpoint replace_char (c d : ascii) (s : string) : string :=
  match s with
  | EmptyString => EmptyString
  | String a s' => String (if decide (a = c) then d else a) (replace_char c d s')
  end.

(* a signed 64-bit NumPy integer: results wrap around *)
Definition wrap64 (z : Z) : Z := (z + 2 ^ 63) mod 2 ^ 64 - 2 ^ 63.

(* np.prod(shape, dtype=int) *)
Definition np_prod (shape : list Z) : Z :=
  foldr (fun d acc => wrap64 (d * acc)) 1 shape.

(* int(b) *)
Definition int (b : bool) : Z := if b then 1 else 0.

(** np.dtype: its item size and the zero it fills new rows with *)
Record dtype (Row : Type) : Type := Dtype { itemsize : Z; zero : Row }.
Arguments Dtype {Row}.
Arguments itemsize {Row}.
Arguments zero {Row}.

(** ** class Dataset *)

Module Dataset.
Section Dataset.
Context {Row : Type}.

Record t : Type := Build {
  entry_shape : list Z;
  dtype_ : dtype Row;
  compression : option string;
  chunks : option (list Z);
  canonical_name : string * string;
  stype : Z;
  source_name : string;
  key : string
}.

Definition init (source_name key : string) (entry_shape : list Z)
    (dt : dtype Row) (chunks : option (list Z))
    (compression : option string) : result t :=
  let stype := int (contains_char ":" source_name) in
  if stype =? 0 then
    Ok (Build entry_shape dt compression chunks (source_name, key)
              stype source_name key)
  else
    match split_once "." key with
    | Some (tk, key') =>
        Ok (Build entry_shape dt compression chunks (source_name, key)
                  stype (source_name +:+ "/" +:+ tk) key')
    | None => Raise ValueError
    end.

Definition SZ : list Z := [1 ≪ 14; 1 ≪ 19; 1 ≪ 23].  (* 16K, 512K, 8M *)

(* the bytes of one entry, as chunks_autosize computes them *)
Definition entry_nbytes (self : t) : Z :=
  wrap64 (np_prod (entry_shape self) * itemsize (dtype_ self)).

Definition chunks_autosize (self : t) (max_trains : Z) : option (list Z) :=
  match chunks self with
  | Some _ => None
  | None =>
      let MN := [max_trains; 32; 32] in
      let size := np_prod (entry_shape self) in
      let ndim := len (entry_shape self) in
      let nbytes := wrap64 (size * itemsize (dtype_ self)) in
      let entry_type := int (negb (size =? 1)) * (1 + int (1 <? ndim)) in
      let chunk := Z.max (nth (Z.to_nat entry_type) SZ 0 `div` nbytes)
                         (nth (Z.to_nat entry_type) MN 0) in
      let chunk := if stype self =? 0 then Z.min chunk max_trains
                   else chunk in
      Some (chunk :: entry_shape self)
  end.

End Dataset.
Arguments t : clear implicits.
End Dataset.

(** ** class DatasetWriterBase *)

Module DatasetWriterBase.
Section DatasetWriterBase.
Context {Row : Type}.

Record t : Type := Build {
  ds : Dataset.t Row;
  file_ds : h5py.dataset Row;
  chunks : option (list Z);
  pos : Z
}.

Definition init (ds : Dataset.t Row) (file_ds : h5py.dataset Row)
    (chunks : option (list Z)) : t :=
  Build ds file_ds chunks 0.

Definition flush (self : t) : result t := Ok self.

Definition write (self : t) (data : list Row) (nrec : Z) : result t :=
  Ok self.

End DatasetWriterBase.
Arguments t : clear implicits.
End DatasetWriterBase.

(** ** class DatasetDirectWriter(DatasetWriterBase) *)

Module DatasetDirectWriter.
Section DatasetDirectWriter.
Context {Row : Type}.
Import DatasetWriterBase.

Definition t : Type := DatasetWriterBase.t Row.

Definition init : Dataset.t Row -> h5py.dataset Row -> option (list Z) -> t :=
  DatasetWriterBase.init.

(* inherited *)
Definition flush : t -> result t := DatasetWriterBase.flush.

Definition write (self : t) (data : list Row) (nrec : Z) : result t :=
  let end_ := pos self + nrec in
  let! f := h5py.resize (file_ds self) end_ in
  let! f := h5py.assign f (Slice (Some (pos self)) (Some end_)) data in
  Ok (Build (ds self) f (chunks self) (pos self)).

End DatasetDirectWriter.
End DatasetDirectWriter.

(** ** class DatasetBufferedWriter(DatasetWriterBase) *)

Module DatasetBufferedWriter.
Section DatasetBufferedWriter.
Context {Row : Type}.

Record t : Type := Build {
  base : DatasetWriterBase.t Row;
  _data : list Row;
  size : Z;
  nbuf : Z
}.

Definition ds (self : t) := DatasetWriterBase.ds (base self).
Definition file_ds (self : t) := DatasetWriterBase.file_ds (base self).
Definition chunks (self : t) := DatasetWriterBase.chunks (base self).
Definition pos (self : t) := DatasetWriterBase.pos (base self).

(* self.file_ds, self.pos = f, p *)
Definition set_file (self : t) (f : h5py.dataset Row) (p : Z) : t :=
  Build (DatasetWriterBase.Build (ds self) f (chunks self) p)
        (_data self) (size self) (nbuf self).
Definition set_buf (self : t) (d : list Row) (n : Z) : t :=
  Build (base self) d (size self) n.

(* np.empty(chunks, dtype=ds.dtype): the block is not initialised; the
   model takes the dtype's zero for its rows *)
Definition init (ds : Dataset.t Row) (file_ds : h5py.dataset Row)
    (chunks : option (list Z)) : result t :=
  match chunks with
  | None => Raise TypeError
  | Some shape =>
      if negb (forallb (Z.leb 0) shape) then Raise ValueError
      else
        let! size := getitem shape 0 in
        Ok (Build (DatasetWriterBase.init ds file_ds chunks)
                  (replicate (Z.to_nat size) (zero (Dataset.dtype_ ds)))
                  size 0)
  end.

Definition flush (self : t) : result t :=
  (* write buffer to disk *)
  if negb (nbuf self =? 0) then
    let end_ := pos self + nbuf self in
    let! f := h5py.resize (file_ds self) end_ in
    let! f := h5py.write_direct f (_data self)
                (Slice None (Some (nbuf self)))
                (Slice (Some (pos self)) (Some end_)) in
    Ok (set_buf (set_file self f end_) (_data self) 0)
  else Ok self.

Definition write_one (self : t) (value : list Row) : result t :=
  let! d := np_setitem (_data self) (nbuf self) value in
  let self := set_buf self d (nbuf self + 1) in
  if size self <=? nbuf self then flush self else Ok self.

Definition write_many (self : t) (arr : list Row) (nrec : Z) : result t :=
  let buf_nrest := size self - nbuf self in
  let data_nrest := nrec - buf_nrest in
  if data_nrest <? 0 then
    (* copy *)
    let end_ := nbuf self + nrec in
    let! d := np_setslice (_data self)
                (Slice (Some (nbuf self)) (Some end_)) arr in
    Ok (set_buf self d end_)
  else if negb (nbuf self =? 0) && (data_nrest <? size self) then
    (* copy, flush, copy *)
    let! d := np_setslice (_data self) (Slice (Some (nbuf self)) None)
                (getslice arr (Slice None (Some buf_nrest))) in
    let end_ := pos self + size self in
    let! f := h5py.write_direct (file_ds self) d (Slice None None)
                (Slice (Some (pos self)) (Some end_)) in
    let! d := np_setslice d (Slice None (Some data_nrest))
                (getslice arr (Slice (Some buf_nrest) None)) in
    Ok (set_buf (set_file self f end_) d data_nrest)
  else
    (* flush, write, copy *)
    if size self =? 0 then Raise ZeroDivisionError
    else
      let nrest := nrec `mod` size self in
      let nwrite := nrec - nrest in
      let split := pos self + nbuf self in
      let end_ := split + nwrite in
      let! f := h5py.resize (file_ds self) end_ in
      let! f :=
        if negb (nbuf self =? 0) then
          h5py.write_direct f (_data self)
            (Slice None (Some (nbuf self)))
            (Slice (Some (pos self)) (Some split))
        else Ok f in
      let! f := h5py.write_direct f arr (Slice None (Some nwrite))
                  (Slice (Some split) (Some end_)) in
      let! d := np_setslice (_data self) (Slice None (Some nrest))
                  (getslice arr (Slice (Some nwrite) None)) in
      Ok (set_buf (set_file self f end_) d nrest).

Definition write (self : t) (data : list Row) (nrec : Z) : result t :=
  if nrec =? 1 then write_one self data
  else
    let! arr := broadcast_to data nrec in
    write_many self arr nrec.

End DatasetBufferedWriter.
Arguments t : clear implicits.
End DatasetBufferedWriter.

(** ** A writer object: one of the two subclasses *)

Module DatasetWriter.
Section DatasetWriter.
Context {Row : Type}.

Inductive t : Type :=
| Direct (w : @DatasetDirectWriter.t Row)
| Buffered (w : DatasetBufferedWriter.t Row).

Definition flush (self : t) : result t :=
  match self with
  | Direct w => let! w' := DatasetDirectWriter.flush w in Ok (Direct w')
  | Buffered w => let! w' := DatasetBufferedWriter.flush w in Ok (Buffered w')
  end.

Definition write (self : t) (data : list Row) (nrec : Z) : result t :=
  match self with
  | Direct w =>
      let! w' := DatasetDirectWriter.write w data nrec in Ok (Direct w')
  | Buffered w =>
      let! w' := DatasetBufferedWriter.write w data nrec in Ok (Buffered w')
  end.

Definition file_ds (self : t) : h5py.dataset Row :=
  match self with
  | Direct w => DatasetWriterBase.file_ds w
  | Buffered w => DatasetBufferedWriter.file_ds w
  end.

Definition chunks (self : t) : option (list Z) :=
  match self with
  | Direct w => DatasetWriterBase.chunks w
  | Buffered w => DatasetBufferedWriter.chunks w
  end.

End DatasetWriter.
Arguments t : clear implicits.
End DatasetWriter.

(** ** Dataset.create

    [grp] is the path of the group the dataset is created in. *)

Definition Dataset_create {Row} (self : Dataset.t Row) (grp : string)
    (max_trains : Z) (buffering : bool) : result (DatasetWriter.t Row) :=
  let chunks := Dataset.chunks_autosize self max_trains in
  let! ds := h5py.create_dataset
               (grp +:+ "/" +:+ replace_char "." "/" (Dataset.key self))
               0 (Dataset.entry_shape self)
               (itemsize (Dataset.dtype_ self)) (zero (Dataset.dtype_ self))
               (Dataset.chunks self) (Dataset.compression self) in
  if buffering then
    let! wrt := DatasetBufferedWriter.init self ds chunks in
    Ok (DatasetWriter.Buffered wrt)
  else
    Ok (DatasetWriter.Direct (DatasetDirectWriter.init self ds chunks)).

(** ** class Source *)

Module Source.
Section Source.
Context {Row : Type}.

Definition SECTION : list string := ["CONTROL"; "INSTRUMENT"]%string.

Record t : Type := Build {
  name : string;
  stype : Z;
  section : string;
  datasets : list (Dataset.t Row);
  file_ds : list (option (DatasetWriter.t Row));
  _grp : option string;
  first : list Z;
  count : list Z;
  pos : Z;
  nrec : Z
}.

Definition init (name : string) (stype : option Z) : result t :=
  let stype := default (int (contains_char ":" name)) stype in
  let! section := getitem SECTION stype in
  Ok (Build name stype section [] [] None [] [] 0 0).

Definition add (self : t) (ds : Dataset.t Row) : t :=
  Build (name self) (stype self) (section self)
        (datasets self ++ [ds]) (file_ds self ++ [None]) (_grp self)
        (first self) (count self) (pos self) (nrec self).

Definition set_file_ds (self : t) (w : list (option (DatasetWriter.t Row)))
  : t :=
  Build (name self) (stype self) (section self) (datasets self) w
        (_grp self) (first self) (count self) (pos self) (nrec self).

Definition set_index (self : t) (first count : list Z) (pos nrec : Z) : t :=
  Build (name self) (stype self) (section self) (datasets self)
        (file_ds self) (_grp self) first count pos nrec.

(* enumerate(self.datasets) *)
Definition enumerate {A} (l : list A) : list (nat * A) :=
  zip (seq 0 (length l)) l.

(* create(self, file, max_trains, buffering): the group is its path in
   the file *)
Definition create (self : t) (max_trains : Z) (buffering : bool)
  : result t :=
  let grp := section self +:+ "/" +:+ name self in
  let! w := for_each (enumerate (datasets self))
              (fun w '(dsno, ds) =>
                 let! wrt := Dataset_create ds grp max_trains buffering in
                 setitem w (Z.of_nat dsno) (Some wrt))
              (file_ds self) in
  Ok (Build (name self) (stype self) (section self) (datasets self) w
            (Some grp) (first self) (count self) (pos self) (nrec self)).

(* the body of the loop of write_train; a KeyError of data[ds.key] is
   caught and the dataset is skipped *)
Definition write_dataset (data : gmap string (list Row)) (nrec : Z)
    (w : list (option (DatasetWriter.t Row)))
    (item : nat * Dataset.t Row) : result (list (option (DatasetWriter.t Row))) :=
  let '(dsno, ds) := item in
  let! wrt := getitem w (Z.of_nat dsno) in
  match wrt with
  | None => Raise AttributeError
  | Some wrt =>
      match data !! Dataset.key ds with
      | None => Ok w
      | Some value =>
          let! wrt' := DatasetWriter.write wrt value nrec in
          setitem w (Z.of_nat dsno) (Some wrt')
      end
  end.

Definition write_train (self : t) (data : gmap string (list Row))
  : result t :=
  let! w := for_each (enumerate (datasets self))
              (write_dataset data (nrec self)) (file_ds self) in
  Ok (Build (name self) (stype self) (section self) (datasets self) w
            (_grp self)
            (first self ++ [pos self]) (count self ++ [nrec self])
            (pos self + nrec self) (int (stype self =? 0))).

Definition close_datasets (self : t) : result t :=
  let! w := for_each (enumerate (datasets self))
              (fun w '(dsno, ds) =>
                 let! wrt := getitem w (Z.of_nat dsno) in
                 match wrt with
                 | None => Raise AttributeError
                 | Some wrt =>
                     let! wrt' := DatasetWriter.flush wrt in
                     setitem w (Z.of_nat dsno) (Some wrt')
                 end)
              (file_ds self) in
  Ok (set_file_ds self w).

(* the value is_data_complete returns: a bool or the list of missed keys *)
Inductive status : Type :=
| Complete (b : bool)
| Missed (keys : list string).

(* list(set(ds.key for ds in self.datasets) - set(data.keys())).
   Python lists a set in an order of its own; the model lists the keys
   in the order of the datasets, and what is stated of the list is
   stated up to its order *)
Definition missed_keys (self : t) (data : gmap string (list Row))
  : list string :=
  remove_dups
    (filter (fun k => data !! k = None) (Dataset.key <$> datasets self)).

Definition is_data_complete (self : t) (data : gmap string (list Row))
  : status :=
  if (stype self =? 1) && (Z.of_nat (size data) =? 0) then Complete false
  else
    match missed_keys self data with
    | [] => Complete true
    | missed => Missed missed
    end.

Definition create_index (self : t) (index_grp : h5py.group Z)
    (max_trains : Z) : result (h5py.group Z) :=
  for_each ["first"; "count"]%string
    (fun grp key =>
       let path := name self +:+ "/" +:+ key in
       let! ds := h5py.create_dataset path max_trains [] 8 0
                    (Some [max_trains]) None in
       let! ds := h5py.assign ds (Slice None None) [0] in
       Ok (dict_set grp path ds))
    index_grp.

(* ds = grp[dsname]; ds.resize(ntrains, axis=0); ds[:] = val[:ntrains] *)
Definition store_index (self : t) (index_grp : h5py.group Z)
    (dsname : string) (val : list Z) (ntrains : Z)
  : result (h5py.group Z) :=
  let path := name self +:+ "/" +:+ dsname in
  let! ds := dict_get index_grp path in
  let! ds := h5py.resize ds ntrains in
  let! ds := h5py.assign ds (Slice None None)
               (getslice val (Slice None (Some ntrains))) in
  Ok (dict_set index_grp path ds).

(* for t in range(len(self.count)):
       self.first[t] = self.pos; self.pos += self.count[t] *)
Definition recount (count : list Z) (st : list Z * Z) (t : nat)
  : result (list Z * Z) :=
  let '(first, pos) := st in
  let! first := setitem first (Z.of_nat t) pos in
  let! c := getitem count (Z.of_nat t) in
  Ok (first, pos + c).

Definition write_index (self : t) (index_grp : h5py.group Z) (ntrains : Z)
  : result (t * h5py.group Z) :=
  let! grp := store_index self index_grp "first" (first self) ntrains in
  let first := getslice (first self) (Slice (Some ntrains) None) in
  let! grp := store_index self grp "count" (count self) ntrains in
  let count := getslice (count self) (Slice (Some ntrains) None) in
  let! '(first, pos) := for_each (seq 0 (length count)) (recount count)
                          (first, 0) in
  Ok (set_index self first count pos (nrec self), grp).

End Source.
Arguments t : clear implicits.
End Source.

(** ** class Options *)

Module Options.

Record t : Type := Build {
  max_train_per_file : Z;
  break_into_sequence : bool;
  warn_on_missing_data : bool;
  class_attrs_interface : bool;
  buffering : bool
}.

(* the values Options.__init__ sets before any override *)
Definition default : t := Build 500 false false true true.

End Options.

(** ** An HDF5 file: its path and what the writer puts in it *)

Record File (Row : Type) : Type := Build_File {
  path : string;
  dataSourceId : list string;
  INDEX : h5py.group Z;
  DATA : list (h5py.dataset Row)
}.
Arguments Build_File {Row}.
Arguments path {Row}.
Arguments dataSourceId {Row}.
Arguments INDEX {Row}.
Arguments DATA {Row}.

(** ** class FileWriterBase

    [list_of_sources], [datasets] and [_meta] are the class attributes
    the metaclass prepares.  [filename seq] stands for
    [filename.format(seq=seq)].  [disk] holds the files that have been
    closed, [warnings] the train ids a RuntimeWarning was issued for.
    A submitted value is the list of its rows, so [__check_value]
    yields their number. *)

Module FileWriterBase.
Section FileWriterBase.
Context {Row : Type}.

Record t : Type := Build {
  _train_data : gmap string (gmap string (list Row));
  trains : list Z;
  timestamp : list (option Z);
  flags : list Z;
  seq : Z;
  filename : Z -> string;
  sources : dict (Source.t Row);
  _file : File Row;
  list_of_sources : list (string * string);
  datasets : dict (Dataset.t Row);
  _meta : Options.t;
  disk : list (File Row);
  warnings : list Z
}.

Definition set_train_data (self : t) td : t :=
  Build td (trains self) (timestamp self) (flags self) (seq self)
        (filename self) (sources self) (_file self) (list_of_sources self)
        (datasets self) (_meta self) (disk self) (warnings self).
Definition set_trains (self : t) tr ts fl : t :=
  Build (_train_data self) tr ts fl (seq self)
        (filename self) (sources self) (_file self) (list_of_sources self)
        (datasets self) (_meta self) (disk self) (warnings self).
Definition set_sources (self : t) srcs : t :=
  Build (_train_data self) (trains self) (timestamp self) (flags self)
        (seq self) (filename self) srcs (_file self) (list_of_sources self)
        (datasets self) (_meta self) (disk self) (warnings self).
Definition set_file (self : t) sq f dk : t :=
  Build (_train_data self) (trains self) (timestamp self) (flags self)
        sq (filename self) (sources self) f (list_of_sources self)
        (datasets self) (_meta self) dk (warnings self).
Definition set_warnings (self : t) w : t :=
  Build (_train_data self) (trains self) (timestamp self) (flags self)
        (seq self) (filename self) (sources self) (_file self)
        (list_of_sources self) (datasets self) (_meta self) (disk self) w.
(* self.index_grp is the INDEX group of self._file *)
Definition index_grp (self : t) : h5py.group Z := INDEX (_file self).
Definition set_index_grp (self : t) (grp : h5py.group Z) : t :=
  set_file self (seq self)
    (Build_File (path (_file self)) (dataSourceId (_file self)) grp
                (DATA (_file self)))
    (disk self).

(* h5py.File(path, 'w'): a new empty file; one of that path is gone *)
Definition open_w (p : string) (dk : list (File Row))
  : File Row * list (File Row) :=
  (Build_File p [] [] [], filter (fun f => path f ≠ p) dk).

(* Source.SECTION.index(sect) *)
Definition SECTION_index (sect : string) : result Z :=
  match list_find (fun s => s = sect) (@Source.SECTION) with
  | Some (i, _) => Ok (Z.of_nat i)
  | None => Raise ValueError
  end.

Definition write_metadata (self : t) : result t :=
  match list_of_sources self with
  | [] => Raise ValueError  (* sections, sources = zip() *)
  | los =>
      Ok (set_file self (seq self)
            (Build_File (path (_file self))
               ((fun '(sect, src) => sect +:+ "/" +:+ src) <$> los)
               (INDEX (_file self)) (DATA (_file self)))
            (disk self))
  end.

Definition create_indices (self : t) : result t :=
  let max_trains := Options.max_train_per_file (_meta self) in
  let index_datasets := [("trainId", 8); ("timestamp", 8); ("flag", 4)]%string in
  let! grp := for_each index_datasets
                (fun grp '(key, itemsize) =>
                   let! ds := h5py.create_dataset key max_trains [] itemsize 0
                                (Some [max_trains]) None in
                   let! ds := h5py.assign ds (Slice None None) [0] in
                   Ok (dict_set grp key ds))
                [] in
  let! grp := for_each (sources self)
                (fun grp '(sname, src) => Source.create_index src grp max_trains)
                grp in
  Ok (set_index_grp self grp).

(* for sname, src in self.sources.items(): src = f(src) *)
Definition each_source (self : t) (f : Source.t Row -> result (Source.t Row))
  : result t :=
  let! srcs := for_each (sources self)
                 (fun acc '(sname, src) =>
                    let! src' := f src in Ok (acc ++ [(sname, src')]))
                 [] in
  Ok (set_sources self srcs).

Definition create_datasets (self : t) : result t :=
  each_source self
    (fun src => Source.create src (Options.max_train_per_file (_meta self))
                  (Options.buffering (_meta self))).

Definition init_file (self : t) (file : File Row) : result t :=
  let self := set_file self (seq self) file (disk self) in
  let! self := write_metadata self in
  let! self := create_indices self in
  create_datasets self.

Definition close_datasets (self : t) : result t :=
  each_source self Source.close_datasets.

(* np.asarray(data, dtype=np.uint64) of a list that may hold None *)
Fixpoint as_uint64 (data : list (option Z)) : result (list Z) :=
  match data with
  | [] => Ok []
  | None :: _ => Raise TypeError
  | Some x :: data' => let! r := as_uint64 data' in Ok (x :: r)
  end.

Definition write_indices (self : t) : result t :=
  let ntrains := len (trains self) in
  let! ts := as_uint64 (timestamp self) in
  let index_datasets :=
    [("trainId", trains self); ("timestamp", ts); ("flag", flags self)]%string in
  let! grp := for_each index_datasets
                (fun grp '(key, data) =>
                   let! ds := dict_get grp key in
                   let! ds := h5py.resize ds ntrains in
                   let! ds := h5py.assign ds (Slice None None) data in
                   Ok (dict_set grp key ds))
                (index_grp self) in
  let! '(srcs, grp) :=
    for_each (sources self)
      (fun '(acc, grp) '(sname, src) =>
         let! '(src', grp') := Source.write_index src grp ntrains in
         Ok (acc ++ [(sname, src')], grp'))
      ([], grp) in
  Ok (set_trains (set_sources (set_index_grp self grp) srcs) [] [] []).

(* the datasets the writers of the sources hold *)
Definition data_of (srcs : dict (Source.t Row)) : list (h5py.dataset Row) :=
  srcs.*2 ≫= (fun src => DatasetWriter.file_ds <$> omap id (Source.file_ds src)).

Definition close (self : t) : result t :=
  let! self := close_datasets self in
  let! self := write_indices self in
  let f := _file self in
  Ok (set_file self (seq self) f
        (disk self ++ [Build_File (path f) (dataSourceId f) (INDEX f)
                         (data_of (sources self))])).

Definition init (list_of_sources : list (string * string))
    (datasets : dict (Dataset.t Row)) (_meta : Options.t)
    (filename : Z -> string) (disk : list (File Row)) : result t :=
  let! srcs := for_each list_of_sources
                 (fun srcs '(sect, src_name) =>
                    let! stype := SECTION_index sect in
                    let! src := Source.init src_name (Some stype) in
                    Ok (dict_set srcs src_name src))
                 [] in
  let! srcs := for_each datasets
                 (fun srcs '(dsname, ds) =>
                    let! src := dict_get srcs (Dataset.source_name ds) in
                    Ok (dict_set srcs (Dataset.source_name ds)
                                 (Source.add src ds)))
                 srcs in
  let '(file, disk) := open_w (filename 0) disk in
  init_file (Build ∅ [] [] [] 0 filename srcs file list_of_sources
                   datasets _meta disk [])
            file.

Definition add_value (self : t) (name : string) (value : list Row)
  : result t :=
  let! ds := dict_get (datasets self) name in
  let! src := dict_get (sources self) (Dataset.source_name ds) in
  (* check shape of value *)
  let nrec := len value in
  if (Source.stype src =? 0) && negb (nrec =? 1) then Raise ValueError
  else
    let src_data := default ∅ (_train_data self !! Source.name src) in
    let td := <[Source.name src := src_data]> (_train_data self) in
    let nds := Z.of_nat (size src_data) in
    let! src_nrec :=
      if Source.nrec src =? 0 then Ok nrec
      else if negb (Source.nrec src =? nrec)
              && (negb (nds =? 1)
                  || bool_decide (src_data !! Dataset.key ds = None))
      then Raise RuntimeError
      else Ok (Source.nrec src) in
    let src := Source.set_index src (Source.first src) (Source.count src)
                 (Source.pos src) src_nrec in
    (* store value *)
    Ok (set_train_data
          (set_sources self
             (dict_set (sources self) (Dataset.source_name ds) src))
          (<[Source.name src := <[Dataset.key ds := value]> src_data]> td)).

Definition add (self : t) (kwargs : list (string * list Row)) : result t :=
  for_each kwargs (fun self '(name, value) => add_value self name value) self.

(* the value is_data_complete returns *)
Inductive status : Type :=
| Complete (b : bool)
| Missed (missed : list (string * list string)).

Definition is_data_complete (self : t) : status :=
  let '(missed, is_complete) :=
    foldl (fun '(missed, is_complete) '(sname, src) =>
             match Source.is_data_complete src
                     (default ∅ (_train_data self !! sname)) with
             | Source.Missed keys => (missed ++ [(sname, keys)], is_complete)
             | Source.Complete b => (missed, is_complete && b)
             end)
          ([], true) (sources self) in
  match missed with
  | [] => Complete is_complete
  | _ => Missed missed
  end.

Definition rotate_sequence_file (self : t) : result t :=
  if Options.break_into_sequence (_meta self)
     && (Options.max_train_per_file (_meta self) <=? len (trains self))
  then
    let! self := close self in
    let sq := seq self + 1 in
    let '(file, dk) := open_w (filename self sq) (disk self) in
    init_file (set_file self sq (_file self) dk) file
  else Ok self.

(* the loop of write_train over self.sources.items() *)
Definition commit_source
    (st : dict (Source.t Row) * gmap string (gmap string (list Row)))
    (item : string * Source.t Row)
  : result (dict (Source.t Row) * gmap string (gmap string (list Row))) :=
  let '(acc, td) := st in
  let '(sname, src) := item in
  match td !! sname with
  | Some data =>
      let! src' := Source.write_train src data in
      Ok (acc ++ [(sname, src')],
          if Source.stype src' =? 1 then delete sname td else td)
  | None =>
      let! src' := Source.write_train src ∅ in
      Ok (acc ++ [(sname, src')], td)
  end.

Definition write_train (self : t) (tid : Z) (ts : option Z) : result t :=
  let! self := rotate_sequence_file self in
  match is_data_complete self with
  | Missed status => Raise (ValueError_not_submitted status)
  | Complete status =>
      let self :=
        if Options.warn_on_missing_data (_meta self) && negb status
        then set_warnings self (warnings self ++ [tid]) else self in
      let! '(srcs, td) := for_each (sources self) commit_source
                            ([], _train_data self) in
      Ok (set_trains (set_train_data (set_sources self srcs) td)
            (trains self ++ [tid]) (timestamp self ++ [ts])
            (flags self ++ [1]))
  end.

End FileWriterBase.
Arguments t : clear implicits.
End FileWriterBase.

(** * Statements and sample objects *)

(** ** Chunk autosizing *)

(** A control dataset of one 8-byte scalar. *)
Definition scalar_control : Dataset.t Z :=
  Dataset.Build [] (Dtype 8 0) None None ("dev", "value") 0 "dev" "value".

(** ** Writers: call sequences and sample objects *)

(** The calls a buffered writer takes. *)
Inductive buffered_call (Row : Type) : Type :=
| WriteOne (value : list Row)
| WriteMany (arr : list Row) (nrec : Z)
| Write (data : list Row) (nrec : Z)
| Flush.
Arguments WriteOne {Row}.
Arguments WriteMany {Row}.
Arguments Write {Row}.
Arguments Flush {Row}.

Definition buffered_step {Row} (w : DatasetBufferedWriter.t Row)
    (c : buffered_call Row) : result (DatasetBufferedWriter.t Row) :=
  match c with
  | WriteOne value => DatasetBufferedWriter.write_one w value
  | WriteMany arr nrec => DatasetBufferedWriter.write_many w arr nrec
  | Write data nrec => DatasetBufferedWriter.write w data nrec
  | Flush => DatasetBufferedWriter.flush w
  end.

(** A sequence of [write(data, nrec)] calls followed by a final
    [flush()], and the rows the backing array holds afterwards. *)
Definition write_all {Row} (w : DatasetWriter.t Row)
    (calls : list (list Row * Z)) : result (list Row) :=
  let! w := for_each calls
              (fun w '(data, nrec) => DatasetWriter.write w data nrec) w in
  let! w := DatasetWriter.flush w in
  Ok (h5py.rows (DatasetWriter.file_ds w)).

(** An instrument dataset of 8-byte scalars and its new, empty array. *)
Definition scalar_instrument : Dataset.t Z :=
  Dataset.Build [] (Dtype 8 0) None None ("dev:out", "data.value")
                1 "dev:out/data" "value".

Definition empty_array : h5py.dataset Z :=
  h5py.Dataset "INSTRUMENT/dev:out/data/value" [] 8 None None 0 [].

(** DatasetDirectWriter(ds, file_ds, (4,)) and
    DatasetBufferedWriter(ds, file_ds, (4,)) on that array. *)
Definition direct4 : @DatasetDirectWriter.t Z :=
  DatasetDirectWriter.init scalar_instrument empty_array (Some [4]).

Definition buffered4 : DatasetBufferedWriter.t Z :=
  DatasetBufferedWriter.Build
    (DatasetWriterBase.init scalar_instrument empty_array (Some [4]))
    [0; 0; 0; 0] 4 0.

(** The direct writer as the specification words it: the write extends
    the array to [position + n_records], puts the batch at
    [position, position + n_records) and then advances [position]. *)
Definition spec_direct_write {Row} (self : @DatasetDirectWriter.t Row)
    (data : list Row) (nrec : Z) : result (@DatasetDirectWriter.t Row) :=
  let end_ := DatasetWriterBase.pos self + nrec in
  let! f := h5py.resize (DatasetWriterBase.file_ds self) end_ in
  let! f := h5py.assign f (Slice (Some (DatasetWriterBase.pos self)) (Some end_))
              data in
  Ok (DatasetWriterBase.Build (DatasetWriterBase.ds self) f
        (DatasetWriterBase.chunks self) end_).

Definition spec_direct_write_all {Row} (w : @DatasetDirectWriter.t Row)
    (calls : list (list Row * Z)) : result (list Row) :=
  let! w := for_each calls
              (fun w '(data, nrec) => spec_direct_write w data nrec) w in
  Ok (h5py.rows (DatasetWriterBase.file_ds w)).

(** The rows a buffered writer has taken: those in the array, then
    those staged. *)
Definition contents {Row} (w : DatasetBufferedWriter.t Row) : list Row :=
  h5py.rows (DatasetBufferedWriter.file_ds w)
  ++ take (Z.to_nat (DatasetBufferedWriter.nbuf w))
          (DatasetBufferedWriter._data w).

(** The staging block has [size] rows and the array ends at [pos]. *)
Definition consistent {Row} (w : DatasetBufferedWriter.t Row) : Prop :=
  0 <= DatasetBufferedWriter.nbuf w <= DatasetBufferedWriter.size w
  /\ len (DatasetBufferedWriter._data w) = DatasetBufferedWriter.size w
  /\ len (h5py.rows (DatasetBufferedWriter.file_ds w))
     = DatasetBufferedWriter.pos w.

Definition idle {Row} (w : DatasetBufferedWriter.t Row) : Prop :=
  consistent w
  /\ DatasetBufferedWriter.nbuf w < DatasetBufferedWriter.size w.

(** The writer [buffered4] after it has taken nine records and a flush. *)
Definition buffered4_flushed : DatasetBufferedWriter.t Z :=
  DatasetBufferedWriter.Build
    (DatasetWriterBase.Build scalar_instrument
       (h5py.with_rows empty_array [1; 2; 3; 4; 5; 6; 7; 8; 9]) (Some [4]) 9)
    [9; 2; 3; 4] 4 0.

(** ** Sources: call sequences and the index invariant *)

(** What can happen to a source: its own methods, and [add_value]
    setting [nrec] for the train in progress. *)
Inductive source_call (Row : Type) : Type :=
| SAdd (ds : Dataset.t Row)
| SCreate (max_trains : Z) (buffering : bool)
| SCreateIndex (max_trains : Z)
| SSetNrec (nrec : Z)
| SWriteTrain (data : gmap string (list Row))
| SCloseDatasets
| SWriteIndex (ntrains : Z).
Arguments SAdd {Row}.
Arguments SCreate {Row}.
Arguments SCreateIndex {Row}.
Arguments SSetNrec {Row}.
Arguments SWriteTrain {Row}.
Arguments SCloseDatasets {Row}.
Arguments SWriteIndex {Row}.

Definition source_step {Row} (st : Source.t Row * h5py.group Z)
    (c : source_call Row) : result (Source.t Row * h5py.group Z) :=
  let '(src, grp) := st in
  match c with
  | SAdd ds => Ok (Source.add src ds, grp)
  | SCreate max_trains buffering =>
      let! src := Source.create src max_trains buffering in Ok (src, grp)
  | SCreateIndex max_trains =>
      let! grp := Source.create_index src grp max_trains in Ok (src, grp)
  | SSetNrec nrec =>
      Ok (Source.set_index src (Source.first src) (Source.count src)
            (Source.pos src) nrec, grp)
  | SWriteTrain data =>
      let! src := Source.write_train src data in Ok (src, grp)
  | SCloseDatasets =>
      let! src := Source.close_datasets src in Ok (src, grp)
  | SWriteIndex ntrains => Source.write_index src grp ntrains
  end.

(** The start offsets that a list of counts gives from a base. *)
Fixpoint offsets (base : Z) (counts : list Z) : list Z :=
  match counts with
  | [] => []
  | c :: counts' => base :: offsets (base + c) counts'
  end.

Definition total (counts : list Z) : Z := foldr Z.add 0 counts.

(** The recorded trains start at 0 and follow one another; [pos] is
    where the next one starts. *)
Definition chained {Row} (src : Source.t Row) : Prop :=
  Source.first src = offsets 0 (Source.count src)
  /\ Source.pos src = total (Source.count src).

(** A new instrument source and a short life of it: one dataset, its
    array and index, two trains, the index written for the first of
    them, a third train. *)
Definition source0 : Source.t Z :=
  Source.Build "dev:out/data" 1 "INSTRUMENT" [] [] None [] [] 0 0.

Definition source0_calls : list (source_call Z) :=
  [SAdd scalar_instrument; SCreate 4 false; SCreateIndex 4;
   SSetNrec 3; SWriteTrain {["value" := [1; 2; 3]]};
   SSetNrec 2; SWriteTrain {["value" := [4; 5]]};
   SWriteIndex 1;
   SSetNrec 1; SWriteTrain {["value" := [6]]}].

(** ** The file writer: what stays, what is reported *)

(** Two states of a source with the same name, cadence and datasets. *)
Definition same_schema {Row} (a b : Source.t Row) : Prop :=
  Source.name a = Source.name b
  /\ Source.stype a = Source.stype b
  /\ Source.datasets a = Source.datasets b.

(** Two states of [self.sources]: the same keys in the same order, the
    sources related by [R]. *)
Definition sources_rel {Row} (R : Source.t Row -> Source.t Row -> Prop)
    (l1 l2 : dict (Source.t Row)) : Prop :=
  Forall2 (fun x y => x.1 = y.1 /\ R x.2 y.2) l1 l2.

(** What the class and the constructor fix for a writer. *)
Definition static {Row} (s : FileWriterBase.t Row)
  : (Z -> string) * list (string * string) * dict (Dataset.t Row) * Options.t :=
  (FileWriterBase.filename s, FileWriterBase.list_of_sources s,
   FileWriterBase.datasets s, FileWriterBase._meta s).

(** The data staged for a source, as write_train looks it up. *)
Definition staged_data {Row} (s : FileWriterBase.t Row) (sname : string)
  : gmap string (list Row) :=
  default ∅ (FileWriterBase._train_data s !! sname).

(** An instrument source for which nothing at all is staged. *)
Definition nothing_staged {Row} (s : FileWriterBase.t Row)
    (item : string * Source.t Row) : bool :=
  (Source.stype item.2 =? 1) && (Z.of_nat (size (staged_data s item.1)) =? 0).

(** The sources with a partial submission, each with the keys it misses:
    what the failure of write_train lists. *)
Definition reported {Row} (s : FileWriterBase.t Row)
  : list (string * list string) :=
  omap (fun item =>
          if nothing_staged s item then None
          else match Source.missed_keys item.2 (staged_data s item.1) with
               | [] => None
               | keys => Some (item.1, keys)
               end)
       (FileWriterBase.sources s).

(** Every (source, field) pair for which no value is staged. *)
Definition missing_pairs {Row} (s : FileWriterBase.t Row)
  : list (string * string) :=
  FileWriterBase.sources s ≫=
    (fun item => (fun key => (item.1, key))
                   <$> Source.missed_keys item.2 (staged_data s item.1)).

(** The claim of C6 as it is stated: when fields are missing, the
    default is a failure that lists every missing pair, and with
    [warn_on_missing_data] a warning is issued instead. *)
Definition incomplete_claim {Row} (s : FileWriterBase.t Row) (tid : Z)
    (ts : option Z) : Prop :=
  missing_pairs s <> [] ->
  (Options.warn_on_missing_data (FileWriterBase._meta s) = false ->
   exists status,
     FileWriterBase.write_train s tid ts = Raise (ValueError_not_submitted status)
     /\ forall sname key,
          (sname, key) ∈ missing_pairs s
          <-> exists keys, (sname, keys) ∈ status /\ key ∈ keys)
  /\ (Options.warn_on_missing_data (FileWriterBase._meta s) = true ->
      exists s',
        FileWriterBase.write_train s tid ts = Ok s'
        /\ FileWriterBase.warnings s' = FileWriterBase.warnings s ++ [tid]).

(** A writer class with one control source of two fields that warns on
    missing data, and a writer of that class with only one field staged. *)
Definition warn_options : Options.t := Options.Build 4 false true true true.

Definition control_x : Dataset.t Z :=
  Dataset.Build [] (Dtype 8 0) None None ("dev", "x") 0 "dev" "x".
Definition control_y : Dataset.t Z :=
  Dataset.Build [] (Dtype 8 0) None None ("dev", "y") 0 "dev" "y".

Definition warn_writer : result (FileWriterBase.t Z) :=
  let! s := FileWriterBase.init [("CONTROL", "dev")]%string
              [("x", control_x); ("y", control_y)]%string
              warn_options (fun seq => "run.h5"%string) [] in
  FileWriterBase.add_value s "x" [1].

(** A source that differs from another in its writers and group only. *)
Definition same_but_writers {Row} (a b : Source.t Row) : Prop :=
  exists w grp,
    b = Source.Build (Source.name a) (Source.stype a) (Source.section a)
          (Source.datasets a) w grp (Source.first a) (Source.count a)
          (Source.pos a) (Source.nrec a).

(** Schema and the entry count of the train in progress are the same. *)
Definition same_train {Row} (a b : Source.t Row) : Prop :=
  same_schema a b /\ Source.nrec a = Source.nrec b.

(** The three train index datasets exist in an INDEX group. *)
Definition has_index (grp : h5py.group Z) : Prop :=
  forall key, key ∈ ["trainId"; "timestamp"; "flag"]%string ->
              exists ds, dict_get grp key = Ok ds.

(** The rows of an index dataset of a file. *)
Definition index_rows {Row} (f : File Row) (key : string) : option (list Z) :=
  match dict_get (INDEX f) key with
  | Ok ds => Some (h5py.rows ds)
  | Raise _ => None
  end.

(** The fields of a writer that only add_value and write_train touch. *)
Definition frame {Row} (s s' : FileWriterBase.t Row) : Prop :=
  FileWriterBase._train_data s' = FileWriterBase._train_data s
  /\ static s' = static s
  /\ FileWriterBase.warnings s' = FileWriterBase.warnings s.

(** The train index of a writer is well formed: one timestamp and one
    flag per train, the index datasets exist, and the open file is the
    one of the current sequence number. *)
Definition wf_index {Row} (s : FileWriterBase.t Row) : Prop :=
  len (FileWriterBase.timestamp s) = len (FileWriterBase.trains s)
  /\ len (FileWriterBase.flags s) = len (FileWriterBase.trains s)
  /\ has_index (FileWriterBase.index_grp s)
  /\ path (FileWriterBase._file s)
     = FileWriterBase.filename s (FileWriterBase.seq s).

(** The rotation of write_train is due. *)
Definition rotation_due {Row} (s : FileWriterBase.t Row) : bool :=
  Options.break_into_sequence (FileWriterBase._meta s)
  && (Options.max_train_per_file (FileWriterBase._meta s)
      <=? len (FileWriterBase.trains s)).

(** [self.sources] is keyed by the names of its sources. *)
Definition wf_dict {Row} (l : dict (Source.t Row)) : Prop :=
  NoDup l.*1 /\ Forall (fun x => Source.name x.2 = x.1) l.

Definition wf_sources {Row} (s : FileWriterBase.t Row) : Prop :=
  wf_dict (FileWriterBase.sources s).

(** A well-formed writer with a given train index, sequence number and
    files on disk. *)
Definition at_state {Row} (s : FileWriterBase.t Row) (fn : Z -> string)
    (meta : Options.t) (tr : list Z) (ts : list (option Z)) (fl : list Z)
    (sq : Z) (dk : list (File Row)) : Prop :=
  wf_sources s /\ wf_index s
  /\ FileWriterBase.filename s = fn /\ FileWriterBase._meta s = meta
  /\ FileWriterBase.trains s = tr /\ FileWriterBase.timestamp s = ts
  /\ FileWriterBase.flags s = fl /\ FileWriterBase.seq s = sq
  /\ FileWriterBase.disk s = dk.

(** A closed file with the given path and train index. *)
Definition file_index {Row} (f : File Row) (p : string) (tr ts fl : list Z)
  : Prop :=
  path f = p
  /\ index_rows f "trainId" = Some tr
  /\ index_rows f "timestamp" = Some ts
  /\ index_rows f "flag" = Some fl.

(** A writer class with a control and an instrument source that breaks
    the run into files of two trains. *)
Definition rotating_options : Options.t := Options.Build 2 true false true true.

Definition run_name (seq : Z) : string :=
  if seq =? 0 then "run-0.h5" else if seq =? 1 then "run-1.h5" else "run-2.h5".

Definition rotating_writer : result (FileWriterBase.t Z) :=
  FileWriterBase.init
    [("CONTROL", "dev"); ("INSTRUMENT", "dev:out/data")]%string
    [("x", control_x); ("v", scalar_instrument)]%string
    rotating_options run_name [].

(** The value staged for field [key] of source [sname] after the
    submissions [kwargs], when [prev] was staged before them: the last
    submitted one, or else the previous one. *)
Definition last_submitted {Row} (dss : dict (Dataset.t Row))
    (kwargs : list (string * list Row)) (sname key : string)
    (prev : option (list Row)) : option (list Row) :=
  foldl (fun acc '(name, value) =>
           match dict_get dss name with
           | Ok ds =>
               if decide (Dataset.source_name ds = sname /\ Dataset.key ds = key)
               then Some value else acc
           | Raise _ => acc
           end)
        prev kwargs.

(** The entry count of a source changes only when it is 0. *)
Definition keeps_nrec {Row} (a b : Source.t Row) : Prop :=
  same_schema a b /\ (Source.nrec a <> 0 -> Source.nrec b = Source.nrec a).

(** ** A session of a file writer *)

(** The calls a user makes on an open writer. *)
Inductive writer_call (Row : Type) : Type :=
| WAddValue (name : string) (value : list Row)
| WAdd (kwargs : list (string * list Row))
| WWriteTrain (tid : Z) (ts : option Z).
Arguments WAddValue {Row}.
Arguments WAdd {Row}.
Arguments WWriteTrain {Row}.

Definition writer_step {Row} (s : FileWriterBase.t Row) (c : writer_call Row)
  : result (FileWriterBase.t Row) :=
  match c with
  | WAddValue name value => FileWriterBase.add_value s name value
  | WAdd kwargs => FileWriterBase.add s kwargs
  | WWriteTrain tid ts => FileWriterBase.write_train s tid ts
  end.

(** No train is recorded for a source. *)
Definition fresh_index {Row} (src : Source.t Row) : Prop :=
  Source.first src = [] /\ Source.count src = [] /\ Source.pos src = 0.

(** Every source has recorded one entry for each train of the open
    file, and its offsets are consecutive from 0. *)
Definition index_in_step {Row} (s : FileWriterBase.t Row) : Prop :=
  Forall (fun x => length (Source.count x.2) = length (FileWriterBase.trains s)
                   /\ chained x.2)
         (FileWriterBase.sources s).

(** An instrument source for which nothing is staged expects no entry. *)
Definition unstaged_expect_none {Row} (s : FileWriterBase.t Row) : Prop :=
  Forall (fun x => Source.stype x.2 = 1 ->
                   FileWriterBase._train_data s !! x.1 = None ->
                   Source.nrec x.2 = 0)
         (FileWriterBase.sources s).

(** The train ids of the write_train calls of a session, in call order. *)
Definition train_ids {Row} (calls : list (writer_call Row)) : list Z :=
  omap (fun c => match c with
                 | WWriteTrain tid _ => Some tid
                 | _ => None
                 end) calls.

(** The train ids recorded in the files on disk, file after file. *)
Definition disk_trains {Row} (dk : list (File Row)) : list Z :=
  dk ≫= (fun f => default [] (index_rows f "trainId")).

(** A file that records exactly [n] trains. *)
Definition holds_trains {Row} (n : Z) (f : File Row) : Prop :=
  exists tr, index_rows f "trainId" = Some tr /\ len tr = n.

(** What a session keeps: the closed files are those of the sequence
    numbers before the current one; with the train ids of the open file
    they hold the ids written so far, in order; and, when the run is
    broken into files of at most [max_train_per_file >= 1] trains, no
    file holds more and every closed one is full. *)
Definition session_files {Row} (fn : Z -> string) (meta : Options.t)
    (s : FileWriterBase.t Row) (tids : list Z) : Prop :=
  wf_sources s /\ wf_index s
  /\ FileWriterBase.filename s = fn /\ FileWriterBase._meta s = meta
  /\ FileWriterBase.seq s = len (FileWriterBase.disk s)
  /\ Forall (fun f => exists i, 0 <= i < FileWriterBase.seq s /\ path f = fn i)
       (FileWriterBase.disk s)
  /\ disk_trains (FileWriterBase.disk s) ++ FileWriterBase.trains s = tids
  /\ (Options.break_into_sequence meta = false -> FileWriterBase.disk s = [])
  /\ (Options.break_into_sequence meta = true ->
      1 <= Options.max_train_per_file meta ->
      len (FileWriterBase.trains s) <= Options.max_train_per_file meta
      /\ Forall (holds_trains (Options.max_train_per_file meta))
           (FileWriterBase.disk s)).

(** ** The shape check of a submitted value *)

(* np.broadcast_shapes for two shapes, on the reversed shapes: the
   trailing axes are paired, an axis of length 1 stretches to the other
   one, a missing axis counts as 1 (NumPy's broadcasting rule) *)
Fixpoint broadcast_rev (a b : list Z) : result (list Z) :=
  match a, b with
  | [], _ => Ok b
  | _, [] => Ok a
  | x :: a', y :: b' =>
      let! r := broadcast_rev a' b' in
      if x =? y then Ok (x :: r)
      else if x =? 1 then Ok (y :: r)
      else if y =? 1 then Ok (x :: r)
      else Raise ValueError
  end.

Definition broadcast_shapes (a b : list Z) : result (list Z) :=
  let! r := broadcast_rev (reverse a) (reverse b) in Ok (reverse r).

(* FileWriterBase.__check_value(value, entry_shape, dtype), given
   np.shape(value); the dtype is not looked at *)
Definition check_value (value_shape entry_shape : list Z) : result Z :=
  let! shape := broadcast_shapes value_shape (1 :: entry_shape) in
  if decide (shape = entry_shape) then Ok 1
  else if decide (getslice shape (Slice (Some 1) None) = entry_shape)
  then getitem shape 0
  else Raise ValueError.

(** ** Options: the attributes of class Meta

    [meta] is [meta.__dict__], the attributes of the class by name.
    The options are ints and bools; an attribute is kept as the kind of
    value its option has (Python's [True] is the int 1 where an int is
    used, and an int is true where a condition is tested unless it
    is 0). *)

Inductive attr_value : Type :=
| AInt (z : Z)
| ABool (b : bool).

Definition as_int (v : attr_value) : Z :=
  match v with AInt z => z | ABool b => int b end.

Definition as_bool (v : attr_value) : bool :=
  match v with AInt z => negb (z =? 0) | ABool b => b end.

Definition Options_NAMES : list string :=
  ["max_train_per_file"; "break_into_sequence"; "warn_on_missing_data";
   "class_attrs_interface"; "buffering"]%string.

(* getattr(opts, attr_name) *)
Definition Options_getattr (opts : Options.t) (attr_name : string)
  : result attr_value :=
  if decide (attr_name = "max_train_per_file"%string)
  then Ok (AInt (Options.max_train_per_file opts))
  else if decide (attr_name = "break_into_sequence"%string)
  then Ok (ABool (Options.break_into_sequence opts))
  else if decide (attr_name = "warn_on_missing_data"%string)
  then Ok (ABool (Options.warn_on_missing_data opts))
  else if decide (attr_name = "class_attrs_interface"%string)
  then Ok (ABool (Options.class_attrs_interface opts))
  else if decide (attr_name = "buffering"%string)
  then Ok (ABool (Options.buffering opts))
  else Raise AttributeError.

(* setattr(self, attr_name, v), for the names of NAMES *)
Definition Options_setattr (self : Options.t) (attr_name : string)
    (v : attr_value) : Options.t :=
  if decide (attr_name = "max_train_per_file"%string)
  then Options.Build (as_int v) (Options.break_into_sequence self)
         (Options.warn_on_missing_data self)
         (Options.class_attrs_interface self) (Options.buffering self)
  else if decide (attr_name = "break_into_sequence"%string)
  then Options.Build (Options.max_train_per_file self) (as_bool v)
         (Options.warn_on_missing_data self)
         (Options.class_attrs_interface self) (Options.buffering self)
  else if decide (attr_name = "warn_on_missing_data"%string)
  then Options.Build (Options.max_train_per_file self)
         (Options.break_into_sequence self) (as_bool v)
         (Options.class_attrs_interface self) (Options.buffering self)
  else if decide (attr_name = "class_attrs_interface"%string)
  then Options.Build (Options.max_train_per_file self)
         (Options.break_into_sequence self)
         (Options.warn_on_missing_data self) (as_bool v)
         (Options.buffering self)
  else if decide (attr_name = "buffering"%string)
  then Options.Build (Options.max_train_per_file self)
         (Options.break_into_sequence self)
         (Options.warn_on_missing_data self)
         (Options.class_attrs_interface self) (as_bool v)
  else self.

Definition Options_copy (self : Options.t) (opts : option Options.t)
  : result Options.t :=
  match opts with
  | None => Ok self
  | Some opts =>
      for_each Options_NAMES
        (fun self attr_name =>
           let! v := Options_getattr opts attr_name in
           Ok (Options_setattr self attr_name v))
        self
  end.

(* del d[k], d.pop(k) *)
Definition dict_del {V} (d : list (string * V)) (k : string) : dict V :=
  filter (fun kv => kv.1 ≠ k) d.

(* s.startswith('_') *)
Definition startswith_underscore (s : string) : bool :=
  match s with
  | String c _ => bool_decide (c = "_"%char)
  | EmptyString => false
  end.

Definition Options_override_defaults (self : Options.t)
    (meta : option (dict attr_value)) : result Options.t :=
  match meta with
  | None => Ok self
  | Some attrs =>
      let meta_attrs :=
        foldl (fun meta_attrs attr_name =>
                 if startswith_underscore attr_name
                 then dict_del meta_attrs attr_name else meta_attrs)
              attrs attrs.*1 in
      let '(self, meta_attrs) :=
        foldl (fun '(self, meta_attrs) attr_name =>
                 match dict_get meta_attrs attr_name with
                 | Ok v => (Options_setattr self attr_name v,
                            dict_del meta_attrs attr_name)
                 | Raise _ => (self, meta_attrs)
                 end)
              (self, meta_attrs) Options_NAMES in
      match meta_attrs with
      | [] => Ok self
      | _ => Raise TypeError
      end
  end.

(* Options(meta, base) *)
Definition Options_init (meta : option (dict attr_value))
    (base : option Options.t) : result Options.t :=
  let! self := Options_copy Options.default base in
  Options_override_defaults self meta.

(** The option a class gets for [attr_name]: the attribute of Meta if
    there is one, else the value [inherited]. *)
Definition meta_or (meta : option (dict attr_value)) (attr_name : string)
    (inherited : attr_value) : attr_value :=
  match meta with
  | Some attrs =>
      match dict_get attrs attr_name with
      | Ok v => v
      | Raise _ => inherited
      end
  | None => inherited
  end.

(** ** Sample sessions *)

(* 'run-{seq}'.format(seq=seq) *)
Definition seq_name (seq : Z) : string := "run-" +:+ pretty seq.

(** The class of [rotating_writer] with the file name pattern
    [run-{seq}], and a session of two trains on it. *)
Definition sequence_writer : result (FileWriterBase.t Z) :=
  FileWriterBase.init
    [("CONTROL", "dev"); ("INSTRUMENT", "dev:out/data")]%string
    [("x", control_x); ("v", scalar_instrument)]%string
    rotating_options seq_name [].

Definition session_calls : list (writer_call Z) :=
  [WAdd [("x", [7]); ("v", [1; 2; 3])]%string; WWriteTrain 101 (Some 11);
   WAddValue "v" [4; 5]; WWriteTrain 102 (Some 12)].

(** A class Meta that sets two options and has a private attribute. *)
Definition sample_meta : dict attr_value :=
  [("__module__", AInt 0); ("max_train_per_file", AInt 10);
   ("break_into_sequence", ABool true)]%string.

(** A call that does not end in the failure write_train raises for
    data that was not submitted. *)
Definition no_rejection {A} (m : result A) : Prop :=
  forall status, m <> Raise (ValueError_not_submitted status).

(** Two lists of (source, missed keys) that name the same sources in
    the same order, each with the same keys.  The keys of a source come
    out of a Python set, whose order is not fixed. *)
Definition same_report (a b : list (string * list string)) : Prop :=
  Forall2 (fun x y => x.1 = y.1 /\ x.2 ≡ₚ y.2) a b.

(** A writer of the class of [rotating_writer], with
    [warn_on_missing_data] as given, that has a value staged for its
    control source and nothing for its instrument source. *)
Definition unsubmitted_writer (warn : bool) : result (FileWriterBase.t Z) :=
  let! s := FileWriterBase.init
              [("CONTROL", "dev"); ("INSTRUMENT", "dev:out/data")]%string
              [("x", control_x); ("v", scalar_instrument)]%string
              (Options.Build 2 true warn true true) run_name [] in
  FileWriterBase.add_value s "x" [7].

(** A class with one control source of one field; a session on it that
    submits 7, writes two trains, submits 8 and writes a third train,
    then closes.  The result is the files on disk. *)
Definition control_run (buffering : bool) : result (list (File Z)) :=
  let! s := FileWriterBase.init [("CONTROL", "dev")]%string
              [("x", control_x)]%string
              (Options.Build 500 false false true buffering)
              (fun seq => "run.h5"%string) [] in
  let! s := FileWriterBase.add s [("x", [7])]%string in
  let! s := FileWriterBase.write_train s 101 (Some 11) in
  let! s := FileWriterBase.write_train s 102 (Some 12) in
  let! s := FileWriterBase.add s [("x", [8])]%string in
  let! s := FileWriterBase.write_train s 103 (Some 13) in
  let! s := FileWriterBase.close s in
  Ok (FileWriterBase.disk s).

(** ** Classes that can be instantiated *)



(** ** Rows and index under buffering *)

(** A writer slot of a source with a buffered writer that has room in
    its staging block and holds [p] rows, those of its array and those
    it has staged. *)
Definition holds_rows {Row} (p : Z) (o : option (DatasetWriter.t Row)) : Prop :=
  exists w, o = Some (DatasetWriter.Buffered w)
            /\ idle w /\ len (contents w) = p.

(** A source with a writer slot for each of its datasets, each writer
    holding as many rows as the source has counted. *)
Definition source_rows {Row} (src : Source.t Row) : Prop :=
  length (Source.file_ds src) = length (Source.datasets src)
  /\ Forall (holds_rows (Source.pos src)) (Source.file_ds src).

(** The sources of a writer have their rows, and an instrument source
    for which no value is staged expects no entry. *)
Definition rows_in_step {Row} (s : FileWriterBase.t Row) : Prop :=
  Forall (fun x => source_rows x.2
                   /\ (Source.stype x.2 = 1 ->
                       size (staged_data s x.1) = 0%nat ->
                       Source.nrec x.2 = 0))
         (FileWriterBase.sources s).

(** * Properties *)

(** ** Results *)

Lemma bind_Ok {A B} (m : result A) (k : A -> result B) (b : B) :
  bind m k = Ok b <-> exists a, m = Ok a /\ k a = Ok b.
Proof.
  destruct m as [a|e]; simpl; split.
  - intros H. exists a. auto.
  - intros (a' & Ha & Hk). congruence.
  - discriminate.
  - intros (a' & Ha & _). discriminate.
Qed.

(* take a successful sequence of binds apart *)
Ltac inv_ok :=
  repeat match goal with
    | H : bind _ _ = Ok _ |- _ =>
        let a := fresh "a" in
        let Ha := fresh "Ha" in
        apply bind_Ok in H; destruct H as (a & Ha & H)
    | H : Ok _ = Ok _ |- _ => injection H as H
    | H : Raise _ = Ok _ |- _ => discriminate H
    | H : (let '(_, _) := ?p in _) = Ok _ |- _ => destruct p
    end.

(* the value a call returns, computed *)
Ltac returned t :=
  let r := eval vm_compute in t in
  match r with Ok ?s => s end.

(** ** Chunk autosizing *)

Section Autosize.
Context {Row : Type}.
Implicit Types (self : Dataset.t Row).

Lemma chunks_autosize_override self max_trains :
  Dataset.chunks self <> None ->
  Dataset.chunks_autosize self max_trains = None.
Proof.
  unfold Dataset.chunks_autosize. destruct (Dataset.chunks self); congruence.
Qed.

Lemma chunks_autosize_shape self max_trains shape :
  Dataset.chunks_autosize self max_trains = Some shape ->
  exists rows, shape = rows :: Dataset.entry_shape self.
Proof.
  unfold Dataset.chunks_autosize.
  destruct (Dataset.chunks self); [discriminate|].
  intros [= <-]. eauto.
Qed.

(* whatever the entry is, the rows are at least the smaller of 32 and
   the train capacity, and a control dataset has at most the capacity *)
Lemma chunks_autosize_rows self max_trains :
  Dataset.chunks self = None ->
  exists rows,
    Dataset.chunks_autosize self max_trains
      = Some (rows :: Dataset.entry_shape self)
    /\ Z.min 32 max_trains <= rows
    /\ (Dataset.stype self = 0 -> rows <= max_trains).
Proof.
  intros Hc. unfold Dataset.chunks_autosize. rewrite Hc.
  eexists. split; [reflexivity|].
  destruct (np_prod (Dataset.entry_shape self) =? 1);
    destruct (1 <? len (Dataset.entry_shape self)); simpl;
    match goal with
    | |- context [?a `div` ?b] => generalize (a `div` b); intros q
    end;
    destruct (Z.eqb_spec (Dataset.stype self) 0); split; intros; lia.
Qed.

End Autosize.

(** C8: when a dataset is autosized (it has no chunks override, the
    case in which [chunks_autosize] computes a shape), with
    [nbytes > 0] and a train capacity [max_trains >= 1],
    [chunks_autosize] returns [(rows,) + entry_shape] with [rows >= 1],
    and [rows <= max_trains] for a control dataset.  The capacity is
    the [max_train_per_file] of the writer's class. *)
Theorem autosize_rows_bounds {Row} (self : Dataset.t Row) (max_trains : Z) :
  Dataset.chunks self = None ->
  0 < Dataset.entry_nbytes self ->
  1 <= max_trains ->
  exists rows,
    Dataset.chunks_autosize self max_trains
      = Some (rows :: Dataset.entry_shape self)
    /\ 1 <= rows
    /\ (Dataset.stype self = 0 -> rows <= max_trains).
Proof.
  intros Hc _ Hm.
  destruct (chunks_autosize_rows self max_trains Hc) as (rows & Hr & Hlo & Hhi).
  exists rows. repeat split; auto. lia.
Qed.

Lemma autosize_rows_bounds_witness :
  exists rows,
    Dataset.chunks_autosize scalar_control 500 = Some [rows]
    /\ 1 <= rows /\ (Dataset.stype scalar_control = 0 -> rows <= 500).
Proof.
  apply (autosize_rows_bounds scalar_control 500);
    [reflexivity | reflexivity | lia].
Defined.

(** ** The direct writer *)

Section DirectWriter.
Context {Row : Type}.
Implicit Types (w : @DatasetDirectWriter.t Row).

(* write never moves the position *)
Lemma direct_write_pos w data nrec w' :
  DatasetDirectWriter.write w data nrec = Ok w' ->
  DatasetWriterBase.pos w' = DatasetWriterBase.pos w.
Proof.
  unfold DatasetDirectWriter.write. intros H. inv_ok. subst w'. reflexivity.
Qed.

Lemma direct_writes_pos (calls : list (list Row * Z)) w w' :
  for_each calls (fun w '(data, nrec) => DatasetDirectWriter.write w data nrec) w
    = Ok w' ->
  DatasetWriterBase.pos w' = DatasetWriterBase.pos w.
Proof.
  revert w. induction calls as [|[data nrec] calls IH]; simpl; intros w H.
  - congruence.
  - inv_ok. rewrite (IH _ H). eauto using direct_write_pos.
Qed.

End DirectWriter.

Example buffered4_init :
  DatasetBufferedWriter.init scalar_instrument empty_array (Some [4])
  = Ok buffered4.
Proof. reflexivity. Qed.

(** C2: two single-record writes through the direct writer.  The claim
    puts the second record at row 1; the code leaves [pos] at 0, resizes
    the array back to one row and overwrites the first record. *)
Theorem direct_write_second_batch_at_row_0 :
  exists w1 w2,
    DatasetDirectWriter.write direct4 [10] 1 = Ok w1
    /\ DatasetDirectWriter.write w1 [20] 1 = Ok w2
    /\ DatasetWriterBase.pos w1 = 0
    /\ DatasetWriterBase.pos w2 = 0
    /\ h5py.rows (DatasetWriterBase.file_ds w1) = [10]
    /\ h5py.rows (DatasetWriterBase.file_ds w2) = [20].
Proof. do 2 eexists. repeat split; reflexivity. Qed.

(** C1: the same two writes and a flush through both writers.  The
    buffered writer leaves rows [10; 20] in the array, the direct
    writer leaves row [20] only. *)
Theorem buffered_and_direct_differ :
  write_all (DatasetWriter.Buffered buffered4) [([10], 1); ([20], 1)]
    = Ok [10; 20]
  /\ write_all (DatasetWriter.Direct direct4) [([10], 1); ([20], 1)]
    = Ok [20].
Proof. split; reflexivity. Qed.

(** ** Python sequences *)

Section Sequences.
Context {A : Type}.
Implicit Types (l src : list A).

Lemma len_nonneg l : 0 <= len l.
Proof. unfold len. lia. Qed.

Lemma len_app l k : len (l ++ k) = len l + len k.
Proof. unfold len. rewrite length_app. lia. Qed.

Lemma len_take l n : 0 <= n <= len l -> len (take (Z.to_nat n) l) = n.
Proof. unfold len. intros H. rewrite length_take. lia. Qed.

Lemma len_drop l n : 0 <= n <= len l -> len (drop (Z.to_nat n) l) = len l - n.
Proof. unfold len. intros H. rewrite length_drop. lia. Qed.

Lemma getslice_prefix l n :
  0 <= n -> getslice l (Slice None (Some n)) = take (Z.to_nat n) l.
Proof.
  intros Hn. unfold getslice, slice_indices, slice_bound; simpl.
  destruct (Z.ltb_spec n 0); [lia|]. rewrite drop_0, Z.sub_0_r.
  destruct (Z.le_ge_cases n (len l)).
  - rewrite Z.min_l by lia. reflexivity.
  - rewrite Z.min_r by lia. unfold len in *.
    rewrite !take_ge by lia. reflexivity.
Qed.

Lemma getslice_suffix l n :
  0 <= n -> getslice l (Slice (Some n) None) = drop (Z.to_nat n) l.
Proof.
  intros Hn. unfold getslice, slice_indices, slice_bound; simpl.
  destruct (Z.ltb_spec n 0); [lia|].
  destruct (Z.le_ge_cases n (len l)).
  - rewrite Z.min_l by lia. unfold len in *.
    apply take_ge. rewrite length_drop. lia.
  - rewrite Z.min_r by lia. unfold len in *.
    rewrite !drop_ge by lia. apply take_nil.
Qed.

Lemma getslice_all l : getslice l (Slice None None) = l.
Proof.
  unfold getslice, slice_indices; simpl. rewrite drop_0, Z.sub_0_r.
  unfold len. apply take_ge. lia.
Qed.

Lemma broadcast_rows_exact src n : len src = n -> broadcast_rows src n = Ok src.
Proof.
  intros H. unfold broadcast_rows. rewrite (proj2 (Z.eqb_eq _ _) H). reflexivity.
Qed.

Lemma broadcast_rows_len src n rows :
  0 <= n -> broadcast_rows src n = Ok rows -> len rows = n.
Proof.
  unfold broadcast_rows. intros Hn.
  destruct (Z.eqb_spec (len src) n) as [He|He].
  - intros [= <-]. exact He.
  - destruct src as [|r [|? ?]]; try discriminate.
    intros [= <-]. unfold len. rewrite length_replicate. lia.
Qed.

(* a[lo:hi] = src for a range inside the array *)
Lemma np_setslice_inside l lo hi src :
  0 <= lo <= hi -> hi <= len l -> len src = hi - lo ->
  np_setslice l (Slice (Some lo) (Some hi)) src
  = Ok (take (Z.to_nat lo) l ++ src ++ drop (Z.to_nat hi) l).
Proof.
  intros Hlo Hhi Hsrc.
  unfold np_setslice, slice_indices, slice_bound; simpl.
  destruct (Z.ltb_spec lo 0); [lia|]. destruct (Z.ltb_spec hi 0); [lia|].
  rewrite !Z.min_l by lia. rewrite Z.max_l by lia.
  rewrite broadcast_rows_exact by lia. simpl.
  replace (lo + (hi - lo)) with hi by lia. reflexivity.
Qed.

Lemma np_setslice_prefix l hi src :
  0 <= hi <= len l -> len src = hi ->
  np_setslice l (Slice None (Some hi)) src
  = Ok (src ++ drop (Z.to_nat hi) l).
Proof.
  intros Hhi Hsrc.
  unfold np_setslice, slice_indices, slice_bound; simpl.
  destruct (Z.ltb_spec hi 0); [lia|].
  rewrite !Z.min_l by lia. rewrite Z.max_l by lia.
  rewrite broadcast_rows_exact by lia. simpl.
  rewrite Z.sub_0_r. reflexivity.
Qed.

Lemma np_setslice_suffix l lo src :
  0 <= lo <= len l -> len src = len l - lo ->
  np_setslice l (Slice (Some lo) None) src
  = Ok (take (Z.to_nat lo) l ++ src).
Proof.
  intros Hlo Hsrc.
  unfold np_setslice, slice_indices, slice_bound; simpl.
  destruct (Z.ltb_spec lo 0); [lia|].
  rewrite !Z.min_l by lia. rewrite Z.max_l by lia.
  rewrite broadcast_rows_exact by lia. simpl.
  rewrite drop_ge, app_nil_r by (unfold len in *; lia). reflexivity.
Qed.

Lemma np_setslice_len l s src l' :
  np_setslice l s src = Ok l' -> len l' = len l.
Proof.
  unfold np_setslice.
  destruct (slice_indices (len l) s) as [lo hi] eqn:Hs.
  intros H. inv_ok. subst l'.
  assert (0 <= lo <= len l /\ 0 <= hi <= len l) as [Hlo Hhi].
  { pose proof (len_nonneg l).
    unfold slice_indices, slice_bound in Hs. injection Hs as <- <-.
    destruct (start s), (stop s); simpl;
      repeat match goal with |- context [?x <? 0] => destruct (Z.ltb_spec x 0) end;
      lia. }
  apply broadcast_rows_len in Ha; [|lia].
  rewrite !len_app, Ha. unfold len in *.
  rewrite length_take, length_drop. lia.
Qed.

End Sequences.

(** ** The storage engine *)

Section Storage.
Context {A : Type}.
Implicit Types (ds : h5py.dataset A).

(* growing an array keeps its rows and pads with the fill value *)
Lemma resize_grow ds n :
  len (h5py.rows ds) <= n ->
  h5py.resize ds n
  = Ok (h5py.with_rows ds
          (h5py.rows ds
           ++ replicate (Z.to_nat (n - len (h5py.rows ds))) (h5py.fillvalue ds))).
Proof.
  intros H. pose proof (len_nonneg (h5py.rows ds)).
  unfold h5py.resize. destruct (Z.ltb_spec n 0); [lia|].
  unfold len in *. rewrite take_ge by lia.
  do 4 f_equal. lia.
Qed.

(* a write into rows [lo, hi) of an array that has them *)
Lemma write_direct_inside ds source ssel lo hi :
  0 <= lo <= hi -> hi <= len (h5py.rows ds) ->
  len (getslice source ssel) = hi - lo ->
  h5py.write_direct ds source ssel (Slice (Some lo) (Some hi))
  = Ok (h5py.with_rows ds
          (take (Z.to_nat lo) (h5py.rows ds) ++ getslice source ssel
           ++ drop (Z.to_nat hi) (h5py.rows ds))).
Proof.
  intros Hlo Hhi Hsrc. unfold h5py.write_direct, h5py.select; simpl.
  destruct (Z.leb_spec 0 lo); [|lia]. destruct (Z.leb_spec lo hi); [|lia].
  destruct (Z.leb_spec hi (len (h5py.rows ds))); [|lia]. simpl.
  unfold h5py.put. rewrite broadcast_rows_exact by assumption. reflexivity.
Qed.

(* the same, the rows of the array given in three parts *)
Lemma write_direct_middle ds source ssel lo hi a b c :
  h5py.rows ds = a ++ b ++ c ->
  len a = lo -> len b = hi - lo ->
  len (getslice source ssel) = hi - lo ->
  h5py.write_direct ds source ssel (Slice (Some lo) (Some hi))
  = Ok (h5py.with_rows ds (a ++ getslice source ssel ++ c)).
Proof.
  intros Hr Ha Hb Hsrc.
  pose proof (len_nonneg a). pose proof (len_nonneg b). pose proof (len_nonneg c).
  rewrite write_direct_inside; try lia.
  - rewrite Hr. do 3 f_equal.
    + apply take_app_length'. unfold len in *. lia.
    + f_equal. rewrite app_assoc. apply drop_app_length'.
      rewrite length_app. unfold len in *. lia.
  - rewrite Hr, !len_app. lia.
Qed.

(* a write that ends beyond the extent is rejected *)
Lemma write_direct_beyond ds source ssel lo hi :
  len (h5py.rows ds) < hi ->
  h5py.write_direct ds source ssel (Slice (Some lo) (Some hi))
  = Raise TypeError.
Proof.
  intros H. unfold h5py.write_direct, h5py.select; simpl.
  destruct (Z.leb_spec hi (len (h5py.rows ds))); [lia|].
  rewrite !andb_false_r. reflexivity.
Qed.

End Storage.

(** ** The buffered writer *)

Section BufferedWriter.
Context {Row : Type}.
Import DatasetBufferedWriter.
Implicit Types (w : DatasetBufferedWriter.t Row).

Lemma flush_nbuf w w' : flush w = Ok w' -> nbuf w' = 0 /\ size w' = size w.
Proof.
  unfold flush. destruct (Z.eqb_spec (nbuf w) 0) as [He|He]; simpl; intros H.
  - injection H as <-. auto.
  - inv_ok. subst w'. auto.
Qed.

Lemma flush_spec w :
  consistent w ->
  exists w',
    flush w = Ok w'
    /\ h5py.rows (file_ds w') = contents w
    /\ nbuf w' = 0 /\ size w' = size w /\ _data w' = _data w
    /\ consistent w'.
Proof.
  unfold consistent, contents, flush. intros (Hn & Hd & Hp).
  pose proof (len_nonneg (h5py.rows (file_ds w))) as Hr.
  destruct (Z.eqb_spec (nbuf w) 0) as [He|He]; simpl.
  - exists w. rewrite He. simpl. rewrite app_nil_r.
    repeat split; auto; lia.
  - rewrite resize_grow by lia. simpl.
    rewrite write_direct_inside; simpl.
    + eexists. split; [reflexivity|].
      unfold file_ds, pos in *; simpl.
      rewrite getslice_prefix by lia.
      replace (Z.to_nat (DatasetWriterBase.pos (base w)))
        with (length (h5py.rows (DatasetWriterBase.file_ds (base w))))
        by (unfold len in Hp; lia).
      rewrite take_app_length.
      rewrite drop_ge, app_nil_r.
      2:{ rewrite length_app, length_replicate. unfold len in *. lia. }
      rewrite len_app, len_take by lia.
      repeat split; auto; lia.
    + lia.
    + rewrite len_app. unfold len at 2. rewrite length_replicate. lia.
    + rewrite getslice_prefix, len_take by lia. lia.
Qed.

Lemma write_one_spec w r :
  idle w ->
  exists w',
    write_one w [r] = Ok w'
    /\ contents w' = contents w ++ [r]
    /\ size w' = size w /\ idle w'.
Proof.
  intros ((Hn & Hd & Hp) & Hlt). unfold write_one, np_setitem, index_of.
  destruct (Z.ltb_spec (nbuf w) 0); [lia|].
  destruct (Z.ltb_spec (nbuf w) 0); [lia|].
  destruct (Z.leb_spec (len (_data w)) (nbuf w)); [lia|]. simpl.
  set (d := <[Z.to_nat (nbuf w) := r]> (_data w)).
  set (w1 := set_buf w d (nbuf w + 1)).
  assert (Hc1 : consistent w1).
  { unfold consistent, w1, d; simpl. unfold len in *.
    rewrite length_insert. repeat split; auto; lia. }
  assert (Hcont : contents w1 = contents w ++ [r]).
  { unfold contents, w1, d; simpl. rewrite <- app_assoc. f_equal.
    replace (Z.to_nat (nbuf w + 1)) with (S (Z.to_nat (nbuf w))) by lia.
    erewrite take_S_r.
    - rewrite take_insert_ge by lia. reflexivity.
    - apply list_lookup_insert_eq. unfold len in *. lia. }
  destruct (Z.leb_spec (size w) (nbuf w + 1)) as [Hfull|Hfree].
  - destruct (flush_spec w1 Hc1) as (w' & Hf & Hrows & Hnb & Hsz & Hdat & Hc').
    exists w'. split; [exact Hf|].
    split.
    + unfold contents at 1. rewrite Hnb, Hrows. simpl.
      rewrite app_nil_r. exact Hcont.
    + split; [exact Hsz|]. split; [exact Hc'|]. rewrite Hnb, Hsz. simpl. lia.
  - exists w1. split; [reflexivity|]. split; [exact Hcont|].
    split; [reflexivity|]. split; [exact Hc1|]. simpl. lia.
Qed.

(* copy: the batch fits into the free staging rows *)
Lemma write_many_copy w arr nrec :
  idle w -> len arr = nrec -> nrec < size w - nbuf w ->
  exists w',
    write_many w arr nrec = Ok w'
    /\ contents w' = contents w ++ arr
    /\ size w' = size w /\ idle w'.
Proof.
  intros ((Hn & Hd & Hp) & Hlt) Harr Hfit.
  pose proof (len_nonneg arr).
  unfold write_many.
  destruct (Z.ltb_spec (nrec - (size w - nbuf w)) 0); [|lia].
  rewrite np_setslice_inside by lia. simpl.
  eexists. split; [reflexivity|].
  unfold idle, consistent, contents; simpl.
  rewrite !len_app, len_take, len_drop by lia.
  split; [|repeat split; auto; lia].
  rewrite <- app_assoc. f_equal.
  rewrite app_assoc. apply take_app_length'.
  rewrite length_app, length_take. unfold len in *. lia.
Qed.

(* copy, flush, copy: the flush writes beyond the extent *)
Lemma write_many_top_off w arr nrec :
  idle w -> len arr = nrec ->
  nbuf w <> 0 -> size w - nbuf w <= nrec -> nrec - (size w - nbuf w) < size w ->
  write_many w arr nrec = Raise TypeError.
Proof.
  intros ((Hn & Hd & Hp) & Hlt) Harr Hnz Hfull Hrest.
  unfold write_many.
  destruct (Z.ltb_spec (nrec - (size w - nbuf w)) 0); [lia|].
  destruct (Z.eqb_spec (nbuf w) 0); [lia|].
  destruct (Z.ltb_spec (nrec - (size w - nbuf w)) (size w)); [|lia]. simpl.
  rewrite getslice_prefix by lia.
  rewrite np_setslice_suffix by (rewrite ?len_take; lia). simpl.
  rewrite write_direct_beyond by lia. reflexivity.
Qed.

(* flush, write, copy: whole chunks go to the array, the rest is staged *)
Lemma write_many_bulk w arr nrec :
  idle w -> len arr = nrec ->
  size w - nbuf w <= nrec ->
  (nbuf w = 0 \/ size w <= nrec - (size w - nbuf w)) ->
  exists w',
    write_many w arr nrec = Ok w'
    /\ contents w' = contents w ++ arr
    /\ size w' = size w /\ idle w'.
Proof.
  intros ((Hn & Hd & Hp) & Hlt) Harr Hfull Hcase.
  pose proof (len_nonneg arr).
  pose proof (Z.mod_pos_bound nrec (size w) ltac:(lia)) as Hmod.
  pose proof (Z.mod_le nrec (size w) ltac:(lia) ltac:(lia)) as Hle.
  unfold write_many.
  destruct (Z.ltb_spec (nrec - (size w - nbuf w)) 0); [lia|].
  replace (negb (nbuf w =? 0) && (nrec - (size w - nbuf w) <? size w))
    with false.
  2:{ destruct (Z.eqb_spec (nbuf w) 0); simpl; [reflexivity|].
      symmetry. apply Z.ltb_ge. lia. }
  destruct (Z.eqb_spec (size w) 0); [lia|].
  set (nrest := nrec `mod` size w) in *.
  set (nwrite := nrec - nrest).
  rewrite resize_grow by lia. simpl.
  replace (Z.to_nat (pos w + nbuf w + nwrite - len (h5py.rows (file_ds w))))
    with (Z.to_nat (nbuf w) + Z.to_nat nwrite)%nat by lia.
  rewrite replicate_add.
  set (fill := h5py.fillvalue (file_ds w)).
  assert (Hstaged :
    (if negb (nbuf w =? 0)
     then h5py.write_direct
            (h5py.with_rows (file_ds w)
               (h5py.rows (file_ds w)
                ++ replicate (Z.to_nat (nbuf w)) fill
                ++ replicate (Z.to_nat nwrite) fill))
            (_data w) (Slice None (Some (nbuf w)))
            (Slice (Some (pos w)) (Some (pos w + nbuf w)))
     else Ok (h5py.with_rows (file_ds w)
               (h5py.rows (file_ds w)
                ++ replicate (Z.to_nat (nbuf w)) fill
                ++ replicate (Z.to_nat nwrite) fill)))
    = Ok (h5py.with_rows (file_ds w)
            (h5py.rows (file_ds w) ++ take (Z.to_nat (nbuf w)) (_data w)
             ++ replicate (Z.to_nat nwrite) fill))).
  { destruct (Z.eqb_spec (nbuf w) 0) as [He|He]; simpl.
    - rewrite He. reflexivity.
    - erewrite write_direct_middle; [|reflexivity|lia| |].
      + rewrite getslice_prefix by lia. reflexivity.
      + unfold len. rewrite length_replicate. lia.
      + rewrite getslice_prefix, len_take by lia. lia. }
  rewrite Hstaged. simpl.
  erewrite (write_direct_middle _ arr _ (pos w + nbuf w) (pos w + nbuf w + nwrite)
             (h5py.rows (file_ds w) ++ take (Z.to_nat (nbuf w)) (_data w))
             (replicate (Z.to_nat nwrite) fill) []).
  2:{ simpl. rewrite app_nil_r, <- app_assoc. reflexivity. }
  2:{ rewrite len_app, len_take by lia. lia. }
  2:{ unfold len. rewrite length_replicate. lia. }
  2:{ rewrite getslice_prefix, len_take by lia. lia. }
  simpl. rewrite getslice_prefix, getslice_suffix by lia.
  rewrite np_setslice_prefix by (rewrite ?len_drop; lia). simpl.
  eexists. split; [reflexivity|].
  unfold idle, consistent, contents, pos, file_ds in *; simpl.
  rewrite app_nil_r.
  rewrite !len_app, !len_take, !len_drop by lia.
  split; [|repeat split; auto; lia].
  rewrite take_app_length' by (rewrite length_drop; unfold len in *; lia).
  rewrite <- !app_assoc. do 2 f_equal. apply take_drop.
Qed.

End BufferedWriter.

Section BufferedWriterCalls.
Context {Row : Type}.
Import DatasetBufferedWriter.
Implicit Types (w : DatasetBufferedWriter.t Row).

(* write(data, nrec) appends the broadcast rows when it returns *)
Lemma write_appends w data nrec w' :
  idle w -> write w data nrec = Ok w' ->
  exists rows,
    broadcast_to data nrec = Ok rows
    /\ contents w' = contents w ++ rows
    /\ size w' = size w /\ idle w'.
Proof.
  intros Hidle. unfold write.
  destruct (Z.eqb_spec nrec 1) as [->|Hne].
  - intros H.
    assert (exists r, data = [r]) as [r ->].
    { unfold write_one, np_setitem in H. inv_ok.
      destruct data as [|r [|? ?]]; try discriminate. eauto. }
    destruct (write_one_spec w r Hidle) as (w'' & Hw & Hc & Hs & Hi).
    rewrite Hw in H. injection H as <-. exists [r]. auto.
  - intros H. inv_ok. rename a into arr. exists arr.
    split; [exact Ha|].
    assert (0 <= nrec /\ len arr = nrec) as [Hn Harr].
    { unfold broadcast_to in Ha. destruct (Z.ltb_spec nrec 0); [discriminate|].
      split; [lia|]. eapply broadcast_rows_len; eauto. }
    destruct (Z.lt_ge_cases nrec (size w - nbuf w)) as [Hfit|Hfull].
    + destruct (write_many_copy w arr nrec Hidle Harr Hfit) as (w'' & Hw & ?).
      rewrite Hw in H. injection H as <-. auto.
    + destruct (Z.eq_dec (nbuf w) 0) as [Hz|Hnz].
      * destruct (write_many_bulk w arr nrec Hidle Harr Hfull (or_introl Hz))
          as (w'' & Hw & ?).
        rewrite Hw in H. injection H as <-. auto.
      * destruct (Z.lt_ge_cases (nrec - (size w - nbuf w)) (size w)) as [Hr|Hr].
        -- rewrite write_many_top_off in H; auto. discriminate.
        -- destruct (write_many_bulk w arr nrec Hidle Harr Hfull (or_intror Hr))
             as (w'' & Hw & ?).
           rewrite Hw in H. injection H as <-. auto.
Qed.

Lemma write_one_nbuf w value w' :
  0 < size w -> write_one w value = Ok w' ->
  nbuf w' < size w' /\ size w' = size w.
Proof.
  intros Hs H. unfold write_one in H. inv_ok.
  simpl in H. destruct (Z.leb_spec (size w) (nbuf w + 1)).
  - apply flush_nbuf in H. simpl in H. lia.
  - injection H as <-. simpl. lia.
Qed.

Lemma write_many_nbuf w arr nrec w' :
  0 < size w -> nbuf w < size w -> write_many w arr nrec = Ok w' ->
  nbuf w' < size w' /\ size w' = size w.
Proof.
  intros Hs Hn H. unfold write_many in H.
  destruct (Z.ltb_spec (nrec - (size w - nbuf w)) 0).
  - inv_ok. subst w'. simpl. lia.
  - destruct (negb (nbuf w =? 0) && (nrec - (size w - nbuf w) <? size w)) eqn:Hb.
    + apply andb_prop in Hb as [_ Hb]. apply Z.ltb_lt in Hb.
      inv_ok. subst w'. simpl. lia.
    + destruct (Z.eqb_spec (size w) 0); [discriminate|].
      inv_ok. subst w'. simpl.
      pose proof (Z.mod_pos_bound nrec (size w)). lia.
Qed.

Lemma buffered_step_nbuf w c w' :
  0 < size w -> nbuf w < size w -> buffered_step w c = Ok w' ->
  nbuf w' < size w' /\ size w' = size w.
Proof.
  intros Hs Hn. destruct c as [value|arr nrec|data nrec|]; simpl.
  - apply write_one_nbuf; auto.
  - apply write_many_nbuf; auto.
  - unfold write. destruct (nrec =? 1).
    + apply write_one_nbuf; auto.
    + intros H. inv_ok. eapply write_many_nbuf; eauto.
  - intros H. apply flush_nbuf in H. lia.
Qed.

(* a new buffered writer on a new array is idle *)
Lemma buffered_init_idle (ds : Dataset.t Row) (f : h5py.dataset Row) c shape w :
  h5py.rows f = [] -> 0 < c ->
  init ds f (Some (c :: shape)) = Ok w ->
  idle w /\ size w = c /\ nbuf w = 0.
Proof.
  intros Hf Hc H. unfold init in H.
  destruct (negb _); [discriminate|]. simpl in H. injection H as <-.
  unfold idle, consistent, file_ds, pos; simpl. rewrite Hf.
  unfold len. rewrite length_replicate. simpl. repeat split; lia.
Qed.

End BufferedWriterCalls.

(** C7: a buffered writer whose chunk row count [size] is positive and
    whose fill level is below it keeps [nbuf < size] after every
    sequence of write_one, write_many, write and flush calls that
    return, and a flush that returns leaves [nbuf = 0]. *)
Theorem buffered_fill_below_size {Row} (w : DatasetBufferedWriter.t Row)
    (calls : list (buffered_call Row)) (w' : DatasetBufferedWriter.t Row) :
  0 < DatasetBufferedWriter.size w ->
  DatasetBufferedWriter.nbuf w < DatasetBufferedWriter.size w ->
  for_each calls buffered_step w = Ok w' ->
  DatasetBufferedWriter.nbuf w' < DatasetBufferedWriter.size w'
  /\ DatasetBufferedWriter.size w' = DatasetBufferedWriter.size w
  /\ forall w'', DatasetBufferedWriter.flush w' = Ok w'' ->
                 DatasetBufferedWriter.nbuf w'' = 0.
Proof.
  revert w. induction calls as [|c calls IH]; simpl; intros w Hs Hn H.
  - injection H as <-. repeat split; auto.
    intros w'' Hf. apply flush_nbuf in Hf. tauto.
  - inv_ok. destruct (buffered_step_nbuf w c a Hs Hn Ha) as [Hn' Hs'].
    destruct (IH a) as (? & ? & ?); auto; [lia|].
    repeat split; auto. congruence.
Qed.

Lemma buffered_fill_below_size_witness :
  for_each [Write [1; 2; 3] 3; WriteOne [4]; Write [5; 6; 7; 8; 9] 5; Flush]
    buffered_step buffered4 = Ok buffered4_flushed
  /\ DatasetBufferedWriter.nbuf buffered4_flushed
     < DatasetBufferedWriter.size buffered4_flushed
  /\ DatasetBufferedWriter.size buffered4_flushed = 4
  /\ forall w'', DatasetBufferedWriter.flush buffered4_flushed = Ok w'' ->
                 DatasetBufferedWriter.nbuf w'' = 0.
Proof.
  split; [vm_compute; reflexivity|].
  apply (buffered_fill_below_size buffered4
           [Write [1; 2; 3] 3; WriteOne [4]; Write [5; 6; 7; 8; 9] 5; Flush]
           buffered4_flushed);
    [vm_compute; reflexivity | vm_compute; reflexivity | vm_compute; reflexivity].
Defined.

(** C3: a buffered writer of 4 rows per chunk takes 3 records and then 2.
    The second call is the top-off case; it sends the full block to
    rows [0, 4) of an array that still has no rows, without a resize,
    and the storage engine rejects the write. *)
Theorem top_off_writes_beyond_extent :
  exists w1,
    DatasetBufferedWriter.write_many buffered4 [1; 2; 3] 3 = Ok w1
    /\ DatasetBufferedWriter.nbuf w1 = 3
    /\ DatasetBufferedWriter.pos w1 = 0
    /\ len (h5py.rows (DatasetBufferedWriter.file_ds w1)) = 0
    /\ (negb (DatasetBufferedWriter.nbuf w1 =? 0)
        && (2 - (DatasetBufferedWriter.size w1 - DatasetBufferedWriter.nbuf w1)
            <? DatasetBufferedWriter.size w1)) = true
    /\ h5py.write_direct (DatasetBufferedWriter.file_ds w1) [1; 2; 3; 4]
         (Slice None None) (Slice (Some 0) (Some 4)) = Raise TypeError
    /\ DatasetBufferedWriter.write_many w1 [4; 5] 2 = Raise TypeError.
Proof. eexists. repeat split; reflexivity. Qed.

(** ** The buffered writer against the direct writer of the specification *)

Section Refinement.
Context {Row : Type}.
Implicit Types (wb : DatasetBufferedWriter.t Row).
Implicit Types (wd : @DatasetDirectWriter.t Row).

Lemma spec_direct_write_appends wd data nrec rows :
  len (h5py.rows (DatasetWriterBase.file_ds wd)) = DatasetWriterBase.pos wd ->
  broadcast_to data nrec = Ok rows ->
  exists wd',
    spec_direct_write wd data nrec = Ok wd'
    /\ h5py.rows (DatasetWriterBase.file_ds wd')
       = h5py.rows (DatasetWriterBase.file_ds wd) ++ rows
    /\ len (h5py.rows (DatasetWriterBase.file_ds wd'))
       = DatasetWriterBase.pos wd'.
Proof.
  intros Hp Hb. unfold broadcast_to in Hb.
  destruct (Z.ltb_spec nrec 0) as [|Hn]; [discriminate|].
  pose proof (broadcast_rows_len _ _ _ Hn Hb) as Hrows.
  pose proof (len_nonneg (h5py.rows (DatasetWriterBase.file_ds wd))) as Hr.
  unfold spec_direct_write.
  rewrite resize_grow by lia. simpl.
  unfold h5py.assign, h5py.select; simpl.
  rewrite len_app. unfold len at 2. rewrite length_replicate.
  destruct (Z.leb_spec 0 (DatasetWriterBase.pos wd)); [|lia].
  destruct (Z.leb_spec (DatasetWriterBase.pos wd) (DatasetWriterBase.pos wd + nrec));
    [|lia].
  match goal with |- context [?a <=? ?b] => destruct (Z.leb_spec a b); [|lia] end.
  simpl.
  destruct (Z.eqb_spec (DatasetWriterBase.pos wd + nrec) (DatasetWriterBase.pos wd))
    as [He|He].
  - assert (nrec = 0) as -> by lia. simpl.
    assert (rows = []) as ->.
    { destruct rows; [reflexivity|]. unfold len in Hrows. simpl in Hrows. lia. }
    eexists. split; [reflexivity|]. simpl.
    replace (Z.to_nat (DatasetWriterBase.pos wd + 0
                       - len (h5py.rows (DatasetWriterBase.file_ds wd))))
      with 0%nat by lia.
    simpl. rewrite app_nil_r. split; [reflexivity|]. lia.
  - unfold h5py.put; simpl.
    replace (DatasetWriterBase.pos wd + nrec - DatasetWriterBase.pos wd)
      with nrec by lia.
    rewrite Hb. simpl. eexists. split; [reflexivity|]. simpl.
    rewrite take_app_length' by (unfold len in *; lia).
    rewrite drop_ge, app_nil_r.
    2:{ rewrite length_app, length_replicate. unfold len in *. lia. }
    rewrite len_app. split; [reflexivity|]. lia.
Qed.

Lemma write_all_buffered_nil wb :
  write_all (DatasetWriter.Buffered wb) []
  = let! w' := DatasetBufferedWriter.flush wb in
    Ok (h5py.rows (DatasetBufferedWriter.file_ds w')).
Proof.
  unfold write_all; simpl. destruct (DatasetBufferedWriter.flush wb); reflexivity.
Qed.

Lemma write_all_buffered_cons wb data nrec calls :
  write_all (DatasetWriter.Buffered wb) ((data, nrec) :: calls)
  = let! wb' := DatasetBufferedWriter.write wb data nrec in
    write_all (DatasetWriter.Buffered wb') calls.
Proof.
  unfold write_all; simpl.
  destruct (DatasetBufferedWriter.write wb data nrec); reflexivity.
Qed.

(* whatever a run of the buffered writer leaves in the array, the
   position-advancing direct writer leaves there too *)
Lemma buffered_matches_spec_direct wb wd calls rows :
  idle wb ->
  contents wb = h5py.rows (DatasetWriterBase.file_ds wd) ->
  len (h5py.rows (DatasetWriterBase.file_ds wd)) = DatasetWriterBase.pos wd ->
  write_all (DatasetWriter.Buffered wb) calls = Ok rows ->
  spec_direct_write_all wd calls = Ok rows.
Proof.
  revert wb wd. induction calls as [|[data nrec] calls IH];
    intros wb wd Hidle Hc Hp H.
  - rewrite write_all_buffered_nil in H.
    destruct (flush_spec wb (proj1 Hidle)) as (w' & Hf & Hr & _).
    rewrite Hf in H. simpl in H. injection H as <-.
    unfold spec_direct_write_all. simpl. congruence.
  - rewrite write_all_buffered_cons in H.
    apply bind_Ok in H as (wb' & Hw & H).
    destruct (write_appends wb data nrec wb' Hidle Hw)
      as (new & Hb & Hc' & _ & Hidle').
    destruct (spec_direct_write_appends wd data nrec new Hp Hb)
      as (wd' & Hwd & Hr' & Hp').
    unfold spec_direct_write_all. simpl. rewrite Hwd. simpl.
    apply (IH wb' wd' Hidle'); [congruence|exact Hp'|exact H].
Qed.

End Refinement.

(** ** Dataset.create *)

(** C10: for a dataset without a chunks override (with a proper entry
    shape and a train capacity of at least 1) [create] succeeds; the
    array is created with the user's [chunks] attribute, which is None,
    while the autosized shape goes to the writer, where a buffered
    writer sizes its staging block with it. *)
Theorem create_passes_user_chunks {Row} (self : Dataset.t Row) (grp : string)
    (max_trains : Z) (buffering : bool) :
  Dataset.chunks self = None ->
  Forall (Z.le 0) (Dataset.entry_shape self) ->
  1 <= max_trains ->
  exists wrt rows,
    Dataset_create self grp max_trains buffering = Ok wrt
    /\ Dataset.chunks_autosize self max_trains
       = Some (rows :: Dataset.entry_shape self)
    /\ h5py.chunks (DatasetWriter.file_ds wrt) = None
    /\ h5py.rows (DatasetWriter.file_ds wrt) = []
    /\ DatasetWriter.chunks wrt = Some (rows :: Dataset.entry_shape self)
    /\ match wrt with
       | DatasetWriter.Buffered w =>
           buffering = true
           /\ DatasetBufferedWriter.size w = rows
           /\ len (DatasetBufferedWriter._data w) = rows
       | DatasetWriter.Direct _ => buffering = false
       end.
Proof.
  intros Hc Hshape Hm.
  destruct (chunks_autosize_rows self max_trains Hc) as (rows & Hr & Hlo & _).
  assert (0 <= rows) as Hrows by lia.
  unfold Dataset_create. rewrite Hr, Hc. simpl.
  destruct buffering; simpl.
  - destruct (Z.leb_spec 0 rows); [|lia]. simpl.
    assert (forallb (Z.leb 0) (Dataset.entry_shape self) = true) as ->.
    { apply forallb_forall. intros x Hx.
      rewrite Forall_forall in Hshape. apply Z.leb_le, Hshape.
      apply list_elem_of_In, Hx. }
    simpl. eexists _, rows. repeat split; try reflexivity.
    simpl. unfold len. rewrite length_replicate. lia.
  - eexists _, rows. repeat split; reflexivity.
Qed.

Lemma create_passes_user_chunks_witness :
  exists wrt rows,
    Dataset_create scalar_instrument "INSTRUMENT/dev:out/data" 500 true = Ok wrt
    /\ Dataset.chunks_autosize scalar_instrument 500 = Some [rows]
    /\ h5py.chunks (DatasetWriter.file_ds wrt) = None
    /\ h5py.rows (DatasetWriter.file_ds wrt) = []
    /\ DatasetWriter.chunks wrt = Some [rows]
    /\ match wrt with
       | DatasetWriter.Buffered w =>
           true = true
           /\ DatasetBufferedWriter.size w = rows
           /\ len (DatasetBufferedWriter._data w) = rows
       | DatasetWriter.Direct _ => true = false
       end.
Proof.
  apply (create_passes_user_chunks scalar_instrument
           "INSTRUMENT/dev:out/data" 500 true);
    [reflexivity | constructor | lia].
Defined.

(** ** The index of a source *)

Section SourceIndex.
Context {Row : Type}.
Implicit Types (src : Source.t Row).

Lemma offsets_length base counts : length (offsets base counts) = length counts.
Proof.
  revert base. induction counts as [|c counts IH]; intros base; simpl; auto.
Qed.

Lemma offsets_snoc base counts c :
  offsets base (counts ++ [c]) = offsets base counts ++ [base + total counts].
Proof.
  revert base. induction counts as [|c' counts IH]; intros base; simpl.
  - f_equal. lia.
  - rewrite IH. do 3 f_equal. lia.
Qed.

Lemma total_snoc counts c : total (counts ++ [c]) = total counts + c.
Proof. induction counts as [|c' counts IH]; simpl; lia. Qed.

(* first[t] + count[t] == first[t+1] *)
Lemma offsets_consecutive base counts (t : nat) f c f' :
  offsets base counts !! t = Some f ->
  counts !! t = Some c ->
  offsets base counts !! S t = Some f' ->
  f + c = f'.
Proof.
  revert base t. induction counts as [|c0 counts IH]; intros base t; simpl.
  - discriminate.
  - destruct t as [|t]; simpl.
    + intros [= <-] [= <-]. destruct counts; simpl; [discriminate|].
      intros [= <-]. reflexivity.
    + apply IH.
Qed.

Lemma getslice_length {A B} (l : list A) (k : list B) s :
  length l = length k -> length (getslice l s) = length (getslice k s).
Proof.
  intros H. unfold getslice, len. rewrite H.
  destruct (slice_indices _ s) as [a b].
  rewrite !length_take, !length_drop. lia.
Qed.

Lemma index_of_nat {A} (l : list A) (k : nat) :
  (k < length l)%nat -> index_of l (Z.of_nat k) = Ok k.
Proof.
  intros H. unfold index_of, len.
  destruct (Z.ltb_spec (Z.of_nat k) 0); [lia|].
  destruct (Z.ltb_spec (Z.of_nat k) 0); [lia|].
  destruct (Z.leb_spec (Z.of_nat (length l)) (Z.of_nat k)); [lia|].
  simpl. rewrite Nat2Z.id. reflexivity.
Qed.

Lemma index_of_inv {A} (l : list A) (i : Z) (j : nat) :
  index_of l i = Ok j -> (j < length l)%nat.
Proof.
  unfold index_of, len.
  destruct (i <? 0);
    match goal with |- context [(?a <? 0) || (?b <=? ?c)] =>
      destruct (Z.ltb_spec a 0); destruct (Z.leb_spec b c) end;
    simpl; try discriminate; intros [= <-]; lia.
Qed.

(* the loop of write_index recomputes the offsets from 0 *)
Lemma recount_loop counts (m k : nat) first p first' p' :
  length first = length counts ->
  (k + m)%nat = length counts ->
  for_each (seq k m) (Source.recount counts) (first, p) = Ok (first', p') ->
  first' = take k first ++ offsets p (drop k counts)
  /\ p' = p + total (drop k counts).
Proof.
  revert k first p. induction m as [|m IH]; intros k first p Hlen Hk; simpl.
  - intros [= <- <-]. rewrite drop_ge by lia. simpl.
    rewrite take_ge by lia. rewrite app_nil_r. split; [reflexivity|lia].
  - intros H. apply bind_Ok in H as ([first1 p1] & Hstep & H).
    unfold Source.recount, setitem, getitem in Hstep.
    rewrite !index_of_nat in Hstep by lia. simpl in Hstep.
    destruct (counts !! k) as [c|] eqn:Hc; [|discriminate].
    simpl in Hstep. injection Hstep as <- <-.
    apply IH in H; [|rewrite length_insert; lia|lia].
    destruct H as [-> ->].
    rewrite (drop_S counts c k Hc). simpl.
    rewrite take_insert_lt by lia.
    assert (exists f0, first !! k = Some f0) as [f0 Hf0].
    { apply lookup_lt_is_Some. lia. }
    rewrite (take_S_r first k f0 Hf0).
    rewrite insert_app_r_alt by (rewrite length_take; lia).
    rewrite length_take, Nat.min_l, Nat.sub_diag by lia. simpl.
    rewrite <- app_assoc. simpl. split; [reflexivity|lia].
Qed.

Lemma chained_init name stype src : Source.init name stype = Ok src -> chained src.
Proof.
  unfold Source.init. intros H. inv_ok. subst src. split; reflexivity.
Qed.

Lemma chained_write_train src data src' :
  chained src -> Source.write_train src data = Ok src' -> chained src'.
Proof.
  intros [Hf Hp] H. unfold Source.write_train in H. inv_ok. subst src'.
  unfold chained; simpl. rewrite offsets_snoc, total_snoc, Hf, Hp.
  split; [f_equal; f_equal; lia | reflexivity].
Qed.

Lemma chained_write_index src grp ntrains src' grp' :
  length (Source.first src) = length (Source.count src) ->
  Source.write_index src grp ntrains = Ok (src', grp') -> chained src'.
Proof.
  intros Hlen H. unfold Source.write_index in H.
  apply bind_Ok in H as (grp1 & _ & H).
  apply bind_Ok in H as (grp2 & _ & H).
  apply bind_Ok in H as ([first' pos'] & Hloop & H).
  injection H as <- <-.
  apply recount_loop in Hloop.
  - destruct Hloop as [-> ->]. unfold chained; simpl.
    rewrite drop_0. split; [reflexivity|lia].
  - apply getslice_length, Hlen.
  - reflexivity.
Qed.

Lemma chained_step src grp c src' grp' :
  chained src -> source_step (src, grp) c = Ok (src', grp') -> chained src'.
Proof.
  intros Hch. destruct c; simpl; intros H.
  - injection H as <- <-. exact Hch.
  - inv_ok. subst. unfold Source.create in Ha. inv_ok. subst. exact Hch.
  - inv_ok. subst. exact Hch.
  - injection H as <- <-. exact Hch.
  - inv_ok. subst. eapply chained_write_train; eauto.
  - inv_ok. subst. unfold Source.close_datasets in Ha. inv_ok. subst. exact Hch.
  - eapply chained_write_index; [|exact H].
    destruct Hch as [-> _]. apply offsets_length.
Qed.

Lemma chained_run calls src grp src' grp' :
  chained src -> for_each calls source_step (src, grp) = Ok (src', grp') ->
  chained src'.
Proof.
  revert src grp. induction calls as [|c calls IH]; simpl; intros src grp Hch H.
  - injection H as <- <-. exact Hch.
  - apply bind_Ok in H as ([src1 grp1] & Hstep & H).
    eapply IH; [|exact H]. eapply chained_step; eauto.
Qed.

End SourceIndex.

(** C4: whatever is done to a new source (datasets added, arrays
    created, trains written, the index written and trimmed), its
    recorded [first] and [count] have the same length and satisfy
    [first[t] + count[t] == first[t+1]] for all consecutive trains. *)
Theorem source_index_consecutive {Row} (name : string) (stype : option Z)
    (src0 : Source.t Row) (grp0 : h5py.group Z) (calls : list (source_call Row))
    (src : Source.t Row) (grp : h5py.group Z) :
  Source.init name stype = Ok src0 ->
  for_each calls source_step (src0, grp0) = Ok (src, grp) ->
  length (Source.first src) = length (Source.count src)
  /\ forall (t : nat) f c f',
       Source.first src !! t = Some f ->
       Source.count src !! t = Some c ->
       Source.first src !! S t = Some f' ->
       f + c = f'.
Proof.
  intros Hinit Hrun.
  pose proof (chained_run calls src0 grp0 src grp (chained_init _ _ _ Hinit) Hrun)
    as [Hf _].
  rewrite Hf. split; [apply offsets_length|].
  intros t f c f'. apply offsets_consecutive.
Qed.

Lemma source_index_consecutive_witness :
  exists src grp,
    Source.init "dev:out/data" None = Ok source0
    /\ for_each source0_calls source_step (source0, []) = Ok (src, grp)
    /\ Source.first src = [0; 2]
    /\ Source.count src = [2; 1]
    /\ length (Source.first src) = length (Source.count src)
    /\ forall (t : nat) f c f',
         Source.first src !! t = Some f ->
         Source.count src !! t = Some c ->
         Source.first src !! S t = Some f' ->
         f + c = f'.
Proof.
  eexists _, _.
  split; [reflexivity|].
  split; [vm_compute; reflexivity|].
  split; [reflexivity|]. split; [reflexivity|].
  eapply (source_index_consecutive "dev:out/data" None source0 [] source0_calls);
    [reflexivity | vm_compute; reflexivity].
Defined.

(** ** Sources across the operations of the file writer *)

Section SourceFrame.
Context {Row : Type}.
Implicit Types (src : Source.t Row).

Lemma same_schema_refl src : same_schema src src.
Proof. repeat split. Qed.

Lemma same_schema_trans (a b c : Source.t Row) :
  same_schema a b -> same_schema b c -> same_schema a c.
Proof. unfold same_schema. intuition congruence. Qed.

Lemma source_create_inv src max_trains buffering src' :
  Source.create src max_trains buffering = Ok src' ->
  exists w grp,
    src' = Source.Build (Source.name src) (Source.stype src)
             (Source.section src) (Source.datasets src) w grp
             (Source.first src) (Source.count src) (Source.pos src)
             (Source.nrec src).
Proof. unfold Source.create. intros H. inv_ok. subst. eauto. Qed.

Lemma source_close_datasets_inv src src' :
  Source.close_datasets src = Ok src' ->
  exists w, src' = Source.set_file_ds src w.
Proof. unfold Source.close_datasets. intros H. inv_ok. subst. eauto. Qed.

Lemma source_write_index_inv src grp ntrains src' grp' :
  Source.write_index src grp ntrains = Ok (src', grp') ->
  exists first count pos,
    src' = Source.set_index src first count pos (Source.nrec src).
Proof.
  unfold Source.write_index. intros H.
  apply bind_Ok in H as (grp1 & _ & H).
  apply bind_Ok in H as (grp2 & _ & H).
  apply bind_Ok in H as ([first' pos'] & _ & H).
  injection H as <- <-. eauto.
Qed.

Lemma source_write_train_inv src data src' :
  Source.write_train src data = Ok src' ->
  exists w,
    for_each (Source.enumerate (Source.datasets src))
      (Source.write_dataset data (Source.nrec src)) (Source.file_ds src) = Ok w
    /\ src' = Source.Build (Source.name src) (Source.stype src)
                (Source.section src) (Source.datasets src) w (Source._grp src)
                (Source.first src ++ [Source.pos src])
                (Source.count src ++ [Source.nrec src])
                (Source.pos src + Source.nrec src)
                (int (Source.stype src =? 0)).
Proof. unfold Source.write_train. intros H. inv_ok. subst. eauto. Qed.

Lemma sources_rel_refl (R : Source.t Row -> Source.t Row -> Prop) l :
  (forall a, R a a) -> sources_rel R l l.
Proof. intros HR. induction l; constructor; auto. Qed.

Lemma sources_rel_trans (R1 R2 R3 : Source.t Row -> Source.t Row -> Prop) l1 l2 l3 :
  (forall a b c, R1 a b -> R2 b c -> R3 a c) ->
  sources_rel R1 l1 l2 -> sources_rel R2 l2 l3 -> sources_rel R3 l1 l3.
Proof.
  intros HR H12. revert l3.
  induction H12 as [|x y l1 l2 Hxy _ IH]; intros l3 H23.
  - inversion H23. constructor.
  - inversion H23 as [|y' z l2' l3' Hyz H23']; subst.
    destruct Hxy as [Hk Hxy], Hyz as [Hk' Hyz].
    constructor; [split; [congruence | eauto] | apply IH; assumption].
Qed.

Lemma sources_rel_impl (R1 R2 : Source.t Row -> Source.t Row -> Prop) l1 l2 :
  (forall a b, R1 a b -> R2 a b) -> sources_rel R1 l1 l2 -> sources_rel R2 l1 l2.
Proof.
  intros HR H. induction H as [|x y l1 l2 [Hk Hxy] _ IH]; constructor; auto.
Qed.

Lemma sources_rel_keys (R : Source.t Row -> Source.t Row -> Prop) l1 l2 :
  sources_rel R l1 l2 -> l1.*1 = l2.*1.
Proof.
  intros H. induction H as [|x y l1 l2 [Hk _] _ IH]; [reflexivity|].
  rewrite !fmap_cons, Hk, IH. reflexivity.
Qed.

Lemma sources_rel_get (R : Source.t Row -> Source.t Row -> Prop) l1 l2 k b :
  sources_rel R l1 l2 -> dict_get l2 k = Ok b ->
  exists a, dict_get l1 k = Ok a /\ R a b.
Proof.
  intros H. induction H as [|[k1 a1] [k2 a2] l1 l2 [Hk Hxy] _ IH]; simpl.
  - discriminate.
  - simpl in Hk, Hxy. subst k2. destruct (decide (k1 = k)).
    + intros [= <-]. eauto.
    + exact IH.
Qed.

(* for sname, src in sources.items(): src = f(src) *)
Lemma for_each_sources (f : Source.t Row -> result (Source.t Row)) l acc r :
  for_each l
    (fun acc '(sname, src) => let! src' := f src in Ok (acc ++ [(sname, src')]))
    acc = Ok r ->
  exists l', r = acc ++ l'
             /\ sources_rel (fun a b => f a = Ok b) l l'.
Proof.
  revert acc. induction l as [|[sname src] l IH]; simpl; intros acc H.
  - injection H as <-. exists []. rewrite app_nil_r. split; [auto|constructor].
  - apply bind_Ok in H as (acc1 & Hstep & H).
    apply bind_Ok in Hstep as (src' & Hf & Hacc). injection Hacc as <-.
    apply IH in H as (l' & -> & Hrel).
    exists ((sname, src') :: l'). rewrite <- app_assoc. split; [reflexivity|].
    constructor; auto.
Qed.

End SourceFrame.

(** ** Groups and index datasets *)

Section Groups.
Context {V : Type}.
Implicit Types (d : dict V).

Lemma dict_get_set_eq d k v : dict_get (dict_set d k v) k = Ok v.
Proof.
  induction d as [|[k' v'] d IH]; simpl.
  - destruct (decide (k = k)); congruence.
  - destruct (decide (k' = k)) as [->|Hne]; simpl.
    + destruct (decide (k = k)); congruence.
    + destruct (decide (k' = k)); congruence.
Qed.

Lemma dict_get_set_ne d k k' v : k <> k' -> dict_get (dict_set d k v) k' = dict_get d k'.
Proof.
  intros Hne. induction d as [|[k1 v1] d IH]; simpl.
  - destruct (decide (k = k')); congruence.
  - destruct (decide (k1 = k)) as [->|Hne1]; simpl.
    + destruct (decide (k = k')); congruence.
    + destruct (decide (k1 = k')); congruence.
Qed.


End Groups.

Lemma contains_char_app c a b :
  contains_char c (a +:+ b) = contains_char c a || contains_char c b.
Proof.
  induction a as [|x a IH]; simpl; [reflexivity|].
  destruct (decide (x = c)); simpl; auto.
Qed.

(* the path of a source index dataset is none of the train index keys *)
Lemma source_index_path_ne name dsname key :
  key ∈ ["trainId"; "timestamp"; "flag"]%string ->
  (name +:+ "/" +:+ dsname)%string <> key.
Proof.
  intros Hk He.
  assert (contains_char "/" key = true) as Hc.
  { rewrite <- He, !contains_char_app. simpl. apply orb_true_r. }
  repeat (apply elem_of_cons in Hk as [->|Hk]; [discriminate Hc|]).
  inversion Hk.
Qed.

Section IndexDatasets.

(* ds.resize(n, 0); ds[:] = data for n rows of data *)
Lemma resize_assign_all {A} (ds ds1 ds2 : h5py.dataset A) n data :
  len data = n ->
  h5py.resize ds n = Ok ds1 ->
  h5py.assign ds1 (Slice None None) data = Ok ds2 ->
  h5py.rows ds2 = data.
Proof.
  intros Hd Hr Ha. pose proof (len_nonneg data).
  unfold h5py.resize in Hr. destruct (Z.ltb_spec n 0); [lia|].
  injection Hr as <-.
  unfold h5py.assign, h5py.select in Ha; simpl in Ha.
  set (r := take (Z.to_nat n) (h5py.rows ds) ++ _) in *.
  assert (len r = n) as Hlen.
  { unfold r, len. rewrite length_app, length_take, length_replicate. lia. }
  destruct (Z.leb_spec 0 (len r)); [|lia].
  destruct (Z.leb_spec (len r) (len r)); [|lia]. simpl in Ha.
  destruct (Z.eqb_spec (len r) 0) as [He|He].
  - injection Ha as <-. simpl.
    destruct r; [|unfold len in He; simpl in He; lia].
    destruct data; [reflexivity|unfold len in *; simpl in *; lia].
  - unfold h5py.put in Ha. rewrite Z.sub_0_r in Ha.
    rewrite broadcast_rows_exact in Ha by lia. simpl in Ha.
    injection Ha as <-. simpl.
    rewrite drop_ge, app_nil_r by (unfold len in *; lia). reflexivity.
Qed.

Context {Row : Type}.
Implicit Types (src : Source.t Row).

Lemma store_index_other src grp dsname val ntrains grp' key :
  key ∈ ["trainId"; "timestamp"; "flag"]%string ->
  Source.store_index src grp dsname val ntrains = Ok grp' ->
  dict_get grp' key = dict_get grp key.
Proof.
  intros Hk H. unfold Source.store_index in H. inv_ok. subst grp'.
  apply dict_get_set_ne, source_index_path_ne, Hk.
Qed.

Lemma write_index_other src grp ntrains src' grp' key :
  key ∈ ["trainId"; "timestamp"; "flag"]%string ->
  Source.write_index src grp ntrains = Ok (src', grp') ->
  dict_get grp' key = dict_get grp key.
Proof.
  intros Hk H. unfold Source.write_index in H.
  apply bind_Ok in H as (grp1 & H1 & H).
  apply bind_Ok in H as (grp2 & H2 & H).
  apply bind_Ok in H as ([first' pos'] & _ & H).
  injection H as _ <-.
  rewrite (store_index_other _ _ _ _ _ _ _ Hk H2).
  apply (store_index_other _ _ _ _ _ _ _ Hk H1).
Qed.

Lemma create_index_other src grp max_trains grp' key :
  key ∈ ["trainId"; "timestamp"; "flag"]%string ->
  Source.create_index src grp max_trains = Ok grp' ->
  dict_get grp' key = dict_get grp key.
Proof.
  intros Hk H. unfold Source.create_index in H. simpl in H.
  inv_ok. subst.
  rewrite !dict_get_set_ne by (apply source_index_path_ne, Hk). reflexivity.
Qed.

End IndexDatasets.

(** ** The file writer: opening and closing files *)

Section WriterFrame.
Context {Row : Type}.
Import FileWriterBase.
Implicit Types (s : FileWriterBase.t Row).

Lemma each_source_inv s f s' :
  each_source s f = Ok s' ->
  exists srcs,
    s' = set_sources s srcs
    /\ sources_rel (fun a b => f a = Ok b) (sources s) srcs.
Proof.
  unfold each_source. intros H. apply bind_Ok in H as (srcs & Hl & H).
  injection H as <-. apply for_each_sources in Hl as (l' & -> & Hrel).
  exists l'. auto.
Qed.

Lemma create_indices_inv s s' :
  create_indices s = Ok s' ->
  exists grp, s' = set_index_grp s grp /\ has_index grp.
Proof.
  unfold create_indices. intros H.
  apply bind_Ok in H as (grp0 & H0 & H).
  apply bind_Ok in H as (grp & Hs & H). injection H as <-.
  exists grp. split; [reflexivity|].
  assert (has_index grp0) as H0'.
  { simpl in H0. inv_ok. subst. intros key Hk.
    apply elem_of_cons in Hk as [->|Hk]; [simpl; eauto|].
    apply elem_of_cons in Hk as [->|Hk]; [simpl; eauto|].
    apply elem_of_cons in Hk as [->|Hk]; [simpl; eauto|inversion Hk]. }
  clear H0. revert grp0 Hs H0'.
  induction (sources s) as [|[sname src] l IH]; simpl; intros grp0 Hs H0.
  - injection Hs as <-. exact H0.
  - apply bind_Ok in Hs as (grp1 & H1 & Hs). apply (IH grp1 Hs).
    intros key Hk. rewrite (create_index_other _ _ _ _ _ Hk H1). auto.
Qed.

Lemma init_file_inv s file s' :
  init_file s file = Ok s' ->
  exists ids grp srcs,
    s' = set_sources
           (set_file s (seq s) (Build_File (path file) ids grp (DATA file))
                     (disk s))
           srcs
    /\ has_index grp
    /\ sources_rel same_but_writers (sources s) srcs.
Proof.
  unfold init_file. intros H.
  apply bind_Ok in H as (s1 & H1 & H).
  apply bind_Ok in H as (s2 & H2 & H).
  unfold write_metadata in H1. simpl in H1.
  destruct (list_of_sources s) as [|x los] eqn:Hlos; [discriminate|].
  injection H1 as <-.
  apply create_indices_inv in H2 as (grp & -> & Hidx).
  apply each_source_inv in H as (srcs & -> & Hrel).
  eexists _, grp, srcs. split; [|split; [exact Hidx|]].
  - unfold set_sources, set_index_grp, set_file; simpl. rewrite Hlos. reflexivity.
  - simpl in Hrel. eapply sources_rel_impl; [|exact Hrel].
    intros a b Hab. apply source_create_inv in Hab. exact Hab.
Qed.

Lemma close_datasets_inv s s' :
  close_datasets s = Ok s' ->
  exists srcs,
    s' = set_sources s srcs
    /\ sources_rel (fun a b => exists w, b = Source.set_file_ds a w)
         (sources s) srcs.
Proof.
  intros H. apply each_source_inv in H as (srcs & -> & Hrel).
  exists srcs. split; [reflexivity|].
  eapply sources_rel_impl; [|exact Hrel].
  intros a b. apply source_close_datasets_inv.
Qed.

(* the loop of write_indices over the sources *)
Lemma write_index_loop ntrains (l acc r : dict (Source.t Row)) grp grp' :
  for_each l
    (fun '(acc, grp) '(sname, src) =>
       let! '(src', grp') := Source.write_index src grp ntrains in
       Ok (acc ++ [(sname, src')], grp'))
    (acc, grp) = Ok (r, grp') ->
  exists l',
    r = acc ++ l'
    /\ sources_rel
         (fun a b => exists first count pos,
                       b = Source.set_index a first count pos (Source.nrec a))
         l l'
    /\ forall key, key ∈ ["trainId"; "timestamp"; "flag"]%string ->
                   dict_get grp' key = dict_get grp key.
Proof.
  revert acc grp.
  induction l as [|[sname src] l IH]; simpl; intros acc grp H.
  - injection H as <- <-. exists []. rewrite app_nil_r.
    split; [reflexivity|]. split; [constructor|auto].
  - apply bind_Ok in H as ([acc1 grp1] & Hstep & H).
    apply bind_Ok in Hstep as ([src' grp1'] & Hw & Hstep).
    injection Hstep as <- <-.
    apply IH in H as (l' & -> & Hrel & Hkeys).
    exists ((sname, src') :: l'). rewrite <- app_assoc.
    split; [reflexivity|]. split.
    + constructor; [|exact Hrel]. split; [reflexivity|]. simpl.
      destruct (source_write_index_inv _ _ _ _ _ Hw) as (f & c & p & ->).
      exists f, c, p. reflexivity.
    + intros key Hk. rewrite (Hkeys key Hk).
      apply (write_index_other _ _ _ _ _ _ Hk Hw).
Qed.

End WriterFrame.

Section WriterClose.
Context {Row : Type}.
Import FileWriterBase.
Implicit Types (s : FileWriterBase.t Row).

Lemma as_uint64_len data r : @as_uint64 data = Ok r -> len r = len data.
Proof.
  revert r. induction data as [|[x|] data IH]; simpl; intros r H.
  - injection H as <-. reflexivity.
  - inv_ok. subst r. pose proof (IH _ Ha) as Hl.
    unfold len in *. simpl. lia.
  - discriminate.
Qed.

(* ds = grp[key]; ds.resize(n, 0); ds[:] = data *)
Lemma store_train_index (grp : h5py.group Z) key data n grp' :
  (let! ds := dict_get grp key in
   let! ds := h5py.resize ds n in
   let! ds := h5py.assign ds (Slice None None) data in
   Ok (dict_set grp key ds)) = Ok grp' ->
  (forall k, k <> key -> dict_get grp' k = dict_get grp k)
  /\ (len data = n ->
      exists ds, dict_get grp' key = Ok ds /\ h5py.rows ds = data).
Proof.
  intros H. inv_ok. subst grp'. split.
  - intros k Hk. apply dict_get_set_ne. congruence.
  - intros Hn. rewrite dict_get_set_eq. eexists. split; [reflexivity|].
    eapply resize_assign_all; eauto.
Qed.

Lemma write_indices_inv s s' :
  write_indices s = Ok s' ->
  exists ts grp srcs,
    as_uint64 (timestamp s) = Ok ts
    /\ s' = set_trains (set_sources (set_index_grp s grp) srcs) [] [] []
    /\ sources_rel same_train (sources s) srcs
    /\ (wf_index s ->
        (exists ds, dict_get grp "trainId" = Ok ds /\ h5py.rows ds = trains s)
        /\ (exists ds, dict_get grp "timestamp" = Ok ds /\ h5py.rows ds = ts)
        /\ (exists ds, dict_get grp "flag" = Ok ds /\ h5py.rows ds = flags s)).
Proof.
  unfold write_indices. intros H.
  apply bind_Ok in H as (ts & Hts & H).
  apply bind_Ok in H as (grp1 & H1 & H).
  apply bind_Ok in H as ([srcs grp] & Hl & H). injection H as <-.
  apply write_index_loop in Hl as (l' & -> & Hrel & Hkeys).
  exists ts, grp, l'. split; [exact Hts|]. split; [reflexivity|]. split.
  - eapply sources_rel_impl; [|exact Hrel].
    intros a b (f & c & p & ->). repeat split.
  - intros (Hlt & Hlf & _ & _).
    simpl in H1.
    apply bind_Ok in H1 as (g1 & Hg1 & H1).
    apply bind_Ok in H1 as (g2 & Hg2 & H1).
    apply bind_Ok in H1 as (g3 & Hg3 & H1). injection H1 as ->.
    apply store_train_index in Hg1 as [Hne1 Hrow1].
    apply store_train_index in Hg2 as [Hne2 Hrow2].
    apply store_train_index in Hg3 as [Hne3 Hrow3].
    rewrite (Hkeys "trainId"), (Hkeys "timestamp"), (Hkeys "flag")
      by (repeat constructor).
    split; [|split].
    + rewrite Hne3, Hne2 by discriminate. apply Hrow1. reflexivity.
    + rewrite Hne3 by discriminate. apply Hrow2.
      rewrite (as_uint64_len _ _ Hts). exact Hlt.
    + apply Hrow3. exact Hlf.
Qed.

Lemma close_inv s s' :
  close s = Ok s' ->
  exists f,
    disk s' = disk s ++ [f]
    /\ path f = path (_file s)
    /\ path (_file s') = path (_file s)
    /\ frame s s'
    /\ seq s' = seq s
    /\ trains s' = [] /\ timestamp s' = [] /\ flags s' = []
    /\ sources_rel same_train (sources s) (sources s')
    /\ (wf_index s ->
        exists ts,
          as_uint64 (timestamp s) = Ok ts
          /\ index_rows f "trainId" = Some (trains s)
          /\ index_rows f "timestamp" = Some ts
          /\ index_rows f "flag" = Some (flags s)).
Proof.
  unfold close. intros H.
  apply bind_Ok in H as (s1 & H1 & H).
  apply bind_Ok in H as (s2 & H2 & H). injection H as <-.
  apply close_datasets_inv in H1 as (srcs1 & -> & Hrel1).
  apply write_indices_inv in H2 as (ts & grp & srcs & Hts & -> & Hrel2 & Hrows).
  eexists. simpl. split; [reflexivity|]. simpl.
  split; [reflexivity|]. split; [reflexivity|].
  split; [repeat split|]. split; [reflexivity|].
  do 3 (split; [reflexivity|]). split.
  - eapply sources_rel_trans; [|exact Hrel1|exact Hrel2].
    intros a b c (w & ->) [Hs Hn]. split; [|exact Hn].
    destruct Hs as (? & ? & ?). repeat split; assumption.
  - intros Hwf. exists ts. split; [exact Hts|].
    destruct Hrows as ((d1 & Hd1 & Hr1) & (d2 & Hd2 & Hr2) & (d3 & Hd3 & Hr3)).
    { exact Hwf. }
    unfold index_rows; simpl. rewrite Hd1, Hd2, Hd3, Hr1, Hr2, Hr3. auto.
Qed.

Lemma rotate_sequence_file_inv s s' :
  rotate_sequence_file s = Ok s' ->
  (rotation_due s = false /\ s' = s)
  \/ (rotation_due s = true
      /\ exists s1,
           close s = Ok s1
           /\ seq s' = seq s + 1
           /\ disk s' = filter (fun f => path f ≠ filename s (seq s + 1)) (disk s1)
           /\ path (_file s') = filename s (seq s + 1)
           /\ has_index (index_grp s')
           /\ frame s s'
           /\ trains s' = [] /\ timestamp s' = [] /\ flags s' = []
           /\ sources_rel same_train (sources s) (sources s')).
Proof.
  unfold rotate_sequence_file. fold (rotation_due s).
  destruct (rotation_due s); [|intros [= <-]; left; auto].
  intros H. right. split; [reflexivity|].
  apply bind_Ok in H as (s1 & Hc & H). exists s1. split; [exact Hc|].
  unfold open_w in H.
  apply init_file_inv in H as (ids & grp & srcs & -> & Hidx & Hrel). simpl.
  apply close_inv in Hc
    as (f & Hdisk & _ & _ & (Htd & Hst & Hw) & Hseq & Htr & Hts & Hfl & Hrel1 & _).
  assert (filename s1 = filename s) as Hfn
    by (unfold static in Hst; congruence).
  rewrite Hseq, Hfn. split; [reflexivity|]. split; [reflexivity|].
  split; [reflexivity|]. split; [exact Hidx|].
  split; [split; [exact Htd|split; [exact Hst|exact Hw]]|].
  do 3 (split; [assumption|]).
  eapply sources_rel_trans; [|exact Hrel1|exact Hrel].
  intros a b c [Hs Hn] (w & g & ->). split; [|exact Hn].
  destruct Hs as (? & ? & ?). repeat split; assumption.
Qed.

End WriterClose.

(** ** Completeness of a train *)

Section Completeness.
Context {Row : Type}.
Import FileWriterBase.
Implicit Types (s : FileWriterBase.t Row).

Lemma source_is_data_complete_spec s (item : string * Source.t Row) :
  Source.is_data_complete item.2 (staged_data s item.1)
  = if nothing_staged s item then Source.Complete false
    else match Source.missed_keys item.2 (staged_data s item.1) with
         | [] => Source.Complete true
         | keys => Source.Missed keys
         end.
Proof. reflexivity. Qed.

Lemma is_data_complete_spec s :
  is_data_complete s
  = match reported s with
    | [] => Complete (negb (existsb (nothing_staged s) (sources s)))
    | status => Missed status
    end.
Proof.
  unfold is_data_complete, reported.
  assert (forall l missed ok,
    foldl (fun '(missed, is_complete) '(sname, src) =>
             match Source.is_data_complete src
                     (default ∅ (_train_data s !! sname)) with
             | Source.Missed keys => (missed ++ [(sname, keys)], is_complete)
             | Source.Complete b => (missed, is_complete && b)
             end) (missed, ok) l
    = (missed ++ omap (fun item =>
                         if nothing_staged s item then None
                         else match Source.missed_keys item.2
                                      (staged_data s item.1) with
                              | [] => None
                              | keys => Some (item.1, keys)
                              end) l,
       ok && negb (existsb (nothing_staged s) l))) as Hfold.
  { induction l as [|[sname src] l IH]; intros missed ok; simpl.
    - rewrite app_nil_r, andb_true_r. reflexivity.
    - pose proof (source_is_data_complete_spec s (sname, src)) as Hsrc.
      unfold staged_data in Hsrc at 1. simpl in Hsrc. rewrite Hsrc.
      destruct (nothing_staged s (sname, src)); simpl.
      + rewrite IH. destruct ok; reflexivity.
      + destruct (Source.missed_keys src (staged_data s sname)); simpl.
        * rewrite IH. destruct ok; reflexivity.
        * rewrite IH, <- app_assoc. reflexivity. }
  rewrite Hfold. simpl.
  match goal with |- context [omap ?f ?l] => destruct (omap f l) end;
    reflexivity.
Qed.

Lemma omap_cons' {A B} (f : A -> option B) x l :
  omap f (x :: l)
  = match f x with Some y => y :: omap f l | None => omap f l end.
Proof. reflexivity. Qed.

Lemma reported_frame s s' :
  _train_data s' = _train_data s ->
  sources_rel same_schema (sources s) (sources s') ->
  reported s' = reported s
  /\ existsb (nothing_staged s') (sources s')
     = existsb (nothing_staged s) (sources s).
Proof.
  unfold reported. intros Htd Hrel.
  assert (forall x y : string * Source.t Row,
            x.1 = y.1 /\ same_schema x.2 y.2 ->
            nothing_staged s' y = nothing_staged s x
            /\ Source.missed_keys y.2 (staged_data s' y.1)
               = Source.missed_keys x.2 (staged_data s x.1)) as Hitem.
  { intros [k a] [k' b] [Hk (Hn & Hs & Hd)]. simpl in *. subst k'.
    unfold nothing_staged, staged_data, Source.missed_keys. simpl.
    rewrite Htd, Hs, Hd. auto. }
  induction Hrel as [|x y l l' Hxy _ [IH1 IH2]]; [auto|].
  destruct (Hitem x y Hxy) as [Hn Hm]. destruct Hxy as [Hk _].
  rewrite !omap_cons'. cbn [existsb]. rewrite Hn, Hm, IH1, IH2, Hk. auto.
Qed.

Lemma is_data_complete_frame s s' :
  _train_data s' = _train_data s ->
  sources_rel same_schema (sources s) (sources s') ->
  is_data_complete s' = is_data_complete s.
Proof.
  intros Htd Hrel. rewrite !is_data_complete_spec.
  destruct (reported_frame s s' Htd Hrel) as [-> ->]. reflexivity.
Qed.

Lemma rotate_frame s s' :
  rotate_sequence_file s = Ok s' ->
  frame s s' /\ sources_rel same_train (sources s) (sources s').
Proof.
  intros H. apply rotate_sequence_file_inv in H as [[_ ->]|[_ (s1 & _ & H)]].
  - split; [repeat split|]. apply sources_rel_refl. intros a. repeat split.
  - tauto.
Qed.

End Completeness.

(** ** Where the failure for missing data can come from *)

Lemma no_rejection_Ok {A} (a : A) : no_rejection (Ok a).
Proof. intros st. discriminate. Qed.

Lemma no_rejection_bind {A B} (m : result A) (k : A -> result B) :
  no_rejection m -> (forall a, no_rejection (k a)) -> no_rejection (bind m k).
Proof.
  intros Hm Hk st. destruct m as [a|e]; simpl; [apply Hk|].
  intros [= ->]. exact (Hm st eq_refl).
Qed.

Lemma no_rejection_for_each {A S} (xs : list A) (body : S -> A -> result S) st :
  (forall st x, no_rejection (body st x)) -> no_rejection (for_each xs body st).
Proof.
  intros Hb. revert st. induction xs as [|x xs IH]; intros st; simpl.
  - apply no_rejection_Ok.
  - apply no_rejection_bind; [apply Hb|apply IH].
Qed.

Create HintDb no_rejection.

Ltac no_rejection_steps :=
  repeat first
    [ apply no_rejection_Ok
    | assumption
    | solve [auto with no_rejection]
    | apply no_rejection_bind; [|intros]
    | apply no_rejection_for_each; intros
    | match goal with
      | |- no_rejection (Raise _) => intros ?; discriminate
      | |- no_rejection (let '(_, _) := ?p in _) => destruct p
      | |- no_rejection (if ?b then _ else _) => destruct b
      | |- no_rejection (match ?x with _ => _ end) => destruct x
      end ].

Section NoRejection.
Context {Row : Type}.

Lemma index_of_no_rejection {A} (l : list A) i : no_rejection (index_of l i).
Proof. unfold index_of. no_rejection_steps. Qed.

Lemma getitem_no_rejection {A} (l : list A) i : no_rejection (getitem l i).
Proof. unfold getitem. pose proof (index_of_no_rejection l i). no_rejection_steps. Qed.

Lemma setitem_no_rejection {A} (l : list A) i x : no_rejection (setitem l i x).
Proof. unfold setitem. pose proof (index_of_no_rejection l i). no_rejection_steps. Qed.

Lemma broadcast_rows_no_rejection {A} (src : list A) n :
  no_rejection (broadcast_rows src n).
Proof. unfold broadcast_rows. no_rejection_steps. Qed.

Lemma broadcast_to_no_rejection {A} (src : list A) n :
  no_rejection (broadcast_to src n).
Proof.
  unfold broadcast_to. pose proof (broadcast_rows_no_rejection src n).
  no_rejection_steps.
Qed.

Lemma np_setslice_no_rejection {A} (a : list A) s src :
  no_rejection (np_setslice a s src).
Proof.
  unfold np_setslice. destruct (slice_indices (len a) s) as [lo hi].
  apply no_rejection_bind; [apply broadcast_rows_no_rejection|].
  intros. apply no_rejection_Ok.
Qed.

Lemma np_setitem_no_rejection {A} (a : list A) i value :
  no_rejection (np_setitem a i value).
Proof.
  unfold np_setitem. pose proof (index_of_no_rejection a i). no_rejection_steps.
Qed.

Lemma resize_no_rejection {A} (ds : h5py.dataset A) n :
  no_rejection (h5py.resize ds n).
Proof. unfold h5py.resize. no_rejection_steps. Qed.

Lemma put_no_rejection {A} (ds : h5py.dataset A) lo hi src :
  no_rejection (h5py.put ds lo hi src).
Proof.
  unfold h5py.put.
  apply no_rejection_bind; [apply broadcast_rows_no_rejection|].
  intros. apply no_rejection_Ok.
Qed.

Lemma select_no_rejection {A} (ds : h5py.dataset A) s :
  no_rejection (h5py.select ds s).
Proof. unfold h5py.select. no_rejection_steps. Qed.

Lemma write_direct_no_rejection {A} (ds : h5py.dataset A) src s1 s2 :
  no_rejection (h5py.write_direct ds src s1 s2).
Proof.
  unfold h5py.write_direct.
  apply no_rejection_bind; [apply select_no_rejection|].
  intros [lo hi]. apply put_no_rejection.
Qed.

Lemma assign_no_rejection {A} (ds : h5py.dataset A) s data :
  no_rejection (h5py.assign ds s data).
Proof.
  unfold h5py.assign.
  apply no_rejection_bind; [apply select_no_rejection|].
  intros [lo hi]. destruct (hi =? lo); [apply no_rejection_Ok|apply put_no_rejection].
Qed.

#[local] Hint Resolve getitem_no_rejection setitem_no_rejection
  broadcast_to_no_rejection np_setslice_no_rejection np_setitem_no_rejection
  resize_no_rejection write_direct_no_rejection assign_no_rejection
  no_rejection_Ok : no_rejection.

Lemma direct_write_no_rejection (w : @DatasetDirectWriter.t Row) data nrec :
  no_rejection (DatasetDirectWriter.write w data nrec).
Proof. unfold DatasetDirectWriter.write. no_rejection_steps. Qed.

Lemma buffered_flush_no_rejection (w : DatasetBufferedWriter.t Row) :
  no_rejection (DatasetBufferedWriter.flush w).
Proof. unfold DatasetBufferedWriter.flush. no_rejection_steps. Qed.

Lemma write_one_no_rejection (w : DatasetBufferedWriter.t Row) value :
  no_rejection (DatasetBufferedWriter.write_one w value).
Proof.
  unfold DatasetBufferedWriter.write_one.
  apply no_rejection_bind; [auto with no_rejection|]. intros d.
  destruct (_ <=? _); [apply buffered_flush_no_rejection|apply no_rejection_Ok].
Qed.

Lemma write_many_no_rejection (w : DatasetBufferedWriter.t Row) arr nrec :
  no_rejection (DatasetBufferedWriter.write_many w arr nrec).
Proof. unfold DatasetBufferedWriter.write_many. no_rejection_steps. Qed.

Lemma buffered_write_no_rejection (w : DatasetBufferedWriter.t Row) data nrec :
  no_rejection (DatasetBufferedWriter.write w data nrec).
Proof.
  unfold DatasetBufferedWriter.write.
  destruct (nrec =? 1); [apply write_one_no_rejection|].
  apply no_rejection_bind; [auto with no_rejection|].
  intros. apply write_many_no_rejection.
Qed.

Lemma writer_write_no_rejection (wrt : DatasetWriter.t Row) data nrec :
  no_rejection (DatasetWriter.write wrt data nrec).
Proof.
  destruct wrt as [w|w]; simpl.
  - apply no_rejection_bind; [apply direct_write_no_rejection|].
    intros. apply no_rejection_Ok.
  - apply no_rejection_bind; [apply buffered_write_no_rejection|].
    intros. apply no_rejection_Ok.
Qed.

Lemma source_write_train_no_rejection (src : Source.t Row) data :
  no_rejection (Source.write_train src data).
Proof.
  unfold Source.write_train.
  apply no_rejection_bind; [|intros; apply no_rejection_Ok].
  apply no_rejection_for_each. intros w [dsno ds]. unfold Source.write_dataset.
  apply no_rejection_bind; [auto with no_rejection|]. intros [wrt|].
  - destruct (data !! Dataset.key ds); [|apply no_rejection_Ok].
    apply no_rejection_bind; [apply writer_write_no_rejection|].
    intros. auto with no_rejection.
  - intros ?. discriminate.
Qed.

Lemma commit_no_rejection (srcs : dict (Source.t Row)) st :
  no_rejection (for_each srcs FileWriterBase.commit_source st).
Proof.
  apply no_rejection_for_each. intros [acc td] [sname src].
  unfold FileWriterBase.commit_source.
  destruct (td !! sname);
    (apply no_rejection_bind;
     [apply source_write_train_no_rejection|intros; apply no_rejection_Ok]).
Qed.

End NoRejection.

(** C6, counterexample: a writer that is configured to warn on missing
    data and has one of the two fields of its control source staged.
    The claim promises a warning; write_train raises the failure. *)
Lemma warn_option_does_not_tolerate_missing_field :
  exists s, warn_writer = Ok s /\ ~ incomplete_claim s 7 (Some 0).
Proof.
  eexists. split; [vm_compute; reflexivity|].
  intros Hclaim. destruct Hclaim as [_ Hwarn]; [vm_compute; discriminate|].
  destruct Hwarn as (s' & Hs' & _); [reflexivity|].
  vm_compute in Hs'. discriminate Hs'.
Qed.

Lemma same_report_refl a : same_report a a.
Proof. apply Forall2_same_length_lookup_2; [reflexivity|]. intros i x y Hx Hy.
  rewrite Hx in Hy. injection Hy as <-. auto. Qed.

(** C6, amended: once the rotation of write_train has gone through, the
    outcome is fixed by the sources with a partial submission
    ([reported]: a control source that misses a field, an instrument
    source with some but not all of its fields).  If there is one,
    write_train raises the failure for data that was not submitted; it
    lists each of these sources, in the order of the sources, with the
    keys the source misses (in the order Python lists a set),
    whatever [warn_on_missing_data] says.  If there is none,
    write_train does not raise that failure, whatever the option says,
    and when it returns, a warning has been issued exactly when
    [warn_on_missing_data] is set and some instrument source has
    nothing staged. *)
Theorem write_train_incomplete {Row} (s : FileWriterBase.t Row) (tid : Z)
    (ts : option Z) (s1 : FileWriterBase.t Row) :
  FileWriterBase.rotate_sequence_file s = Ok s1 ->
  (reported s <> [] ->
   exists status,
     FileWriterBase.write_train s tid ts
     = Raise (ValueError_not_submitted status)
     /\ same_report status (reported s))
  /\ (reported s = [] ->
      (forall status,
         FileWriterBase.write_train s tid ts
         <> Raise (ValueError_not_submitted status))
      /\ forall s',
           FileWriterBase.write_train s tid ts = Ok s' ->
           FileWriterBase.warnings s'
           = FileWriterBase.warnings s
             ++ (if Options.warn_on_missing_data (FileWriterBase._meta s)
                    && existsb (nothing_staged s) (FileWriterBase.sources s)
                 then [tid] else [])).
Proof.
  intros Hrot. unfold FileWriterBase.write_train. rewrite Hrot. simpl.
  destruct (rotate_frame s s1 Hrot) as [(Htd & Hst & Hw) Hrel].
  assert (sources_rel same_schema (FileWriterBase.sources s)
            (FileWriterBase.sources s1)) as Hrel'.
  { eapply sources_rel_impl; [|exact Hrel]. intros a b [H _]. exact H. }
  rewrite (is_data_complete_frame s s1 Htd Hrel'), is_data_complete_spec.
  assert (FileWriterBase._meta s1 = FileWriterBase._meta s) as Hmeta
    by (unfold static in Hst; congruence).
  split.
  - intros Hne. exists (reported s). split; [|apply same_report_refl].
    destruct (reported s); [congruence|reflexivity].
  - intros ->. split.
    + apply no_rejection_bind; [apply commit_no_rejection|].
      intros [srcs td]. apply no_rejection_Ok.
    + intros s' H. rewrite negb_involutive, Hmeta in H.
      destruct (Options.warn_on_missing_data (FileWriterBase._meta s)
                && existsb (nothing_staged s) (FileWriterBase.sources s));
        apply bind_Ok in H as ([srcs td] & _ & H); injection H as <-; simpl;
        rewrite Hw; [reflexivity | rewrite app_nil_r; reflexivity].
Qed.

Lemma write_train_incomplete_witness :
  (exists s,
     warn_writer = Ok s
     /\ Options.warn_on_missing_data (FileWriterBase._meta s) = true
     /\ reported s = [("dev", ["y"])]%string
     /\ exists status,
          FileWriterBase.write_train s 7 (Some 0)
          = Raise (ValueError_not_submitted status)
          /\ same_report status (reported s))
  /\ (exists s s',
        unsubmitted_writer false = Ok s
        /\ reported s = []
        /\ existsb (nothing_staged s) (FileWriterBase.sources s) = true
        /\ FileWriterBase.write_train s 7 (Some 0) = Ok s'
        /\ FileWriterBase.warnings s' = []
        /\ forall status,
             FileWriterBase.write_train s 7 (Some 0)
             <> Raise (ValueError_not_submitted status))
  /\ (exists s s',
        unsubmitted_writer true = Ok s
        /\ FileWriterBase.write_train s 7 (Some 0) = Ok s'
        /\ FileWriterBase.warnings s' = [7]
        /\ FileWriterBase.warnings s'
           = FileWriterBase.warnings s
             ++ (if Options.warn_on_missing_data (FileWriterBase._meta s)
                    && existsb (nothing_staged s) (FileWriterBase.sources s)
                 then [7] else [])).
Proof.
  let r := returned warn_writer in pose (a := r).
  let r := returned (unsubmitted_writer false) in pose (b := r).
  let r := returned (FileWriterBase.write_train b 7 (Some 0)) in pose (b' := r).
  let r := returned (unsubmitted_writer true) in pose (c := r).
  let r := returned (FileWriterBase.write_train c 7 (Some 0)) in pose (c' := r).
  assert (FileWriterBase.rotate_sequence_file a = Ok a)
    as Ha by (vm_compute; reflexivity).
  assert (FileWriterBase.rotate_sequence_file b = Ok b)
    as Hb by (vm_compute; reflexivity).
  assert (FileWriterBase.rotate_sequence_file c = Ok c)
    as Hc by (vm_compute; reflexivity).
  assert (reported a <> []) as Hra by (vm_compute; discriminate).
  assert (reported b = []) as Hrb by (vm_compute; reflexivity).
  assert (reported c = []) as Hrc by (vm_compute; reflexivity).
  assert (FileWriterBase.write_train c 7 (Some 0) = Ok c')
    as Hc' by (vm_compute; reflexivity).
  split; [|split].
  - exists a. split; [vm_compute; reflexivity|].
    split; [reflexivity|]. split; [vm_compute; reflexivity|].
    exact (proj1 (write_train_incomplete a 7 (Some 0) a Ha) Hra).
  - exists b, b'. split; [vm_compute; reflexivity|].
    split; [exact Hrb|]. do 3 (split; [vm_compute; reflexivity|]).
    exact (proj1 (proj2 (write_train_incomplete b 7 (Some 0) b Hb) Hrb)).
  - exists c, c'. split; [vm_compute; reflexivity|].
    split; [exact Hc'|]. split; [vm_compute; reflexivity|].
    exact (proj2 (proj2 (write_train_incomplete c 7 (Some 0) c Hc) Hrc) c' Hc').
Defined.

(** ** The file writer: staging values and committing trains *)

Section WriterTrain.
Context {Row : Type}.
Import FileWriterBase.
Implicit Types (s : FileWriterBase.t Row).

Lemma dict_set_rel (R : Source.t Row -> Source.t Row -> Prop) d k a b :
  (forall x, R x x) -> dict_get d k = Ok a -> R a b ->
  sources_rel R d (dict_set d k b).
Proof.
  intros Hrefl. induction d as [|[k1 a1] d IH]; simpl; [discriminate|].
  destruct (decide (k1 = k)) as [->|Hne].
  - intros [= ->] Hab. constructor; [split; auto|].
    apply sources_rel_refl, Hrefl.
  - intros Hget Hab. constructor; [split; auto|]. apply IH; assumption.
Qed.

Lemma add_value_inv s name value s' :
  add_value s name value = Ok s' ->
  exists ds src nrec',
    dict_get (datasets s) name = Ok ds
    /\ dict_get (sources s) (Dataset.source_name ds) = Ok src
    /\ (Source.stype src = 0 -> len value = 1)
    /\ nrec' = (if Source.nrec src =? 0 then len value else Source.nrec src)
    /\ s' = set_train_data
              (set_sources s
                 (dict_set (sources s) (Dataset.source_name ds)
                    (Source.set_index src (Source.first src) (Source.count src)
                       (Source.pos src) nrec')))
              (<[Source.name src :=
                   <[Dataset.key ds := value]> (staged_data s (Source.name src))]>
                 (_train_data s)).
Proof.
  unfold add_value. intros H.
  apply bind_Ok in H as (ds & Hds & H).
  apply bind_Ok in H as (src & Hsrc & H).
  destruct ((Source.stype src =? 0) && negb (len value =? 1)) eqn:Hone;
    [discriminate|].
  apply bind_Ok in H as (nrec' & Hn & H). injection H as <-.
  exists ds, src, nrec'. split; [exact Hds|]. split; [exact Hsrc|]. split.
  - intros Hs. rewrite Hs in Hone. simpl in Hone.
    apply negb_false_iff, Z.eqb_eq in Hone. exact Hone.
  - split.
    + destruct (Source.nrec src =? 0); [congruence|].
      destruct (negb _ && _); [discriminate|congruence].
    + unfold staged_data. rewrite insert_insert_eq. reflexivity.
Qed.

(* add_value leaves the train index, the files and the schema alone *)
Lemma add_value_frame s name value s' :
  add_value s name value = Ok s' ->
  trains s' = trains s /\ timestamp s' = timestamp s /\ flags s' = flags s
  /\ seq s' = seq s /\ _file s' = _file s /\ disk s' = disk s
  /\ static s' = static s /\ warnings s' = warnings s
  /\ sources_rel same_schema (sources s) (sources s').
Proof.
  intros H. apply add_value_inv in H
    as (ds & src & n & _ & Hsrc & _ & _ & ->). simpl.
  repeat (split; [reflexivity|]).
  eapply dict_set_rel; [apply same_schema_refl|exact Hsrc|]. repeat split.
Qed.

Lemma add_frame s kwargs s' :
  add s kwargs = Ok s' ->
  trains s' = trains s /\ timestamp s' = timestamp s /\ flags s' = flags s
  /\ seq s' = seq s /\ _file s' = _file s /\ disk s' = disk s
  /\ static s' = static s /\ warnings s' = warnings s
  /\ sources_rel same_schema (sources s) (sources s').
Proof.
  unfold add. revert s. induction kwargs as [|[name value] kw IH]; simpl; intros s H.
  - injection H as <-. repeat (split; [reflexivity|]).
    apply sources_rel_refl, same_schema_refl.
  - apply bind_Ok in H as (s1 & H1 & H).
    apply add_value_frame in H1 as (? & ? & ? & ? & ? & ? & ? & ? & Hr1).
    apply IH in H as (? & ? & ? & ? & ? & ? & ? & ? & Hr).
    repeat (split; [congruence|]).
    eapply sources_rel_trans; [|exact Hr1|exact Hr]. apply same_schema_trans.
Qed.

(* the loop of write_train: every source commits what is staged for it *)
Lemma commit_loop (l acc r : dict (Source.t Row))
    (td td0 td' : gmap string (gmap string (list Row))) :
  NoDup l.*1 ->
  (forall k, k ∈ l.*1 -> td !! k = td0 !! k) ->
  for_each l commit_source (acc, td) = Ok (r, td') ->
  exists l',
    r = acc ++ l'
    /\ Forall2 (fun x y =>
                  x.1 = y.1
                  /\ Source.write_train x.2 (default ∅ (td0 !! x.1)) = Ok y.2)
         l l'
    /\ forall k, (forall src, (k, src) ∈ l -> Source.stype src <> 1) ->
                 td' !! k = td !! k.
Proof.
  revert acc td. induction l as [|[k0 src0] l IH]; intros acc td Hnd Htd H.
  - simpl in H. injection H as <- <-. exists []. rewrite app_nil_r.
    split; [reflexivity|]. split; [constructor|auto].
  - simpl in H. apply bind_Ok in H as ([acc1 td1] & Hstep & H).
    rewrite fmap_cons in Hnd. apply NoDup_cons in Hnd as [Hk0 Hnd].
    assert (exists src',
               Source.write_train src0 (default ∅ (td0 !! k0)) = Ok src'
               /\ acc1 = acc ++ [(k0, src')]
               /\ (td1 = td \/ (Source.stype src0 = 1 /\ td1 = delete k0 td)))
      as (src' & Hw & -> & Htd1).
    { unfold commit_source in Hstep.
      rewrite <- (Htd k0) by (rewrite fmap_cons; apply elem_of_cons; auto).
      destruct (td !! k0) as [data|]; simpl.
      - apply bind_Ok in Hstep as (src' & Hw & Hstep). injection Hstep as <- <-.
        exists src'. split; [exact Hw|]. split; [reflexivity|].
        apply source_write_train_inv in Hw as (w & _ & ->). simpl.
        destruct (Z.eqb_spec (Source.stype src0) 1); auto.
      - apply bind_Ok in Hstep as (src' & Hw & Hstep). injection Hstep as <- <-.
        exists src'. auto. }
    apply IH in H as (l' & -> & Hrel & Hkeep); [|exact Hnd|].
    + exists ((k0, src') :: l'). rewrite <- app_assoc.
      split; [reflexivity|]. split; [constructor; auto|].
      intros k Hk. rewrite Hkeep.
      * destruct Htd1 as [->|[Hs ->]]; [reflexivity|].
        apply lookup_delete_ne. intros <-.
        apply (Hk src0); [apply elem_of_cons; auto|exact Hs].
      * intros src Hin. apply Hk. apply elem_of_cons. auto.
    + intros k Hk. rewrite <- Htd by (rewrite fmap_cons; apply elem_of_cons; auto).
      destruct Htd1 as [->|[_ ->]]; [reflexivity|].
      apply lookup_delete_ne. intros <-. contradiction.
Qed.

Lemma write_train_inv s tid ts s' :
  NoDup (sources s).*1 ->
  write_train s tid ts = Ok s' ->
  exists s1 complete,
    rotate_sequence_file s = Ok s1
    /\ is_data_complete s1 = Complete complete
    /\ Forall2 (fun x y =>
                  x.1 = y.1
                  /\ Source.write_train x.2 (staged_data s x.1) = Ok y.2)
         (sources s1) (sources s')
    /\ (forall k, (forall src, (k, src) ∈ sources s1 -> Source.stype src <> 1) ->
                  _train_data s' !! k = _train_data s !! k)
    /\ trains s' = trains s1 ++ [tid]
    /\ timestamp s' = timestamp s1 ++ [ts]
    /\ flags s' = flags s1 ++ [1]
    /\ seq s' = seq s1 /\ _file s' = _file s1 /\ disk s' = disk s1
    /\ static s' = static s1.
Proof.
  intros Hnd H. unfold write_train in H.
  apply bind_Ok in H as (s1 & Hrot & H).
  destruct (rotate_frame s s1 Hrot) as [(Htd & Hst & Hw) Hrel].
  destruct (is_data_complete s1) as [complete|] eqn:Hc; [|discriminate].
  exists s1, complete. split; [exact Hrot|]. split; [exact Hc|].
  apply bind_Ok in H as ([srcs td'] & Hloop & H). injection H as <-.
  set (s1w := if Options.warn_on_missing_data (_meta s1) && negb complete
              then set_warnings s1 (warnings s1 ++ [tid]) else s1) in *.
  assert (sources s1w = sources s1 /\ _train_data s1w = _train_data s1
          /\ trains s1w = trains s1 /\ timestamp s1w = timestamp s1
          /\ flags s1w = flags s1 /\ seq s1w = seq s1 /\ _file s1w = _file s1
          /\ disk s1w = disk s1 /\ static s1w = static s1)
    as (Es & Etd & Etr & Ets & Efl & Esq & Ef & Ed & Est).
  { unfold s1w. destruct (_ && _); repeat split. }
  rewrite Es, Etd in Hloop.
  apply (commit_loop _ _ _ _ (_train_data s1)) in Hloop
    as (l' & -> & Hcommit & Hkeep); [| |auto].
  2:{ rewrite <- (sources_rel_keys _ _ _ Hrel). exact Hnd. }
  split; [|split; [|repeat split; simpl; try congruence; exact Est]].
  - unfold staged_data. rewrite <- Htd. exact Hcommit.
  - intros k Hk. simpl. rewrite (Hkeep k Hk), Htd. reflexivity.
Qed.

End WriterTrain.

(** ** The train index across trains *)

Section TrainIndex.
Context {Row : Type}.
Import FileWriterBase.
Implicit Types (s : FileWriterBase.t Row).

Lemma wf_dict_rel (l l' : dict (Source.t Row)) :
  sources_rel same_schema l l' -> wf_dict l -> wf_dict l'.
Proof.
  intros Hrel [Hnd Hn]. split.
  - rewrite <- (sources_rel_keys _ _ _ Hrel). exact Hnd.
  - clear Hnd. induction Hrel as [|x y l l' [Hk (Hname & _)] _ IH]; [constructor|].
    apply Forall_cons in Hn as [Hx Hn]. constructor; [congruence|auto].
Qed.

Lemma commit_rel (l l' : dict (Source.t Row)) (td : string -> gmap string (list Row)) :
  Forall2 (fun x y => x.1 = y.1 /\ Source.write_train x.2 (td x.1) = Ok y.2) l l' ->
  sources_rel same_schema l l'.
Proof.
  intros H. eapply Forall2_impl; [exact H|]. simpl.
  intros x y [Hk Hw]. split; [exact Hk|].
  apply source_write_train_inv in Hw as (w & _ & ->). repeat split.
Qed.

Lemma same_train_schema (l l' : dict (Source.t Row)) :
  sources_rel same_train l l' -> sources_rel same_schema l l'.
Proof. apply sources_rel_impl. intros a b [H _]. exact H. Qed.

Lemma write_train_wf_sources s tid ts s' :
  wf_sources s -> write_train s tid ts = Ok s' -> wf_sources s'.
Proof.
  intros Hwf H. apply write_train_inv in H
    as (s1 & c & Hrot & _ & Hcommit & _); [|apply Hwf].
  apply rotate_frame in Hrot as [_ Hrel].
  eapply wf_dict_rel; [apply (commit_rel _ _ (staged_data s)), Hcommit|].
  eapply wf_dict_rel; [apply same_train_schema, Hrel|exact Hwf].
Qed.

Lemma add_wf_sources s kwargs s' :
  wf_sources s -> add s kwargs = Ok s' -> wf_sources s'.
Proof.
  intros Hwf H. apply add_frame in H as (_ & _ & _ & _ & _ & _ & _ & _ & Hrel).
  eapply wf_dict_rel; eauto.
Qed.

Lemma add_wf_index s kwargs s' :
  wf_index s -> add s kwargs = Ok s' -> wf_index s'.
Proof.
  intros (Ht & Hf & Hi & Hp) H.
  apply add_frame in H as (Etr & Ets & Efl & Esq & Ef & _ & Est & _).
  unfold wf_index, index_grp. rewrite Etr, Ets, Efl, Esq, Ef.
  assert (filename s' = filename s) as -> by (unfold static in Est; congruence).
  auto.
Qed.

(* what a committed train does to the train index and the files *)
Lemma write_train_index s tid ts s' :
  wf_sources s -> wf_index s ->
  write_train s tid ts = Ok s' ->
  wf_index s' /\ static s' = static s
  /\ if rotation_due s then
       exists f tsv,
         as_uint64 (timestamp s) = Ok tsv
         /\ path f = filename s (seq s)
         /\ index_rows f "trainId" = Some (trains s)
         /\ index_rows f "timestamp" = Some tsv
         /\ index_rows f "flag" = Some (flags s)
         /\ disk s' = filter (fun f => path f ≠ filename s (seq s + 1))
                        (disk s ++ [f])
         /\ seq s' = seq s + 1
         /\ trains s' = [tid] /\ timestamp s' = [ts] /\ flags s' = [1]
     else
       disk s' = disk s /\ seq s' = seq s
       /\ trains s' = trains s ++ [tid]
       /\ timestamp s' = timestamp s ++ [ts]
       /\ flags s' = flags s ++ [1].
Proof.
  intros Hwfs Hwf H.
  apply write_train_inv in H
    as (s1 & c & Hrot & _ & _ & _ & Etr & Ets & Efl & Esq & Ef & Ed & Est);
    [|apply Hwfs].
  destruct Hwf as (Ht & Hf & Hi & Hp).
  apply rotate_sequence_file_inv in Hrot
    as [[Hdue ->]|[Hdue (s2 & Hclose & Hseq & Hdisk & Hpath & Hidx & Hfr
                          & Htr1 & Hts1 & Hfl1 & _)]];
    rewrite Hdue.
  - split; [|split; [exact Est|auto]].
    unfold wf_index, index_grp. rewrite Etr, Ets, Efl, Esq, Ef.
    assert (filename s' = filename s) as -> by (unfold static in Est; congruence).
    rewrite !len_app, Ht, Hf. auto.
  - destruct Hfr as (_ & Hst1 & _).
    assert (filename s1 = filename s) as Hfn1
      by (unfold static in Hst1; congruence).
    assert (filename s' = filename s) as Hfn
      by (unfold static in Est; congruence).
    split; [|split; [congruence|]].
    + unfold wf_index, index_grp. rewrite Etr, Ets, Efl, Esq, Ef, Hfn.
      rewrite Htr1, Hts1, Hfl1, Hseq, Hpath. unfold index_grp in Hidx. auto.
    + apply close_inv in Hclose
        as (f & Hd2 & Hpf & _ & _ & _ & _ & _ & _ & _ & Hrows).
      destruct Hrows as (tsv & Htsv & Hr1 & Hr2 & Hr3).
      { repeat split; assumption. }
      exists f, tsv. rewrite Etr, Ets, Efl, Esq, Ed, Hdisk, Hd2.
      rewrite Htr1, Hts1, Hfl1, Hseq, Hpf, Hp.
      repeat split; auto.
Qed.

Lemma close_index s s' :
  wf_index s -> close s = Ok s' ->
  exists f tsv,
    as_uint64 (timestamp s) = Ok tsv
    /\ path f = filename s (seq s)
    /\ index_rows f "trainId" = Some (trains s)
    /\ index_rows f "timestamp" = Some tsv
    /\ index_rows f "flag" = Some (flags s)
    /\ disk s' = disk s ++ [f].
Proof.
  intros Hwf H. apply close_inv in H
    as (f & Hd & Hpf & _ & _ & _ & _ & _ & _ & _ & Hrows).
  destruct (Hrows Hwf) as (tsv & Htsv & Hr1 & Hr2 & Hr3).
  destruct Hwf as (_ & _ & _ & Hp).
  exists f, tsv. rewrite Hpf, Hp. repeat split; auto.
Qed.

End TrainIndex.

(** ** A new file writer *)

Section WriterInit.
Context {Row : Type}.
Import FileWriterBase.
Implicit Types (s : FileWriterBase.t Row).

Lemma dict_set_wf (d : dict (Source.t Row)) k v :
  wf_dict d -> Source.name v = k -> wf_dict (dict_set d k v).
Proof.
  intros [Hnd Hn] Hv. induction d as [|[k1 v1] d IH]; simpl.
  - split; [repeat constructor; set_solver|repeat constructor; exact Hv].
  - rewrite fmap_cons in Hnd. apply NoDup_cons in Hnd as [Hk1 Hnd].
    apply Forall_cons in Hn as [Hn1 Hn].
    destruct (decide (k1 = k)) as [->|Hne].
    + split; [rewrite fmap_cons; apply NoDup_cons; auto|].
      constructor; [exact Hv|exact Hn].
    + destruct (IH Hnd Hn) as [IHnd IHn].
      split; [|constructor; auto].
      rewrite fmap_cons. apply NoDup_cons. split; [|exact IHnd].
      simpl. intros Hin. apply Hk1.
      clear -Hin Hne. induction d as [|[k2 v2] d IH]; simpl in *.
      * apply elem_of_cons in Hin as [->|Hin]; [congruence|inversion Hin].
      * destruct (decide (k2 = k)) as [->|Hne2]; simpl in *; [exact Hin|].
        apply elem_of_cons in Hin as [->|Hin];
          [apply elem_of_cons; auto|].
        apply elem_of_cons. right. apply IH, Hin.
Qed.

Lemma init_sources_wf (los : list (string * string)) (acc srcs : dict (Source.t Row)) :
  wf_dict acc ->
  for_each los
    (fun srcs '(sect, src_name) =>
       let! stype := SECTION_index sect in
       let! src := Source.init src_name (Some stype) in
       Ok (dict_set srcs src_name src))
    acc = Ok srcs ->
  wf_dict srcs.
Proof.
  revert acc. induction los as [|[sect name] los IH]; simpl; intros acc Hwf H.
  - injection H as <-. exact Hwf.
  - apply bind_Ok in H as (acc1 & Hstep & H). apply (IH acc1); [|exact H].
    apply bind_Ok in Hstep as (stype & _ & Hstep).
    apply bind_Ok in Hstep as (src & Hsrc & Hstep). injection Hstep as <-.
    apply dict_set_wf; [exact Hwf|].
    unfold Source.init in Hsrc. inv_ok. subst src. reflexivity.
Qed.

Lemma init_datasets_wf (dss : dict (Dataset.t Row)) (acc srcs : dict (Source.t Row)) :
  wf_dict acc ->
  for_each dss
    (fun srcs '(dsname, ds) =>
       let! src := dict_get srcs (Dataset.source_name ds) in
       Ok (dict_set srcs (Dataset.source_name ds) (Source.add src ds)))
    acc = Ok srcs ->
  wf_dict srcs.
Proof.
  revert acc. induction dss as [|[dsname ds] dss IH]; simpl; intros acc Hwf H.
  - injection H as <-. exact Hwf.
  - apply bind_Ok in H as (acc1 & Hstep & H). apply (IH acc1); [|exact H].
    apply bind_Ok in Hstep as (src & Hsrc & Hstep). injection Hstep as <-.
    apply dict_set_wf; [exact Hwf|]. simpl.
    destruct Hwf as [_ Hn]. clear -Hsrc Hn.
    induction acc as [|[k v] acc IH]; simpl in *; [discriminate|].
    apply Forall_cons in Hn as [Hv Hn].
    destruct (decide (k = Dataset.source_name ds)) as [<-|Hne].
    + injection Hsrc as <-. exact Hv.
    + apply IH; assumption.
Qed.

Lemma init_inv los dss meta fn dk s :
  init los dss meta fn dk = Ok s ->
  wf_sources s /\ wf_index s
  /\ static s = (fn, los, dss, meta)
  /\ trains s = [] /\ timestamp s = [] /\ flags s = []
  /\ seq s = 0
  /\ disk s = filter (fun f => path f ≠ fn 0) dk
  /\ _train_data s = ∅ /\ warnings s = [].
Proof.
  unfold init. intros H.
  apply bind_Ok in H as (srcs0 & H0 & H).
  apply bind_Ok in H as (srcs1 & H1 & H).
  apply init_sources_wf in H0; [|split; constructor].
  apply init_datasets_wf in H1; [|exact H0].
  unfold open_w in H.
  apply init_file_inv in H as (ids & grp & srcs & -> & Hidx & Hrel). simpl.
  split.
  - eapply wf_dict_rel; [|exact H1]. eapply sources_rel_impl; [|exact Hrel].
    intros a b (w & g & ->). repeat split.
  - split; [repeat split; auto|]. repeat split.
Qed.

End WriterInit.

(** ** Sequence files *)

Section SequenceFiles.
Context {Row : Type}.
Import FileWriterBase.
Implicit Types (s : FileWriterBase.t Row).

Lemma at_init los dss meta fn s :
  init los dss meta fn [] = Ok s -> at_state s fn meta [] [] [] 0 [].
Proof.
  intros H. apply init_inv in H
    as (Hs & Hi & Hst & Htr & Hts & Hfl & Hsq & Hd & _).
  unfold static in Hst. injection Hst as Hfn _ _ Hmeta.
  repeat split; auto; apply Hs || apply Hi.
Qed.

Lemma at_add s kwargs s' fn meta tr ts fl sq dk :
  at_state s fn meta tr ts fl sq dk -> add s kwargs = Ok s' ->
  at_state s' fn meta tr ts fl sq dk.
Proof.
  intros (Hs & Hi & Hfn & Hm & Htr & Hts & Hfl & Hsq & Hd) H.
  pose proof (add_wf_sources _ _ _ Hs H) as Hs'.
  pose proof (add_wf_index _ _ _ Hi H) as Hi'.
  apply add_frame in H as (Etr & Ets & Efl & Esq & Ef & Ed & Est & _).
  unfold static in Est. injection Est as Efn _ _ Em.
  unfold at_state. rewrite Efn, Em, Etr, Ets, Efl, Esq, Ed. auto 10.
Qed.

Lemma at_train_keep s tid u s' fn meta tr ts fl sq dk :
  at_state s fn meta tr ts fl sq dk ->
  Options.break_into_sequence meta
  && (Options.max_train_per_file meta <=? len tr) = false ->
  write_train s tid u = Ok s' ->
  at_state s' fn meta (tr ++ [tid]) (ts ++ [u]) (fl ++ [1]) sq dk.
Proof.
  intros (Hs & Hi & Hfn & Hm & Htr & Hts & Hfl & Hsq & Hd) Hdue H.
  pose proof (write_train_wf_sources _ _ _ _ Hs H) as Hs'.
  apply write_train_index in H as (Hi' & Est & H); [|exact Hs|exact Hi].
  unfold rotation_due in H. rewrite Hm, Htr, Hdue in H.
  destruct H as (Ed & Esq & Etr & Ets & Efl).
  unfold static in Est. injection Est as Efn _ _ Em.
  unfold at_state. rewrite Efn, Em, Etr, Ets, Efl, Esq, Ed.
  subst. auto 10.
Qed.

Lemma at_train_rotate s tid u s' fn meta tr ts fl sq dk :
  at_state s fn meta tr ts fl sq dk ->
  Options.break_into_sequence meta
  && (Options.max_train_per_file meta <=? len tr) = true ->
  write_train s tid u = Ok s' ->
  exists f tsv,
    as_uint64 ts = Ok tsv
    /\ file_index f (fn sq) tr tsv fl
    /\ at_state s' fn meta [tid] [u] [1] (sq + 1)
         (filter (fun f => path f ≠ fn (sq + 1)) (dk ++ [f])).
Proof.
  intros (Hs & Hi & Hfn & Hm & Htr & Hts & Hfl & Hsq & Hd) Hdue H.
  pose proof (write_train_wf_sources _ _ _ _ Hs H) as Hs'.
  apply write_train_index in H as (Hi' & Est & H); [|exact Hs|exact Hi].
  unfold rotation_due in H. rewrite Hm, Htr, Hdue in H.
  destruct H as (f & tsv & Htsv & Hp & Hr1 & Hr2 & Hr3 & Ed & Esq & Etr & Ets & Efl).
  unfold static in Est. injection Est as Efn _ _ Em.
  exists f, tsv. subst. split; [exact Htsv|].
  split; [repeat split; assumption|].
  unfold at_state. rewrite Efn, Em, Etr, Ets, Efl, Esq, Ed. auto 10.
Qed.

Lemma at_close s s' fn meta tr ts fl sq dk :
  at_state s fn meta tr ts fl sq dk ->
  close s = Ok s' ->
  exists f tsv,
    as_uint64 ts = Ok tsv
    /\ file_index f (fn sq) tr tsv fl
    /\ disk s' = dk ++ [f].
Proof.
  intros (Hs & Hi & Hfn & Hm & Htr & Hts & Hfl & Hsq & Hd) H.
  apply close_index in H as (f & tsv & Htsv & Hp & Hr1 & Hr2 & Hr3 & Ed);
    [|exact Hi].
  exists f, tsv. subst. split; [exact Htsv|].
  split; [repeat split; assumption|exact Ed].
Qed.

Lemma filter_other_paths (l : list (File Row)) p :
  Forall (fun f => path f ≠ p) l ->
  filter (fun f => path f ≠ p) l = l.
Proof.
  induction 1 as [|f l Hf _ IH]; [reflexivity|].
  rewrite filter_cons_True by exact Hf. rewrite IH. reflexivity.
Qed.

End SequenceFiles.

(** C9: a writer with [max_train_per_file = 2] and
    [break_into_sequence = True], in an empty directory and with a file
    name of its own for each of the sequence numbers 0, 1 and 2.  Five
    trains are written (each after any submissions through [add]) and
    the writer is closed.  Then three files are on disk; their trainId
    datasets hold the trains 1-2, 3-4 and 5, and the timestamp and flag
    datasets of each file have as many rows. *)
Theorem five_trains_three_files {Row}
    (los : list (string * string)) (dss : dict (Dataset.t Row))
    (meta : Options.t) (fn : Z -> string)
    (kw1 kw2 kw3 kw4 kw5 : list (string * list Row))
    (t1 t2 t3 t4 t5 u1 u2 u3 u4 u5 : Z)
    (s0 a1 s1 a2 s2 a3 s3 a4 s4 a5 s5 s6 : FileWriterBase.t Row) :
  Options.max_train_per_file meta = 2 ->
  Options.break_into_sequence meta = true ->
  fn 0 <> fn 1 -> fn 0 <> fn 2 -> fn 1 <> fn 2 ->
  FileWriterBase.init los dss meta fn [] = Ok s0 ->
  FileWriterBase.add s0 kw1 = Ok a1 ->
  FileWriterBase.write_train a1 t1 (Some u1) = Ok s1 ->
  FileWriterBase.add s1 kw2 = Ok a2 ->
  FileWriterBase.write_train a2 t2 (Some u2) = Ok s2 ->
  FileWriterBase.add s2 kw3 = Ok a3 ->
  FileWriterBase.write_train a3 t3 (Some u3) = Ok s3 ->
  FileWriterBase.add s3 kw4 = Ok a4 ->
  FileWriterBase.write_train a4 t4 (Some u4) = Ok s4 ->
  FileWriterBase.add s4 kw5 = Ok a5 ->
  FileWriterBase.write_train a5 t5 (Some u5) = Ok s5 ->
  FileWriterBase.close s5 = Ok s6 ->
  exists f0 f1 f2,
    FileWriterBase.disk s6 = [f0; f1; f2]
    /\ file_index f0 (fn 0) [t1; t2] [u1; u2] [1; 1]
    /\ file_index f1 (fn 1) [t3; t4] [u3; u4] [1; 1]
    /\ file_index f2 (fn 2) [t5] [u5] [1].
Proof.
  intros Hmax Hbrk H01 H02 H12 Hinit Ha1 Hw1 Ha2 Hw2 Ha3 Hw3 Ha4 Hw4 Ha5 Hw5 Hc.
  pose proof (at_init _ _ _ _ _ Hinit) as S0.
  pose proof (at_add _ _ _ _ _ _ _ _ _ _ S0 Ha1) as A1.
  pose proof (at_train_keep _ _ _ _ _ _ _ _ _ _ _ A1
                ltac:(rewrite Hmax, Hbrk; reflexivity) Hw1) as S1.
  pose proof (at_add _ _ _ _ _ _ _ _ _ _ S1 Ha2) as A2.
  pose proof (at_train_keep _ _ _ _ _ _ _ _ _ _ _ A2
                ltac:(rewrite Hmax, Hbrk; reflexivity) Hw2) as S2.
  pose proof (at_add _ _ _ _ _ _ _ _ _ _ S2 Ha3) as A3.
  destruct (at_train_rotate _ _ _ _ _ _ _ _ _ _ _ A3
              ltac:(rewrite Hmax, Hbrk; reflexivity) Hw3)
    as (f0 & tsv0 & Htsv0 & F0 & S3).
  injection Htsv0 as <-. simpl in S3.
  rewrite filter_other_paths in S3
    by (repeat constructor; destruct F0 as [-> _]; exact H01).
  pose proof (at_add _ _ _ _ _ _ _ _ _ _ S3 Ha4) as A4.
  pose proof (at_train_keep _ _ _ _ _ _ _ _ _ _ _ A4
                ltac:(rewrite Hmax, Hbrk; reflexivity) Hw4) as S4.
  pose proof (at_add _ _ _ _ _ _ _ _ _ _ S4 Ha5) as A5.
  destruct (at_train_rotate _ _ _ _ _ _ _ _ _ _ _ A5
              ltac:(rewrite Hmax, Hbrk; reflexivity) Hw5)
    as (f1 & tsv1 & Htsv1 & F1 & S5).
  injection Htsv1 as <-. simpl in S5.
  rewrite filter_other_paths in S5
    by (repeat constructor; [destruct F0 as [-> _]; exact H02
                            |destruct F1 as [-> _]; exact H12]).
  destruct (at_close _ _ _ _ _ _ _ _ _ S5 Hc) as (f2 & tsv2 & Htsv2 & F2 & Hd).
  injection Htsv2 as <-.
  exists f0, f1, f2. auto.
Qed.

(* the value of a computation that returns *)
Lemma five_trains_three_files_witness :
  exists s0 a1 s1 a2 s2 a3 s3 a4 s4 a5 s5 s6,
    rotating_writer = Ok s0
    /\ FileWriterBase.add s0 [("x", [7]); ("v", [1; 2; 3])]%string = Ok a1
    /\ FileWriterBase.write_train a1 101 (Some 11) = Ok s1
    /\ FileWriterBase.add s1 [] = Ok a2
    /\ FileWriterBase.write_train a2 102 (Some 12) = Ok s2
    /\ FileWriterBase.add s2 [("v", [4; 5])]%string = Ok a3
    /\ FileWriterBase.write_train a3 103 (Some 13) = Ok s3
    /\ FileWriterBase.add s3 [] = Ok a4
    /\ FileWriterBase.write_train a4 104 (Some 14) = Ok s4
    /\ FileWriterBase.add s4 [("x", [8])]%string = Ok a5
    /\ FileWriterBase.write_train a5 105 (Some 15) = Ok s5
    /\ FileWriterBase.close s5 = Ok s6
    /\ exists f0 f1 f2,
         FileWriterBase.disk s6 = [f0; f1; f2]
         /\ file_index f0 (run_name 0) [101; 102] [11; 12] [1; 1]
         /\ file_index f1 (run_name 1) [103; 104] [13; 14] [1; 1]
         /\ file_index f2 (run_name 2) [105] [15] [1].
Proof.
  let s := returned rotating_writer in pose (s0 := s).
  let s := returned (FileWriterBase.add s0 [("x", [7]); ("v", [1; 2; 3])]%string) in
  pose (a1 := s).
  let s := returned (FileWriterBase.write_train a1 101 (Some 11)) in pose (s1 := s).
  let s := returned (FileWriterBase.add s1 []) in pose (a2 := s).
  let s := returned (FileWriterBase.write_train a2 102 (Some 12)) in pose (s2 := s).
  let s := returned (FileWriterBase.add s2 [("v", [4; 5])]%string) in pose (a3 := s).
  let s := returned (FileWriterBase.write_train a3 103 (Some 13)) in pose (s3 := s).
  let s := returned (FileWriterBase.add s3 []) in pose (a4 := s).
  let s := returned (FileWriterBase.write_train a4 104 (Some 14)) in pose (s4 := s).
  let s := returned (FileWriterBase.add s4 [("x", [8])]%string) in pose (a5 := s).
  let s := returned (FileWriterBase.write_train a5 105 (Some 15)) in pose (s5 := s).
  let s := returned (FileWriterBase.close s5) in pose (s6 := s).
  assert (rotating_writer = Ok s0) as H0 by (vm_compute; reflexivity).
  assert (FileWriterBase.add s0 [("x", [7]); ("v", [1; 2; 3])]%string = Ok a1)
    as Ha1 by (vm_compute; reflexivity).
  assert (FileWriterBase.write_train a1 101 (Some 11) = Ok s1)
    as Hw1 by (vm_compute; reflexivity).
  assert (FileWriterBase.add s1 [] = Ok a2) as Ha2 by (vm_compute; reflexivity).
  assert (FileWriterBase.write_train a2 102 (Some 12) = Ok s2)
    as Hw2 by (vm_compute; reflexivity).
  assert (FileWriterBase.add s2 [("v", [4; 5])]%string = Ok a3)
    as Ha3 by (vm_compute; reflexivity).
  assert (FileWriterBase.write_train a3 103 (Some 13) = Ok s3)
    as Hw3 by (vm_compute; reflexivity).
  assert (FileWriterBase.add s3 [] = Ok a4) as Ha4 by (vm_compute; reflexivity).
  assert (FileWriterBase.write_train a4 104 (Some 14) = Ok s4)
    as Hw4 by (vm_compute; reflexivity).
  assert (FileWriterBase.add s4 [("x", [8])]%string = Ok a5)
    as Ha5 by (vm_compute; reflexivity).
  assert (FileWriterBase.write_train a5 105 (Some 15) = Ok s5)
    as Hw5 by (vm_compute; reflexivity).
  assert (FileWriterBase.close s5 = Ok s6) as Hc by (vm_compute; reflexivity).
  exists s0, a1, s1, a2, s2, a3, s3, a4, s4, a5, s5, s6.
  repeat (split; [assumption|]).
  apply (five_trains_three_files
           [("CONTROL", "dev"); ("INSTRUMENT", "dev:out/data")]%string
           [("x", control_x); ("v", scalar_instrument)]%string
           rotating_options run_name
           [("x", [7]); ("v", [1; 2; 3])]%string [] [("v", [4; 5])]%string []
           [("x", [8])]%string
           101 102 103 104 105 11 12 13 14 15
           s0 a1 s1 a2 s2 a3 s3 a4 s4 a5 s5 s6);
    first [assumption | reflexivity | discriminate].
Defined.

(** ** Control sources *)

Section ControlSources.
Context {Row : Type}.
Import FileWriterBase.
Implicit Types (s : FileWriterBase.t Row).

Lemma dict_get_elem {V} (d : dict V) k v : dict_get d k = Ok v -> (k, v) ∈ d.
Proof.
  induction d as [|[k1 v1] d IH]; simpl; [discriminate|].
  destruct (decide (k1 = k)) as [->|Hne].
  - intros [= ->]. apply elem_of_cons. auto.
  - intros H. apply elem_of_cons. right. auto.
Qed.

Lemma items_rel_get {V} (P : string * V -> string * V -> Prop) (l l' : dict V) k b :
  Forall2 (fun x y => x.1 = y.1 /\ P x y) l l' ->
  dict_get l' k = Ok b ->
  exists a, dict_get l k = Ok a /\ P (k, a) (k, b).
Proof.
  intros H. induction H as [|[k1 a1] [k2 a2] l l' [Hk Hxy] _ IH]; simpl.
  - discriminate.
  - simpl in Hk. subst k2. destruct (decide (k1 = k)) as [->|Hne].
    + intros [= <-]. eauto.
    + exact IH.
Qed.

Lemma index_of_nat_inv {A} (l : list A) (k j : nat) :
  index_of l (Z.of_nat k) = Ok j -> j = k /\ (k < length l)%nat.
Proof.
  intros Hj. pose proof (index_of_inv _ _ _ Hj) as Hlt.
  unfold index_of, len in Hj.
  destruct (Z.ltb_spec (Z.of_nat k) 0); [lia|].
  destruct (_ || _); [discriminate|]. injection Hj as <-. lia.
Qed.

Lemma getitem_nat_inv {A} (l : list A) (k : nat) x :
  getitem l (Z.of_nat k) = Ok x -> l !! k = Some x.
Proof.
  unfold getitem. intros H. apply bind_Ok in H as (j & Hj & H).
  apply index_of_nat_inv in Hj as [-> _]. destruct (l !! k); congruence.
Qed.

Lemma setitem_nat_inv {A} (l : list A) (k : nat) x l' :
  setitem l (Z.of_nat k) x = Ok l' -> l' = <[k := x]> l /\ (k < length l)%nat.
Proof.
  unfold setitem. intros H. apply bind_Ok in H as (j & Hj & H).
  apply index_of_nat_inv in Hj as [-> Hlt]. injection H as <-. auto.
Qed.

(* the loop of Source.write_train: writer number dsno takes the value
   of its dataset, if there is one, and no other writer changes *)
Lemma write_datasets_loop data nrec (dss : list (Dataset.t Row)) (k : nat) w w' :
  for_each (zip (List.seq k (length dss)) dss) (Source.write_dataset data nrec) w
    = Ok w' ->
  (forall j, (j < k)%nat -> w' !! j = w !! j)
  /\ forall i ds, dss !! i = Some ds ->
       exists wrt,
         w !! (k + i)%nat = Some (Some wrt)
         /\ match data !! Dataset.key ds with
            | Some v => exists wrt', DatasetWriter.write wrt v nrec = Ok wrt'
                                     /\ w' !! (k + i)%nat = Some (Some wrt')
            | None => w' !! (k + i)%nat = Some (Some wrt)
            end.
Proof.
  revert k w. induction dss as [|ds0 dss IH]; intros k w H.
  - simpl in H. injection H as <-. split; [auto|]. intros i ds Hi. discriminate.
  - simpl in H. apply bind_Ok in H as (w1 & Hstep & H).
    apply IH in H as [Hlow Hrest].
    unfold Source.write_dataset in Hstep.
    apply bind_Ok in Hstep as (owrt & Hget & Hstep).
    apply getitem_nat_inv in Hget.
    destruct owrt as [wrt|]; [|discriminate].
    assert (forall j, j <> k -> w1 !! j = w !! j) as Hother.
    { intros j Hj. destruct (data !! Dataset.key ds0).
      - apply bind_Ok in Hstep as (wrt' & _ & Hset).
        apply setitem_nat_inv in Hset as [-> _].
        apply list_lookup_insert_ne. lia.
      - injection Hstep as <-. reflexivity. }
    split.
    + intros j Hj. rewrite Hlow by lia. apply Hother. lia.
    + intros [|i] ds Hi.
      * simpl in Hi. injection Hi as <-. rewrite Nat.add_0_r.
        exists wrt. split; [exact Hget|]. rewrite Hlow by lia.
        destruct (data !! Dataset.key ds0).
        -- apply bind_Ok in Hstep as (wrt' & Hw & Hset).
           apply setitem_nat_inv in Hset as [-> Hlt].
           exists wrt'. split; [exact Hw|]. apply list_lookup_insert_eq, Hlt.
        -- injection Hstep as <-. exact Hget.
      * simpl in Hi. destruct (Hrest i ds Hi) as (wrt1 & Hw1 & Hres).
        replace (k + S i)%nat with (S k + i)%nat by lia.
        exists wrt1. split; [|exact Hres].
        rewrite <- Hw1. symmetry. apply Hother. lia.
Qed.

Lemma source_write_train_writers (src : Source.t Row) data src' :
  Source.write_train src data = Ok src' ->
  same_schema src src'
  /\ Source.count src' = Source.count src ++ [Source.nrec src]
  /\ Source.nrec src' = int (Source.stype src =? 0)
  /\ forall dsno ds, Source.datasets src !! dsno = Some ds ->
       exists wrt,
         Source.file_ds src !! dsno = Some (Some wrt)
         /\ match data !! Dataset.key ds with
            | Some v => exists wrt',
                          DatasetWriter.write wrt v (Source.nrec src) = Ok wrt'
                          /\ Source.file_ds src' !! dsno = Some (Some wrt')
            | None => Source.file_ds src' !! dsno = Some (Some wrt)
            end.
Proof.
  intros H. apply source_write_train_inv in H as (w & Hloop & ->). simpl.
  split; [repeat split|]. split; [reflexivity|]. split; [reflexivity|].
  unfold Source.enumerate in Hloop.
  apply write_datasets_loop in Hloop as [_ Hloop]. exact Hloop.
Qed.

(* a complete train has a value staged for every field of a control source *)
Lemma complete_control_staged s complete sname (src : Source.t Row) ds :
  is_data_complete s = Complete complete ->
  (sname, src) ∈ sources s -> Source.stype src = 0 ->
  ds ∈ Source.datasets src ->
  is_Some (staged_data s sname !! Dataset.key ds).
Proof.
  rewrite is_data_complete_spec.
  destruct (reported s) eqn:Hrep; [|discriminate]. intros _ Hin Hs Hds.
  unfold reported in Hrep.
  induction (sources s) as [|x l IH]; [inversion Hin|].
  rewrite omap_cons' in Hrep.
  apply elem_of_cons in Hin as [<-|Hin].
  - unfold nothing_staged in Hrep. simpl in Hrep. rewrite Hs in Hrep.
    simpl in Hrep.
    destruct (Source.missed_keys src (staged_data s sname)) eqn:Hm;
      [|discriminate].
    unfold Source.missed_keys in Hm.
    destruct (staged_data s sname !! Dataset.key ds) eqn:Hv; [eauto|].
    exfalso.
    assert (Dataset.key ds
              ∈ remove_dups
                  (filter (fun k => staged_data s sname !! k = None)
                          (Dataset.key <$> Source.datasets src))) as Hk.
    { apply elem_of_remove_dups, list_elem_of_filter. split; [exact Hv|].
      apply list_elem_of_fmap. eauto. }
    rewrite Hm in Hk. inversion Hk.
  - apply IH; [|exact Hin].
    destruct (nothing_staged s x); [exact Hrep|].
    destruct (Source.missed_keys x.2 (staged_data s x.1)); [exact Hrep|discriminate].
Qed.

End ControlSources.

Section ControlTrain.
Context {Row : Type}.
Import FileWriterBase.
Implicit Types (s : FileWriterBase.t Row).

Lemma dict_unique {V} (d : dict V) k a b :
  NoDup d.*1 -> (k, a) ∈ d -> (k, b) ∈ d -> a = b.
Proof.
  induction d as [|[k1 v1] d IH]; intros Hnd Ha Hb; [inversion Ha|].
  rewrite fmap_cons in Hnd. apply NoDup_cons in Hnd as [Hk1 Hnd]. simpl in Hk1.
  assert (forall v, (k1, v) ∈ d -> False) as Hfresh.
  { intros v Hv. apply Hk1. apply list_elem_of_fmap. exists (k1, v). auto. }
  apply elem_of_cons in Ha as [Ha|Ha]; apply elem_of_cons in Hb as [Hb|Hb].
  - congruence.
  - injection Ha as -> ->. destruct (Hfresh _ Hb).
  - injection Hb as -> ->. destruct (Hfresh _ Ha).
  - auto.
Qed.

Lemma wf_dict_name (d : dict (Source.t Row)) k src :
  wf_dict d -> dict_get d k = Ok src -> Source.name src = k.
Proof.
  intros [_ Hn] H. apply dict_get_elem in H.
  rewrite Forall_forall in Hn. apply (Hn _ H).
Qed.

Lemma add_value_wf_sources s name value s' :
  wf_sources s -> add_value s name value = Ok s' -> wf_sources s'.
Proof.
  intros Hwf H. apply add_value_frame in H as (_ & _ & _ & _ & _ & _ & _ & _ & Hrel).
  eapply wf_dict_rel; eauto.
Qed.

(* what is staged after add_value *)
Lemma add_value_staged s name value s' sname key :
  wf_sources s -> add_value s name value = Ok s' ->
  exists ds,
    dict_get (datasets s) name = Ok ds
    /\ staged_data s' sname !! key
       = if decide (Dataset.source_name ds = sname /\ Dataset.key ds = key)
         then Some value else staged_data s sname !! key.
Proof.
  intros Hwf H. apply add_value_inv in H
    as (ds & src & n & Hds & Hsrc & _ & _ & ->).
  exists ds. split; [exact Hds|].
  rewrite (wf_dict_name _ _ _ Hwf Hsrc).
  unfold staged_data at 1. simpl.
  destruct (decide (Dataset.source_name ds = sname)) as [<-|Hne].
  - rewrite lookup_insert_eq. simpl.
    destruct (decide (Dataset.key ds = key)) as [<-|Hk].
    + rewrite lookup_insert_eq. rewrite decide_True by auto. reflexivity.
    + rewrite lookup_insert_ne by exact Hk.
      rewrite decide_False by tauto. reflexivity.
  - rewrite lookup_insert_ne by exact Hne.
    rewrite decide_False by tauto. reflexivity.
Qed.

Lemma add_staged s kwargs s' sname key :
  wf_sources s -> add s kwargs = Ok s' ->
  staged_data s' sname !! key
  = last_submitted (datasets s) kwargs sname key (staged_data s sname !! key).
Proof.
  unfold add, last_submitted. revert s.
  induction kwargs as [|[name value] kw IH]; simpl; intros s Hwf H.
  - injection H as <-. reflexivity.
  - apply bind_Ok in H as (s1 & H1 & H).
    pose proof (add_value_wf_sources _ _ _ _ Hwf H1) as Hwf1.
    destruct (add_value_staged _ _ _ _ sname key Hwf H1) as (ds & Hds & Hst).
    rewrite Hds, <- Hst.
    apply add_value_frame in H1 as (_ & _ & _ & _ & _ & _ & Est & _).
    assert (datasets s1 = datasets s) as <- by (unfold static in Est; congruence).
    apply IH; assumption.
Qed.

Lemma add_value_nrec s name value s' :
  add_value s name value = Ok s' ->
  sources_rel keeps_nrec (sources s) (sources s').
Proof.
  intros H. apply add_value_inv in H
    as (ds & src & n & _ & Hsrc & _ & Hn & ->). simpl.
  eapply dict_set_rel; [|exact Hsrc|].
  - intros x. split; [apply same_schema_refl|auto].
  - split; [repeat split|]. simpl. intros Hnz. rewrite Hn.
    destruct (Z.eqb_spec (Source.nrec src) 0); [contradiction|reflexivity].
Qed.

Lemma add_nrec s kwargs s' :
  add s kwargs = Ok s' -> sources_rel keeps_nrec (sources s) (sources s').
Proof.
  unfold add. revert s. induction kwargs as [|[name value] kw IH]; simpl; intros s H.
  - injection H as <-. apply sources_rel_refl.
    intros x. split; [apply same_schema_refl|auto].
  - apply bind_Ok in H as (s1 & H1 & H).
    eapply sources_rel_trans; [|apply (add_value_nrec _ _ _ _ H1)|apply IH, H].
    intros a b c [Hab Hn] [Hbc Hn']. split; [eapply same_schema_trans; eauto|].
    intros Hnz. rewrite Hn', Hn by (rewrite ?Hn; assumption). reflexivity.
Qed.

(* the part of write_train that concerns one source *)
Lemma write_train_source s tid ts s' sname (src' : Source.t Row) :
  wf_sources s ->
  write_train s tid ts = Ok s' ->
  dict_get (sources s') sname = Ok src' ->
  exists s1 complete src src1,
    rotate_sequence_file s = Ok s1
    /\ is_data_complete s1 = Complete complete
    /\ dict_get (sources s) sname = Ok src
    /\ dict_get (sources s1) sname = Ok src1
    /\ same_train src src1
    /\ Source.write_train src1 (staged_data s sname) = Ok src'
    /\ (Source.stype src' = 0 -> staged_data s' sname = staged_data s sname)
    /\ staged_data s1 sname = staged_data s sname.
Proof.
  intros Hwf H Hget.
  apply write_train_inv in H
    as (s1 & c & Hrot & Hc & Hcommit & Hkeep & _); [|apply Hwf].
  destruct (rotate_frame _ _ Hrot) as [(Htd & _ & _) Hrel].
  destruct (items_rel_get
              (fun x y => Source.write_train x.2 (staged_data s x.1) = Ok y.2)
              _ _ _ _ Hcommit Hget) as (src1 & Hget1 & Hw).
  simpl in Hw.
  destruct (sources_rel_get _ _ _ _ _ Hrel Hget1) as (src & Hget0 & Hst).
  exists s1, c, src, src1. repeat (split; [assumption|]). split.
  - intros Hs. unfold staged_data. rewrite Hkeep; [reflexivity|].
    intros src2 Hin.
    assert (src2 = src1) as ->.
    { eapply dict_unique; [|exact Hin|apply dict_get_elem, Hget1].
      rewrite <- (sources_rel_keys _ _ _ Hrel). apply Hwf. }
    apply source_write_train_inv in Hw as (w & _ & ->). simpl in Hs. lia.
  - unfold staged_data. rewrite Htd. reflexivity.
Qed.

End ControlTrain.

(** C5: without buffering the values of a control source are not kept.
    In [control_run false] the source is recorded with one entry for
    each of the three trains, at rows 0, 1 and 2, but the array of the
    field holds one row, the value submitted last: the direct writer
    never advances its position, so every train overwrites row 0.  With
    buffering the array holds 7, 7, 8: the value of the second train is
    the one submitted before the first. *)
Theorem control_values_overwritten_without_buffering :
  (exists f arr,
     control_run false = Ok [f]
     /\ index_rows f "dev/first" = Some [0; 1; 2]
     /\ index_rows f "dev/count" = Some [1; 1; 1]
     /\ DATA f = [arr]
     /\ h5py.name arr = "CONTROL/dev/x"%string
     /\ h5py.rows arr = [8])
  /\ (exists f arr,
        control_run true = Ok [f]
        /\ index_rows f "dev/first" = Some [0; 1; 2]
        /\ index_rows f "dev/count" = Some [1; 1; 1]
        /\ DATA f = [arr]
        /\ h5py.name arr = "CONTROL/dev/x"%string
        /\ h5py.rows arr = [7; 7; 8]).
Proof.
  split; do 2 eexists; (split; [vm_compute; reflexivity|]);
    repeat split; reflexivity.
Qed.

(** X21: a control source between two trains, under buffering.  A
    writer after a train has been written, then any submissions
    ([add], possibly none), then the next train.  For a control source
    the new train is recorded with [count = 1] at the offset the source
    had reached; what is staged for the source stays staged; and for
    each of its datasets the value staged for the field, which is the
    last one submitted since the previous train or, if there was none,
    the value that was staged for the previous train, is one entry that
    a buffered writer appends to the rows it holds (the rows of its
    array and, after them, the rows it has staged). *)
Theorem control_source_repeats_last_value {Row}
    (s0 s1 s2 s3 : FileWriterBase.t Row) (tid0 tid : Z) (ts0 ts : option Z)
    (kwargs : list (string * list Row)) (sname : string) (src3 : Source.t Row) :
  wf_sources s0 ->
  FileWriterBase.write_train s0 tid0 ts0 = Ok s1 ->
  FileWriterBase.add s1 kwargs = Ok s2 ->
  FileWriterBase.write_train s2 tid ts = Ok s3 ->
  dict_get (FileWriterBase.sources s3) sname = Ok src3 ->
  Source.stype src3 = 0 ->
  last (Source.count src3) = Some 1
  /\ staged_data s3 sname = staged_data s2 sname
  /\ exists s2' src2,
       FileWriterBase.rotate_sequence_file s2 = Ok s2'
       /\ dict_get (FileWriterBase.sources s2') sname = Ok src2
       /\ last (Source.first src3) = Some (Source.pos src2)
       /\ Source.pos src3 = Source.pos src2 + 1
       /\ forall (dsno : nat) ds,
            Source.datasets src3 !! dsno = Some ds ->
            exists v wrt wrt',
              last_submitted (FileWriterBase.datasets s1) kwargs sname
                (Dataset.key ds) (staged_data s0 sname !! Dataset.key ds)
              = Some v
              /\ Source.file_ds src2 !! dsno = Some (Some wrt)
              /\ Source.file_ds src3 !! dsno = Some (Some wrt')
              /\ forall w,
                   wrt = DatasetWriter.Buffered w -> idle w ->
                   exists r w',
                     v = [r]
                     /\ wrt' = DatasetWriter.Buffered w'
                     /\ contents w' = contents w ++ [r]
                     /\ idle w'.
Proof.
  intros Hwf0 H1 Hadd H3 Hget3 Hstype.
  pose proof (write_train_wf_sources _ _ _ _ Hwf0 H1) as Hwf1.
  pose proof (add_wf_sources _ _ _ Hwf1 Hadd) as Hwf2.
  destruct (write_train_source _ _ _ _ _ _ Hwf2 H3 Hget3)
    as (s2' & c & src2 & src2' & Hrot & Hc & Hget2 & Hget2' & [Hsch2 Hn2]
        & Hw & Hkeep & Hst2').
  destruct (source_write_train_writers _ _ _ Hw)
    as ((_ & Hs2' & Hd2') & Hcount & _ & Hwriters).
  destruct (sources_rel_get _ _ _ _ _ (add_nrec _ _ _ Hadd) Hget2)
    as (src1 & Hget1 & [Hsch1 Hn1]).
  destruct (write_train_source _ _ _ _ _ _ Hwf0 H1 Hget1)
    as (s0' & c0 & src0 & src0' & _ & _ & _ & _ & _ & Hw0 & Hkeep0 & _).
  destruct (source_write_train_writers _ _ _ Hw0) as ((_ & Hs0' & _) & _ & Hnrec1 & _).
  assert (Source.stype src1 = 0) as Hs1.
  { destruct Hsch1 as (_ & -> & _). destruct Hsch2 as (_ & -> & _). congruence. }
  assert (Source.nrec src2' = 1) as Hone.
  { rewrite <- Hn2, Hn1; rewrite Hnrec1, Hs0', Hs1; [reflexivity|discriminate]. }
  split; [rewrite Hcount, Hone; apply last_snoc|].
  split; [apply Hkeep, Hstype|].
  exists s2', src2'. split; [exact Hrot|]. split; [exact Hget2'|].
  assert (Source.first src3 = Source.first src2' ++ [Source.pos src2']
          /\ Source.pos src3 = Source.pos src2' + 1) as [Hfirst Hpos].
  { apply source_write_train_inv in Hw as (w & _ & ->). simpl.
    rewrite Hone. auto. }
  split; [rewrite Hfirst; apply last_snoc|]. split; [exact Hpos|].
  intros dsno ds Hds. rewrite <- Hd2' in Hds.
  destruct (Hwriters dsno ds Hds) as (wrt & Hwrt & Hres).
  assert (is_Some (staged_data s2' sname !! Dataset.key ds)) as [v Hv].
  { eapply complete_control_staged; [exact Hc|apply dict_get_elem, Hget2'|congruence|].
    apply list_elem_of_lookup. eauto. }
  rewrite Hst2' in Hv. rewrite Hv, Hone in Hres.
  destruct Hres as (wrt' & Hwrite & Hwrt').
  exists v, wrt, wrt'.
  split; [rewrite <- (Hkeep0 Hs1), <- Hv; symmetry; apply add_staged; assumption|].
  split; [exact Hwrt|]. split; [exact Hwrt'|].
  intros w -> Hidle. simpl in Hwrite.
  apply bind_Ok in Hwrite as (w' & Hwrite & [= <-]).
  destruct (write_appends w v 1 w' Hidle Hwrite) as (rows & Hb & Hcont & _ & Hidle').
  assert (exists r, v = [r]) as [r ->].
  { unfold DatasetBufferedWriter.write in Hwrite. simpl in Hwrite.
    unfold DatasetBufferedWriter.write_one, np_setitem in Hwrite.
    apply bind_Ok in Hwrite as (d & Hd & _).
    apply bind_Ok in Hd as (j & _ & Hd).
    destruct v as [|r [|? ?]]; try discriminate. eauto. }
  exists r, w'. injection Hb as <-. auto.
Qed.

Lemma control_source_repeats_last_value_witness :
  exists s a s0 s1 s2 s3 src3,
    rotating_writer = Ok s
    /\ FileWriterBase.add s [("x", [7]); ("v", [1; 2; 3])]%string = Ok a
    /\ FileWriterBase.write_train a 101 (Some 11) = Ok s0
    /\ wf_sources s0
    /\ FileWriterBase.write_train s0 102 (Some 12) = Ok s1
    /\ FileWriterBase.add s1 [("v", [4; 5])]%string = Ok s2
    /\ FileWriterBase.write_train s2 103 (Some 13) = Ok s3
    /\ dict_get (FileWriterBase.sources s3) "dev" = Ok src3
    /\ Source.stype src3 = 0
    /\ Source.count src3 = [1]
    /\ staged_data s3 "dev" = {["x" := [7]]}
    /\ last (Source.count src3) = Some 1
    /\ staged_data s3 "dev" = staged_data s2 "dev"
    /\ exists s2' src2,
         FileWriterBase.rotate_sequence_file s2 = Ok s2'
         /\ dict_get (FileWriterBase.sources s2') "dev" = Ok src2
         /\ last (Source.first src3) = Some (Source.pos src2)
         /\ Source.pos src3 = Source.pos src2 + 1
         /\ forall (dsno : nat) ds,
              Source.datasets src3 !! dsno = Some ds ->
              exists v wrt wrt',
                last_submitted (FileWriterBase.datasets s1)
                  [("v", [4; 5])]%string "dev"
                  (Dataset.key ds) (staged_data s0 "dev" !! Dataset.key ds)
                = Some v
                /\ Source.file_ds src2 !! dsno = Some (Some wrt)
                /\ Source.file_ds src3 !! dsno = Some (Some wrt')
                /\ forall w,
                     wrt = DatasetWriter.Buffered w -> idle w ->
                     exists r w',
                       v = [r]
                       /\ wrt' = DatasetWriter.Buffered w'
                       /\ contents w' = contents w ++ [r]
                       /\ idle w'.
Proof.
  let r := returned rotating_writer in pose (s := r).
  let r := returned (FileWriterBase.add s [("x", [7]); ("v", [1; 2; 3])]%string) in
  pose (a := r).
  let r := returned (FileWriterBase.write_train a 101 (Some 11)) in pose (s0 := r).
  let r := returned (FileWriterBase.write_train s0 102 (Some 12)) in pose (s1 := r).
  let r := returned (FileWriterBase.add s1 [("v", [4; 5])]%string) in pose (s2 := r).
  let r := returned (FileWriterBase.write_train s2 103 (Some 13)) in pose (s3 := r).
  let r := returned (dict_get (FileWriterBase.sources s3) "dev") in pose (src3 := r).
  assert (wf_sources s0) as Hwf.
  { unfold wf_sources, wf_dict. apply (bool_decide_unpack _).
    vm_compute. reflexivity. }
  assert (FileWriterBase.write_train s0 102 (Some 12) = Ok s1)
    as H1 by (vm_compute; reflexivity).
  assert (FileWriterBase.add s1 [("v", [4; 5])]%string = Ok s2)
    as H2 by (vm_compute; reflexivity).
  assert (FileWriterBase.write_train s2 103 (Some 13) = Ok s3)
    as H3 by (vm_compute; reflexivity).
  assert (dict_get (FileWriterBase.sources s3) "dev" = Ok src3)
    as H4 by (vm_compute; reflexivity).
  exists s, a, s0, s1, s2, s3, src3.
  do 3 (split; [vm_compute; reflexivity|]).
  do 5 (split; [assumption|]).
  do 3 (split; [vm_compute; reflexivity|]).
  apply (control_source_repeats_last_value s0 s1 s2 s3 102 103 (Some 12) (Some 13)
           [("v", [4; 5])]%string "dev" src3);
    first [assumption | reflexivity].
Defined.

(** * Further properties *)

(** ** Runs of the buffered writer *)

Section BufferedRuns.
Context {Row : Type}.
Import DatasetBufferedWriter.
Implicit Types (w : DatasetBufferedWriter.t Row).

Lemma for_each_app {A S} (xs ys : list A) (body : S -> A -> result S) (st : S) :
  for_each (xs ++ ys) body st
  = let! st' := for_each xs body st in for_each ys body st'.
Proof.
  revert st. induction xs as [|x xs IH]; intros st; simpl; [reflexivity|].
  destruct (body st x); simpl; auto.
Qed.

Lemma broadcast_to_error {A} (data : list A) nrec e :
  broadcast_to data nrec = Raise e -> e = ValueError.
Proof.
  unfold broadcast_to, broadcast_rows.
  destruct (nrec <? 0); [congruence|].
  destruct (len data =? nrec); [discriminate|].
  destruct data as [|? [|? ?]]; congruence.
Qed.

End BufferedRuns.

(** X1: a run of [write(data, nrec)] calls on a buffered writer followed
    by [flush()], when it returns, leaves in the array the rows the
    writer had taken before, followed by every batch (broadcast to its
    [nrec] rows) in the order of the calls: nothing is lost, repeated
    or reordered. *)
Theorem buffered_run_appends_batches {Row} (w : DatasetBufferedWriter.t Row)
    (calls : list (list Row * Z)) (rows : list Row) :
  idle w ->
  write_all (DatasetWriter.Buffered w) calls = Ok rows ->
  exists batches,
    Forall2 (fun c b => broadcast_to c.1 c.2 = Ok b) calls batches
    /\ rows = contents w ++ concat batches.
Proof.
  revert w. induction calls as [|[data nrec] calls IH]; intros w Hidle H.
  - rewrite write_all_buffered_nil in H.
    destruct (flush_spec w (proj1 Hidle)) as (w' & Hf & Hr & _).
    rewrite Hf in H. simpl in H. injection H as <-.
    exists []. split; [constructor|]. simpl. rewrite app_nil_r. exact Hr.
  - rewrite write_all_buffered_cons in H.
    apply bind_Ok in H as (w' & Hw & H).
    destruct (write_appends w data nrec w' Hidle Hw) as (new & Hb & Hc & _ & Hidle').
    destruct (IH w' Hidle' H) as (batches & Hall & ->).
    exists (new :: batches). split; [constructor; auto|].
    simpl. rewrite Hc, <- app_assoc. reflexivity.
Qed.

Lemma buffered_run_appends_batches_witness :
  exists batches,
    Forall2 (fun c b => broadcast_to c.1 c.2 = Ok b)
      [([1; 2; 3], 3); ([4], 1); ([5; 6; 7; 8; 9], 5)] batches
    /\ [1; 2; 3; 4; 5; 6; 7; 8; 9] = contents buffered4 ++ concat batches.
Proof.
  apply (buffered_run_appends_batches buffered4
           [([1; 2; 3], 3); ([4], 1); ([5; 6; 7; 8; 9], 5)]).
  - vm_compute. repeat split; intros; discriminate.
  - vm_compute. reflexivity.
Defined.

(** X2: [write_many] on a buffered writer whose staging block is not
    full.  When the batch fits into the free staging rows, when nothing
    is staged, or when at least a whole chunk remains after the block is
    topped off, the call returns and the batch is appended to the rows
    taken so far.  In the remaining case (rows are staged, the batch
    fills the block and less than a chunk is left over) the block goes
    to rows beyond the extent of the array and the call fails. *)
Theorem write_many_returns_or_tops_off {Row} (w : DatasetBufferedWriter.t Row)
    (arr : list Row) (nrec : Z) :
  idle w -> len arr = nrec ->
  let top_off :=
    DatasetBufferedWriter.nbuf w <> 0
    /\ DatasetBufferedWriter.size w - DatasetBufferedWriter.nbuf w <= nrec
    /\ nrec - (DatasetBufferedWriter.size w - DatasetBufferedWriter.nbuf w)
       < DatasetBufferedWriter.size w in
  (top_off -> DatasetBufferedWriter.write_many w arr nrec = Raise TypeError)
  /\ (~ top_off ->
      exists w',
        DatasetBufferedWriter.write_many w arr nrec = Ok w'
        /\ contents w' = contents w ++ arr
        /\ idle w').
Proof.
  intros Hidle Harr top_off. subst top_off. split.
  - intros (Hnz & Hfull & Hrest). apply write_many_top_off; auto.
  - intros Hno.
    destruct (Z.lt_ge_cases nrec
                (DatasetBufferedWriter.size w - DatasetBufferedWriter.nbuf w))
      as [Hfit|Hfull].
    + destruct (write_many_copy w arr nrec Hidle Harr Hfit) as (w' & ? & ? & ? & ?).
      eauto.
    + assert (DatasetBufferedWriter.nbuf w = 0
              \/ DatasetBufferedWriter.size w
                 <= nrec - (DatasetBufferedWriter.size w
                            - DatasetBufferedWriter.nbuf w)) as Hcase by lia.
      destruct (write_many_bulk w arr nrec Hidle Harr Hfull Hcase)
        as (w' & ? & ? & ? & ?).
      eauto.
Qed.

(** The writer [buffered4] with three rows staged. *)
Lemma write_many_returns_or_tops_off_witness :
  idle (DatasetBufferedWriter.set_buf buffered4 [1; 2; 3; 0] 3)
  /\ len [4; 5] = 2
  /\ DatasetBufferedWriter.write_many
       (DatasetBufferedWriter.set_buf buffered4 [1; 2; 3; 0] 3) [4; 5] 2
     = Raise TypeError.
Proof.
  assert (Hidle : idle (DatasetBufferedWriter.set_buf buffered4 [1; 2; 3; 0] 3)).
  { vm_compute. repeat split; intros; discriminate. }
  split; [exact Hidle|]. split; [reflexivity|].
  apply (write_many_returns_or_tops_off
           (DatasetBufferedWriter.set_buf buffered4 [1; 2; 3; 0] 3) [4; 5] 2
           Hidle eq_refl).
  vm_compute. repeat split; intros; discriminate.
Defined.

(** X3: [flush] of a buffered writer whose block and array are
    consistent always returns; afterwards the array holds every row the
    writer has taken and nothing is staged, and a second [flush] changes
    nothing. *)
Theorem buffered_flush_idempotent {Row} (w : DatasetBufferedWriter.t Row) :
  consistent w ->
  exists w',
    DatasetBufferedWriter.flush w = Ok w'
    /\ h5py.rows (DatasetBufferedWriter.file_ds w') = contents w
    /\ DatasetBufferedWriter.nbuf w' = 0
    /\ DatasetBufferedWriter.flush w' = Ok w'.
Proof.
  intros Hc. destruct (flush_spec w Hc) as (w' & Hf & Hr & Hn & _).
  exists w'. repeat split; auto.
  unfold DatasetBufferedWriter.flush. rewrite Hn. reflexivity.
Qed.

Lemma buffered_flush_idempotent_witness :
  exists w',
    DatasetBufferedWriter.flush
      (DatasetBufferedWriter.set_buf buffered4 [1; 2; 3; 0] 3) = Ok w'
    /\ h5py.rows (DatasetBufferedWriter.file_ds w') = [1; 2; 3]
    /\ DatasetBufferedWriter.nbuf w' = 0
    /\ DatasetBufferedWriter.flush w' = Ok w'.
Proof.
  apply (buffered_flush_idempotent
           (DatasetBufferedWriter.set_buf buffered4 [1; 2; 3; 0] 3)).
  vm_compute. repeat split; intros; discriminate.
Defined.

(** X4: [write(data, nrec)] of a buffered writer whose block is not full
    fails with a ValueError whenever the data cannot be broadcast to
    [nrec] rows (a wrong number of rows, or a negative [nrec]); this
    holds for [nrec = 1] too, where the value goes through write_one. *)
Theorem buffered_write_rejects_mismatch {Row} (w : DatasetBufferedWriter.t Row)
    (data : list Row) (nrec : Z) (e : exn) :
  idle w ->
  broadcast_to data nrec = Raise e ->
  DatasetBufferedWriter.write w data nrec = Raise ValueError.
Proof.
  intros ((Hn & Hd & Hp) & Hlt) Hb.
  unfold DatasetBufferedWriter.write.
  destruct (Z.eqb_spec nrec 1) as [->|Hne].
  - unfold DatasetBufferedWriter.write_one, np_setitem, index_of.
    destruct (Z.ltb_spec (DatasetBufferedWriter.nbuf w) 0); [lia|].
    destruct (Z.ltb_spec (DatasetBufferedWriter.nbuf w) 0); [lia|].
    destruct (Z.leb_spec (len (DatasetBufferedWriter._data w))
                (DatasetBufferedWriter.nbuf w)); [lia|].
    simpl. destruct data as [|r [|r' data]]; try reflexivity.
    discriminate Hb.
  - rewrite Hb. simpl. f_equal. eapply broadcast_to_error; eauto.
Qed.

Lemma buffered_write_rejects_mismatch_witness :
  DatasetBufferedWriter.write buffered4 [1; 2] 3 = Raise ValueError.
Proof.
  apply (buffered_write_rejects_mismatch buffered4 [1; 2] 3 ValueError).
  - vm_compute. repeat split; intros; discriminate.
  - reflexivity.
Defined.

(** ** Runs of the direct writer *)

Section DirectRuns.
Context {Row : Type}.
Implicit Types (w : @DatasetDirectWriter.t Row).

(* a write at position 0 replaces whatever the array held *)
Lemma direct_write_at_0 w data nrec w' :
  DatasetWriterBase.pos w = 0 ->
  DatasetDirectWriter.write w data nrec = Ok w' ->
  len (h5py.rows (DatasetWriterBase.file_ds w')) = nrec
  /\ (nrec <> 0 ->
      broadcast_rows data nrec = Ok (h5py.rows (DatasetWriterBase.file_ds w'))).
Proof.
  intros Hp H. unfold DatasetDirectWriter.write in H. rewrite Hp in H.
  simpl in H. unfold h5py.resize in H. rewrite !Z.add_0_l in H.
  destruct (Z.ltb_spec nrec 0) as [|Hn]; simpl in H; [discriminate|].
  unfold h5py.assign, h5py.select in H. simpl in H.
  set (rows1 := take (Z.to_nat nrec) (h5py.rows (DatasetWriterBase.file_ds w))
                ++ replicate (Z.to_nat nrec
                              - length (h5py.rows (DatasetWriterBase.file_ds w)))
                     (h5py.fillvalue (DatasetWriterBase.file_ds w))) in *.
  assert (Hlen : len rows1 = nrec).
  { unfold rows1, len. rewrite length_app, length_take, length_replicate. lia. }
  rewrite Hlen in H.
  destruct (Z.leb_spec 0 nrec); [|lia].
  destruct (Z.leb_spec nrec nrec); [|lia]. simpl in H.
  destruct (Z.eqb_spec nrec 0) as [->|Hnz].
  - injection H as <-. simpl. split; [exact Hlen|]. congruence.
  - unfold h5py.put in H. simpl in H.
    replace (nrec - 0) with nrec in H by lia.
    destruct (broadcast_rows data nrec) as [new|] eqn:Hb; [|discriminate].
    simpl in H. injection H as <-. simpl.
    rewrite drop_ge, app_nil_r by (unfold len in Hlen; lia).
    split; [|reflexivity].
    eapply broadcast_rows_len; eauto.
Qed.

End DirectRuns.

(** X5: the direct writer never advances its position, so every write of
    a new writer starts at row 0: after a run of writes that return, the
    array has exactly the [nrec] rows of the last call and they are the
    last batch; what the earlier calls wrote is gone. *)
Theorem direct_run_keeps_last_batch {Row} (w : @DatasetDirectWriter.t Row)
    (calls : list (list Row * Z)) (data : list Row) (nrec : Z)
    (w' : @DatasetDirectWriter.t Row) :
  DatasetWriterBase.pos w = 0 ->
  for_each (calls ++ [(data, nrec)])
    (fun w '(data, nrec) => DatasetDirectWriter.write w data nrec) w = Ok w' ->
  DatasetWriterBase.pos w' = 0
  /\ len (h5py.rows (DatasetWriterBase.file_ds w')) = nrec
  /\ (nrec <> 0 ->
      broadcast_rows data nrec = Ok (h5py.rows (DatasetWriterBase.file_ds w'))).
Proof.
  intros Hp H. rewrite for_each_app in H.
  apply bind_Ok in H as (w1 & Hrun & Hlast). simpl in Hlast.
  apply bind_Ok in Hlast as (w2 & Hw & [= <-]).
  pose proof (direct_writes_pos calls w w1 Hrun) as Hp1.
  pose proof (direct_write_pos w1 data nrec w2 Hw) as Hp2.
  split; [congruence|].
  apply (direct_write_at_0 w1 data nrec w2); congruence.
Qed.

Lemma direct_run_keeps_last_batch_witness :
  exists w',
    for_each ([([1; 2; 3], 3)] ++ [([4; 5], 2)])
      (fun w '(data, nrec) => DatasetDirectWriter.write w data nrec) direct4
    = Ok w'
    /\ DatasetWriterBase.pos w' = 0
    /\ h5py.rows (DatasetWriterBase.file_ds w') = [4; 5].
Proof.
  let s := returned (for_each ([([1; 2; 3], 3)] ++ [([4; 5], 2)])
      (fun w '(data, nrec) => DatasetDirectWriter.write w data nrec) direct4) in
  pose (w' := s).
  assert (Hrun : for_each ([([1; 2; 3], 3)] ++ [([4; 5], 2)])
      (fun w '(data, nrec) => DatasetDirectWriter.write w data nrec) direct4
    = Ok w') by (vm_compute; reflexivity).
  exists w'. split; [exact Hrun|].
  destruct (direct_run_keeps_last_batch direct4 [([1; 2; 3], 3)] [4; 5] 2 w'
              eq_refl Hrun) as (Hpos & _ & Hrows).
  split; [exact Hpos|]. reflexivity.
Defined.

(** ** The dataset descriptor *)

Lemma split_once_Some c s l r :
  split_once c s = Some (l, r) ->
  s = l +:+ String c r /\ contains_char c l = false.
Proof.
  revert l r. induction s as [|a s IH]; simpl; intros l r H; [discriminate|].
  destruct (decide (a = c)) as [->|Hne].
  - injection H as <- <-. auto.
  - destruct (split_once c s) as [[l' r']|] eqn:Hs; simpl in H; [|discriminate].
    injection H as <- <-. destruct (IH l' r' eq_refl) as [-> Hl].
    simpl. rewrite decide_False by exact Hne. auto.
Qed.

Lemma split_once_None c s :
  split_once c s = None <-> contains_char c s = false.
Proof.
  induction s as [|a s IH]; simpl; [tauto|].
  destruct (decide (a = c)); [split; discriminate|].
  destruct (split_once c s) as [[l r]|]; simpl.
  - split; [discriminate|]. intros H. apply IH in H. discriminate.
  - split; [|reflexivity]. intros _. apply IH. reflexivity.
Qed.

Lemma string_app_assoc (a b c : string) : (a +:+ b) +:+ c = a +:+ (b +:+ c).
Proof.
  induction a as [|x a IH]; [reflexivity|].
  change (String x ((a +:+ b) +:+ c) = String x (a +:+ b +:+ c)).
  rewrite IH. reflexivity.
Qed.

Lemma replace_char_app c d a b :
  replace_char c d (a +:+ b) = replace_char c d a +:+ replace_char c d b.
Proof.
  induction a as [|x a IH]; [reflexivity|].
  change (replace_char c d (String x (a +:+ b))
          = String (if decide (x = c) then d else x)
              (replace_char c d a +:+ replace_char c d b)).
  simpl. rewrite IH. reflexivity.
Qed.

Lemma replace_char_absent c d s :
  contains_char c s = false -> replace_char c d s = s.
Proof.
  induction s as [|a s IH]; simpl; [reflexivity|].
  destruct (decide (a = c)); [discriminate|]. intros H. f_equal. auto.
Qed.

(** X6: a dataset of a source whose name has a colon (an instrument
    source): the constructor moves the part of the key before its first
    dot into the source name, and keeps the rest as the key; a key
    without a dot makes the constructor fail with a ValueError.  A
    source name without a colon leaves name and key as they are. *)
Theorem dataset_init_splits_instrument_key {Row} (source_name key : string)
    (entry_shape : list Z) (dt : dtype Row) (chunks : option (list Z))
    (compression : option string) :
  (contains_char ":" source_name = false ->
   Dataset.init source_name key entry_shape dt chunks compression
   = Ok (Dataset.Build entry_shape dt compression chunks (source_name, key)
           0 source_name key))
  /\ (contains_char ":" source_name = true ->
      (contains_char "." key = false
       /\ Dataset.init source_name key entry_shape dt chunks compression
          = Raise ValueError)
      \/ (exists tk key',
            key = tk +:+ "." +:+ key'
            /\ contains_char "." tk = false
            /\ Dataset.init source_name key entry_shape dt chunks compression
               = Ok (Dataset.Build entry_shape dt compression chunks
                       (source_name, key) 1 (source_name +:+ "/" +:+ tk) key'))).
Proof.
  unfold Dataset.init. split; intros ->; simpl; [reflexivity|].
  destruct (split_once "." key) as [[tk key']|] eqn:Hs.
  - right. exists tk, key'. apply split_once_Some in Hs as [-> Htk]. auto.
  - left. apply split_once_None in Hs. auto.
Qed.

Lemma dataset_init_splits_instrument_key_witness :
  Dataset.init "dev:out" "data.image.pixels" [2] (Dtype 8 0) None None
  = Ok (Dataset.Build [2] (Dtype 8 0) None None
          ("dev:out", "data.image.pixels") 1 "dev:out/data" "image.pixels")
  /\ Dataset.init "dev:out" "pixels" [2] (Dtype 8 0) None None = Raise ValueError.
Proof.
  destruct (dataset_init_splits_instrument_key (Row:=Z) "dev:out"
              "data.image.pixels" [2] (Dtype 8 0) None None) as [_ H1].
  destruct (dataset_init_splits_instrument_key (Row:=Z) "dev:out"
              "pixels" [2] (Dtype 8 0) None None) as [_ H2].
  split; reflexivity.
Defined.

(** X7: whatever the constructor does with source name and key, the
    array of a dataset is created at the path of the canonical names:
    [section/source_name/key] with the dots of the key turned into
    slashes. *)
Theorem dataset_array_path {Row} (source_name key : string)
    (entry_shape : list Z) (dt : dtype Row) (chunks : option (list Z))
    (compression : option string) (ds : Dataset.t Row) (section : string)
    (max_trains : Z) (buffering : bool) (wrt : DatasetWriter.t Row) :
  Dataset.init source_name key entry_shape dt chunks compression = Ok ds ->
  Dataset_create ds (section +:+ "/" +:+ Dataset.source_name ds)
    max_trains buffering = Ok wrt ->
  h5py.name (DatasetWriter.file_ds wrt)
  = section +:+ "/" +:+ source_name +:+ "/" +:+ replace_char "." "/" key
  /\ h5py.rows (DatasetWriter.file_ds wrt) = [].
Proof.
  intros Hinit Hc.
  assert (Hpath : Dataset.source_name ds +:+ "/"
                  +:+ replace_char "." "/" (Dataset.key ds)
                  = source_name +:+ "/" +:+ replace_char "." "/" key).
  { unfold Dataset.init in Hinit.
    destruct (int (contains_char ":" source_name) =? 0).
    - injection Hinit as <-. reflexivity.
    - destruct (split_once "." key) as [[tk key']|] eqn:Hs; [|discriminate].
      injection Hinit as <-. simpl.
      apply split_once_Some in Hs as [-> Htk].
      rewrite replace_char_app, (replace_char_absent _ _ _ Htk). simpl.
      try rewrite decide_True by reflexivity.
      rewrite !string_app_assoc. reflexivity. }
  unfold Dataset_create, h5py.create_dataset in Hc. simpl in Hc.
  destruct (negb _); simpl in Hc; [discriminate|].
  assert (Hname : forall f c,
            h5py.name f = (section +:+ "/" +:+ Dataset.source_name ds) +:+ "/"
                          +:+ replace_char "." "/" (Dataset.key ds) ->
            h5py.rows f = [] ->
            (if buffering
             then let! w := DatasetBufferedWriter.init ds f c in
                  Ok (DatasetWriter.Buffered w)
             else Ok (DatasetWriter.Direct (DatasetDirectWriter.init ds f c)))
            = Ok wrt ->
            h5py.name (DatasetWriter.file_ds wrt)
            = (section +:+ "/" +:+ Dataset.source_name ds) +:+ "/"
              +:+ replace_char "." "/" (Dataset.key ds)
            /\ h5py.rows (DatasetWriter.file_ds wrt) = []).
  { intros f c Hf Hr H. destruct buffering.
    - apply bind_Ok in H as (w & Hw & [= <-]).
      unfold DatasetBufferedWriter.init in Hw.
      destruct c as [shape|]; [|discriminate].
      destruct (negb _); [discriminate|].
      apply bind_Ok in Hw as (size & _ & [= <-]). simpl. auto.
    - injection H as <-. simpl. auto. }
  eapply Hname in Hc as [Hn Hr]; [|reflexivity..].
  split; [|exact Hr].
  rewrite Hn, !string_app_assoc, Hpath. reflexivity.
Qed.

Lemma dataset_array_path_witness :
  exists ds wrt,
    Dataset.init "dev:out" "data.image.pixels" [] (Dtype 8 0) None None = Ok ds
    /\ Dataset_create ds ("INSTRUMENT" +:+ "/" +:+ Dataset.source_name ds) 4 true
       = Ok wrt
    /\ h5py.name (DatasetWriter.file_ds wrt)
       = "INSTRUMENT/dev:out/data/image/pixels"%string
    /\ h5py.rows (DatasetWriter.file_ds wrt) = [].
Proof.
  let r := returned (Dataset.init (Row:=Z) "dev:out" "data.image.pixels" []
                       (Dtype 8 0) None None) in pose (ds := r).
  let r := returned (Dataset_create ds
                       ("INSTRUMENT" +:+ "/" +:+ Dataset.source_name ds) 4 true) in
  pose (wrt := r).
  assert (Dataset.init "dev:out" "data.image.pixels" [] (Dtype 8 0) None None
          = Ok ds) as H1 by (vm_compute; reflexivity).
  assert (Dataset_create ds ("INSTRUMENT" +:+ "/" +:+ Dataset.source_name ds) 4 true
          = Ok wrt) as H2 by (vm_compute; reflexivity).
  exists ds, wrt. split; [exact H1|]. split; [exact H2|].
  exact (dataset_array_path "dev:out" "data.image.pixels" [] (Dtype 8 0) None None
           ds "INSTRUMENT" 4 true wrt H1 H2).
Defined.

(** ** The sources of a writer across a session *)

Section SessionSources.
Context {Row : Type}.
Import FileWriterBase.
Implicit Types (s : FileWriterBase.t Row).

Lemma Forall2_Forall_pairs {A} (R : A -> A -> Prop) (P Q : A -> Prop) l l' :
  (forall x y, R x y -> P x -> Q y) ->
  Forall2 R l l' -> Forall P l -> Forall Q l'.
Proof.
  intros HR H. induction H as [|x y l l' Hxy _ IH]; intros HP; [constructor|].
  apply Forall_cons in HP as [Hx HP]. constructor; eauto.
Qed.

Lemma Forall_dict_get {V} (P : V -> Prop) (d : dict V) k v :
  Forall (fun x => P x.2) d -> dict_get d k = Ok v -> P v.
Proof.
  intros HP H. apply dict_get_elem in H.
  rewrite Forall_forall in HP. apply (HP _ H).
Qed.

Lemma Forall_dict_set {V} (P : V -> Prop) (d : dict V) k v :
  Forall (fun x => P x.2) d -> P v -> Forall (fun x => P x.2) (dict_set d k v).
Proof.
  intros HP Hv. induction d as [|[k1 v1] d IH]; simpl.
  - repeat constructor. exact Hv.
  - apply Forall_cons in HP as [H1 HP].
    destruct (decide (k1 = k)); constructor; auto.
Qed.

(* write_index for as many trains as the source has recorded *)
Lemma source_write_index_all (src : Source.t Row) grp ntrains src' grp' :
  chained src -> len (Source.count src) = ntrains ->
  Source.write_index src grp ntrains = Ok (src', grp') ->
  fresh_index src' /\ src' = Source.set_index src [] [] 0 (Source.nrec src).
Proof.
  intros [Hf _] Hn H. unfold Source.write_index in H.
  apply bind_Ok in H as (grp1 & _ & H).
  apply bind_Ok in H as (grp2 & _ & H).
  pose proof (len_nonneg (Source.count src)) as Hpos.
  assert (Hlen : length (Source.first src) = length (Source.count src))
    by (rewrite Hf; apply offsets_length).
  rewrite !getslice_suffix in H by lia.
  rewrite !drop_ge in H by (unfold len in *; lia).
  simpl in H. injection H as <- <-. repeat split.
Qed.

(* the loop of write_indices, source by source *)
Lemma write_index_loop_each ntrains (l acc r : dict (Source.t Row)) grp grp' :
  for_each l
    (fun '(acc, grp) '(sname, src) =>
       let! '(src', grp') := Source.write_index src grp ntrains in
       Ok (acc ++ [(sname, src')], grp'))
    (acc, grp) = Ok (r, grp') ->
  exists l',
    r = acc ++ l'
    /\ sources_rel
         (fun a b => exists g g', Source.write_index a g ntrains = Ok (b, g'))
         l l'.
Proof.
  revert acc grp.
  induction l as [|[sname src] l IH]; simpl; intros acc grp H.
  - injection H as <- <-. exists []. rewrite app_nil_r.
    split; [reflexivity|constructor].
  - apply bind_Ok in H as ([acc1 grp1] & Hstep & H).
    apply bind_Ok in Hstep as ([src' grp1'] & Hw & Hstep).
    injection Hstep as <- <-.
    apply IH in H as (l' & -> & Hrel).
    exists ((sname, src') :: l'). rewrite <- app_assoc.
    split; [reflexivity|]. constructor; [|exact Hrel].
    split; [reflexivity|]. simpl. eauto.
Qed.

(* close, source by source: the writers are flushed, then the index of
   the trains of the file is written; the closed file holds the arrays
   of the writers *)
Lemma close_each s s' :
  close s = Ok s' ->
  sources_rel
    (fun a b => exists a1 g g',
                  Source.close_datasets a = Ok a1
                  /\ Source.write_index a1 g (len (trains s)) = Ok (b, g'))
    (sources s) (sources s')
  /\ exists f, disk s' = disk s ++ [f] /\ DATA f = data_of (sources s').
Proof.
  unfold close. intros H.
  apply bind_Ok in H as (s1 & H1 & H).
  apply bind_Ok in H as (s2 & H2 & H). injection H as <-.
  apply each_source_inv in H1 as (srcs1 & -> & Hrel1).
  unfold write_indices in H2.
  apply bind_Ok in H2 as (ts & _ & H2).
  apply bind_Ok in H2 as (grp1 & _ & H2).
  apply bind_Ok in H2 as ([srcs grp] & Hl & H2). injection H2 as <-.
  apply write_index_loop_each in Hl as (l' & -> & Hrel2). simpl in *.
  split; [|eexists; split; reflexivity].
  eapply sources_rel_trans; [|exact Hrel1|exact Hrel2].
  intros a b c Hab (g & g' & Hbc). exists b, g, g'. auto.
Qed.

(* init_file, source by source *)
Lemma init_file_each s file s' :
  init_file s file = Ok s' ->
  sources_rel
    (fun a b => Source.create a (Options.max_train_per_file (_meta s))
                  (Options.buffering (_meta s)) = Ok b)
    (sources s) (sources s').
Proof.
  unfold init_file. intros H.
  apply bind_Ok in H as (s1 & H1 & H).
  apply bind_Ok in H as (s2 & H2 & H).
  unfold write_metadata in H1. simpl in H1.
  destruct (list_of_sources s) as [|x los] eqn:Hlos; [discriminate|].
  injection H1 as <-.
  apply create_indices_inv in H2 as (grp & -> & _).
  apply each_source_inv in H as (srcs & -> & Hrel). exact Hrel.
Qed.

(* a rotation, source by source *)
Lemma rotate_each s s' :
  rotation_due s = true ->
  rotate_sequence_file s = Ok s' ->
  sources_rel
    (fun a b => exists a1 a2 g g',
                  Source.close_datasets a = Ok a1
                  /\ Source.write_index a1 g (len (trains s)) = Ok (a2, g')
                  /\ Source.create a2 (Options.max_train_per_file (_meta s))
                       (Options.buffering (_meta s)) = Ok b)
    (sources s) (sources s').
Proof.
  unfold rotate_sequence_file. fold (rotation_due s). intros -> H.
  apply bind_Ok in H as (s1 & Hc & H).
  pose proof (close_inv _ _ Hc) as (_ & _ & _ & _ & (_ & Hst & _) & _).
  apply close_each in Hc as [Hrel1 _].
  unfold open_w in H. apply init_file_each in H. simpl in H.
  assert (_meta s1 = _meta s) as Hm by (unfold static in Hst; congruence).
  rewrite Hm in H.
  eapply sources_rel_trans; [|exact Hrel1|exact H].
  intros a b c (a1 & g & g' & H1 & H2) H3. eauto 10.
Qed.

Lemma rotate_fresh s s' :
  rotation_due s = true ->
  rotate_sequence_file s = Ok s' ->
  index_in_step s ->
  Forall (fun x => fresh_index x.2) (sources s') /\ trains s' = [].
Proof.
  intros Hdue H Hinv.
  pose proof (rotate_sequence_file_inv _ _ H) as [[Hno _]|(_ & _ & _ & _ & _ & _ & _ & _ & Htr & _)];
    [congruence|].
  split; [|exact Htr].
  apply rotate_each in H; [|exact Hdue].
  eapply (Forall2_Forall_pairs _ _ _ _ _ _ H Hinv).
  Unshelve.
  intros x y [_ (a1 & a2 & g & g' & H1 & H2 & H3)] [Hlen Hch].
  apply source_close_datasets_inv in H1 as (w & ->).
  apply source_write_index_all in H2 as [_ ->];
    [|exact Hch|unfold len; simpl; rewrite Hlen; reflexivity].
  apply source_create_inv in H3 as (w' & grp & ->). repeat split.
Qed.

Lemma index_in_step_fresh s :
  Forall (fun x => fresh_index x.2) (sources s) -> trains s = [] ->
  index_in_step s.
Proof.
  intros H Htr. unfold index_in_step. rewrite Htr.
  eapply Forall_impl; [exact H|]. simpl.
  intros x (Hf & Hc & Hp). unfold chained. rewrite Hf, Hc, Hp. repeat split.
Qed.

Lemma write_train_in_step s tid ts s' :
  wf_sources s -> index_in_step s ->
  write_train s tid ts = Ok s' -> index_in_step s'.
Proof.
  intros Hwf Hinv H.
  apply write_train_inv in H
    as (s1 & c & Hrot & _ & Hcommit & _ & Etr & _); [|apply Hwf].
  assert (index_in_step s1) as Hinv1.
  { pose proof (rotate_sequence_file_inv _ _ Hrot) as [[_ ->]|[Hdue _]];
      [exact Hinv|].
    destruct (rotate_fresh _ _ Hdue Hrot Hinv) as [Hf Ht].
    apply index_in_step_fresh; assumption. }
  unfold index_in_step. rewrite Etr.
  eapply (Forall2_Forall_pairs _ _ _ _ _ _ Hcommit Hinv1).
  Unshelve.
  intros x y [_ Hw] [Hlen Hch]. simpl in *.
  split; [|eapply chained_write_train; eauto].
  apply source_write_train_inv in Hw as (w & _ & ->). simpl.
  rewrite !length_app, Hlen. reflexivity.
Qed.

Lemma add_value_in_step s name value s' :
  index_in_step s -> add_value s name value = Ok s' -> index_in_step s'.
Proof.
  intros Hinv H. apply add_value_inv in H
    as (ds & src & n & _ & Hsrc & _ & _ & ->).
  unfold index_in_step in *. simpl.
  apply (Forall_dict_set
           (fun v => length (Source.count v) = length (trains s) /\ chained v));
    [exact Hinv|].
  apply (Forall_dict_get
           (fun v => length (Source.count v) = length (trains s) /\ chained v)
           _ _ _ Hinv) in Hsrc.
  exact Hsrc.
Qed.

Lemma add_in_step s kwargs s' :
  index_in_step s -> add s kwargs = Ok s' -> index_in_step s'.
Proof.
  unfold add. revert s.
  induction kwargs as [|[name value] kw IH]; simpl; intros s Hinv H.
  - injection H as <-. exact Hinv.
  - apply bind_Ok in H as (s1 & H1 & H).
    eapply IH; [|exact H]. eapply add_value_in_step; eauto.
Qed.

Lemma writer_step_in_step s c s' :
  wf_sources s -> index_in_step s -> writer_step s c = Ok s' ->
  wf_sources s' /\ index_in_step s'.
Proof.
  intros Hwf Hinv. destruct c as [name value|kwargs|tid ts]; simpl; intros H.
  - split; [eapply add_value_wf_sources; eauto|eapply add_value_in_step; eauto].
  - split; [eapply add_wf_sources; eauto|eapply add_in_step; eauto].
  - split; [eapply write_train_wf_sources; eauto|eapply write_train_in_step; eauto].
Qed.

Lemma writer_run_in_step calls s s' :
  wf_sources s -> index_in_step s -> for_each calls writer_step s = Ok s' ->
  wf_sources s' /\ index_in_step s'.
Proof.
  revert s. induction calls as [|c calls IH]; simpl; intros s Hwf Hinv H.
  - injection H as <-. auto.
  - apply bind_Ok in H as (s1 & H1 & H).
    destruct (writer_step_in_step _ _ _ Hwf Hinv H1). eauto.
Qed.

(* what holds for a new source and is kept when a dataset is added and
   when the arrays are created holds for the sources of a new writer *)
Lemma init_sources_all (P : Source.t Row -> Prop)
    (los : list (string * string)) (acc srcs : dict (Source.t Row)) :
  (forall name stype src, Source.init name stype = Ok src -> P src) ->
  Forall (fun x => P x.2) acc ->
  for_each los
    (fun srcs '(sect, src_name) =>
       let! stype := SECTION_index sect in
       let! src := Source.init src_name (Some stype) in
       Ok (dict_set srcs src_name src))
    acc = Ok srcs ->
  Forall (fun x => P x.2) srcs.
Proof.
  intros HP. revert acc.
  induction los as [|[sect name] los IH]; simpl; intros acc Hf H.
  - injection H as <-. exact Hf.
  - apply bind_Ok in H as (acc1 & Hstep & H). apply (IH acc1); [|exact H].
    apply bind_Ok in Hstep as (stype & _ & Hstep).
    apply bind_Ok in Hstep as (src & Hsrc & Hstep). injection Hstep as <-.
    apply (Forall_dict_set P); [exact Hf|]. eapply HP, Hsrc.
Qed.

Lemma init_datasets_all (P : Source.t Row -> Prop)
    (dss : dict (Dataset.t Row)) (acc srcs : dict (Source.t Row)) :
  (forall src ds, P src -> P (Source.add src ds)) ->
  Forall (fun x => P x.2) acc ->
  for_each dss
    (fun srcs '(dsname, ds) =>
       let! src := dict_get srcs (Dataset.source_name ds) in
       Ok (dict_set srcs (Dataset.source_name ds) (Source.add src ds)))
    acc = Ok srcs ->
  Forall (fun x => P x.2) srcs.
Proof.
  intros HP. revert acc.
  induction dss as [|[dsname ds] dss IH]; simpl; intros acc Hf H.
  - injection H as <-. exact Hf.
  - apply bind_Ok in H as (acc1 & Hstep & H). apply (IH acc1); [|exact H].
    apply bind_Ok in Hstep as (src & Hsrc & Hstep). injection Hstep as <-.
    apply (Forall_dict_set P); [exact Hf|].
    apply HP. apply (Forall_dict_get P _ _ _ Hf Hsrc).
Qed.

Lemma init_all (P : Source.t Row -> Prop) los dss meta fn dk s :
  (forall name stype src, Source.init name stype = Ok src -> P src) ->
  (forall src ds, P src -> P (Source.add src ds)) ->
  (forall a b, same_but_writers a b -> P a -> P b) ->
  init los dss meta fn dk = Ok s ->
  Forall (fun x => P x.2) (sources s).
Proof.
  intros Hinit Hadd Hcreate H. unfold init in H.
  apply bind_Ok in H as (srcs0 & H0 & H).
  apply bind_Ok in H as (srcs1 & H1 & H).
  apply (init_sources_all P) in H0; [|exact Hinit|constructor].
  apply (init_datasets_all P) in H1; [|exact Hadd|exact H0].
  unfold open_w in H.
  apply init_file_each in H. simpl in H.
  eapply (Forall2_Forall_pairs _ _ _ _ _ _ H H1).
  Unshelve.
  intros x y [_ Hc] Hx. simpl in *.
  apply source_create_inv in Hc as (w & grp & ->).
  eapply Hcreate; [|exact Hx]. eexists _, _. reflexivity.
Qed.

Lemma init_in_step los dss meta fn dk s :
  init los dss meta fn dk = Ok s -> index_in_step s.
Proof.
  intros H.
  pose proof (init_inv _ _ _ _ _ _ H) as (_ & _ & _ & Htr & _).
  apply index_in_step_fresh; [|exact Htr].
  apply (init_all fresh_index _ _ _ _ _ _) in H; [exact H| | |].
  - intros name stype src Hi. unfold Source.init in Hi. inv_ok. subst src.
    repeat split.
  - intros src ds Hf. exact Hf.
  - intros a b (w & g & ->) Hf. exact Hf.
Qed.

End SessionSources.

(** X8: in a session of a new writer (any run of add_value, add and
    write_train calls that return, rotations included) every source has
    recorded exactly one [first] and one [count] entry for each train of
    the open file, the first train starts at 0, each train starts where
    the previous one ends, and [pos] is the number of entries written. *)
Theorem session_source_index_in_step {Row}
    (los : list (string * string)) (dss : dict (Dataset.t Row))
    (meta : Options.t) (fn : Z -> string) (dk : list (File Row))
    (calls : list (writer_call Row)) (s0 s : FileWriterBase.t Row)
    (sname : string) (src : Source.t Row) :
  FileWriterBase.init los dss meta fn dk = Ok s0 ->
  for_each calls writer_step s0 = Ok s ->
  dict_get (FileWriterBase.sources s) sname = Ok src ->
  length (Source.first src) = length (FileWriterBase.trains s)
  /\ length (Source.count src) = length (FileWriterBase.trains s)
  /\ Source.first src = offsets 0 (Source.count src)
  /\ Source.pos src = total (Source.count src).
Proof.
  intros Hinit Hrun Hget.
  pose proof (init_inv _ _ _ _ _ _ Hinit) as (Hwf & _).
  pose proof (init_in_step _ _ _ _ _ _ Hinit) as Hinv.
  destruct (writer_run_in_step _ _ _ Hwf Hinv Hrun) as [_ Hinv'].
  apply (Forall_dict_get
           (fun v => length (Source.count v) = length (FileWriterBase.trains s)
                     /\ chained v) _ _ _ Hinv') in Hget.
  destruct Hget as [Hlen [Hf Hp]].
  split; [rewrite Hf, offsets_length; exact Hlen|]. auto.
Qed.

Lemma session_source_index_in_step_witness :
  exists s0 s src,
    rotating_writer = Ok s0
    /\ for_each (session_calls ++ [WWriteTrain 103 (Some 13)]) writer_step s0 = Ok s
    /\ dict_get (FileWriterBase.sources s) "dev:out/data" = Ok src
    /\ FileWriterBase.trains s = [103]
    /\ Source.count src = [0]
    /\ length (Source.first src) = length (FileWriterBase.trains s)
    /\ length (Source.count src) = length (FileWriterBase.trains s)
    /\ Source.first src = offsets 0 (Source.count src)
    /\ Source.pos src = total (Source.count src).
Proof.
  let r := returned rotating_writer in pose (s0 := r).
  let r := returned (for_each (session_calls ++ [WWriteTrain 103 (Some 13)])
                       writer_step s0) in pose (s := r).
  let r := returned (dict_get (FileWriterBase.sources s) "dev:out/data") in
  pose (src := r).
  assert (rotating_writer = Ok s0) as H0 by (vm_compute; reflexivity).
  assert (for_each (session_calls ++ [WWriteTrain 103 (Some 13)]) writer_step s0
          = Ok s) as H1 by (vm_compute; reflexivity).
  assert (dict_get (FileWriterBase.sources s) "dev:out/data" = Ok src)
    as H2 by (vm_compute; reflexivity).
  exists s0, s, src.
  do 3 (split; [assumption|]).
  do 2 (split; [vm_compute; reflexivity|]).
  exact (session_source_index_in_step _ _ _ _ _ _ s0 s "dev:out/data" src H0 H1 H2).
Defined.

(** ** Instrument sources across trains *)

Section InstrumentSources.
Context {Row : Type}.
Import FileWriterBase.
Implicit Types (s : FileWriterBase.t Row).

(* the loop of write_train only deletes staged data *)
Lemma commit_loop_none (l acc r : dict (Source.t Row))
    (td td' : gmap string (gmap string (list Row))) k :
  for_each l commit_source (acc, td) = Ok (r, td') ->
  td !! k = None -> td' !! k = None.
Proof.
  revert acc td. induction l as [|[k0 src0] l IH]; simpl; intros acc td H Hk.
  - injection H as <- <-. exact Hk.
  - apply bind_Ok in H as ([acc1 td1] & Hstep & H).
    apply (IH _ _ H).
    unfold commit_source in Hstep.
    destruct (td !! k0) as [data|];
      apply bind_Ok in Hstep as (src' & _ & Hstep); injection Hstep as <- <-;
      [|exact Hk].
    destruct (Source.stype src' =? 1); [|exact Hk].
    destruct (decide (k0 = k)) as [->|Hne];
      [apply lookup_delete_eq|rewrite lookup_delete_ne by exact Hne; exact Hk].
Qed.

(* and it deletes what is staged for an instrument source *)
Lemma commit_loop_drop (l acc r : dict (Source.t Row))
    (td td' : gmap string (gmap string (list Row))) k src :
  for_each l commit_source (acc, td) = Ok (r, td') ->
  (k, src) ∈ l -> Source.stype src = 1 -> td' !! k = None.
Proof.
  revert acc td. induction l as [|[k0 src0] l IH]; intros acc td H Hin Hs.
  - inversion Hin.
  - simpl in H. apply bind_Ok in H as ([acc1 td1] & Hstep & H).
    apply elem_of_cons in Hin as [[= -> ->]|Hin]; [|eapply IH; eauto].
    apply (commit_loop_none _ _ _ _ _ _ H).
    unfold commit_source in Hstep.
    destruct (td !! k0) as [data|] eqn:Htd;
      apply bind_Ok in Hstep as (src' & Hw & Hstep); injection Hstep as <- <-;
      [|exact Htd].
    apply source_write_train_inv in Hw as (w & _ & ->). simpl.
    rewrite Hs. simpl. apply lookup_delete_eq.
Qed.

Lemma write_train_drops s tid ts s' sname (src' : Source.t Row) :
  wf_sources s ->
  write_train s tid ts = Ok s' ->
  dict_get (sources s') sname = Ok src' ->
  Source.stype src' = 1 ->
  _train_data s' !! sname = None.
Proof.
  intros Hwf H Hget Hs.
  destruct (write_train_source _ _ _ _ _ _ Hwf H Hget)
    as (s1 & c & src & src1 & Hrot & Hc & _ & Hget1 & _ & Hw & _).
  unfold write_train in H. rewrite Hrot in H. simpl in H. rewrite Hc in H.
  apply bind_Ok in H as ([srcs td'] & Hloop & H). injection H as <-. simpl.
  apply (commit_loop_drop _ _ _ _ _ sname src1) in Hloop; [exact Hloop| |].
  - apply dict_get_elem.
    destruct (Options.warn_on_missing_data (_meta s1) && negb c); exact Hget1.
  - apply source_write_train_inv in Hw as (w & _ & ->). exact Hs.
Qed.

End InstrumentSources.

(** X9: after write_train, nothing is staged any more for an instrument
    source and it expects no entry for the next train ([nrec = 0]),
    while a control source keeps what is staged for it and expects one
    entry. *)
Theorem write_train_drops_instrument_data {Row} (s s' : FileWriterBase.t Row)
    (tid : Z) (ts : option Z) (sname : string) (src' : Source.t Row) :
  wf_sources s ->
  FileWriterBase.write_train s tid ts = Ok s' ->
  dict_get (FileWriterBase.sources s') sname = Ok src' ->
  (Source.stype src' = 1 ->
   FileWriterBase._train_data s' !! sname = None /\ Source.nrec src' = 0)
  /\ (Source.stype src' = 0 ->
      staged_data s' sname = staged_data s sname /\ Source.nrec src' = 1).
Proof.
  intros Hwf H Hget.
  destruct (write_train_source _ _ _ _ _ _ Hwf H Hget)
    as (s1 & c & src & src1 & _ & _ & _ & _ & _ & Hw & Hkeep & _).
  destruct (source_write_train_writers _ _ _ Hw) as ((_ & Hst & _) & _ & Hn & _).
  split; intros Hs.
  - split; [eapply write_train_drops; eauto|].
    rewrite Hn, Hst, Hs. reflexivity.
  - split; [apply Hkeep, Hs|]. rewrite Hn, Hst, Hs. reflexivity.
Qed.

Lemma write_train_drops_instrument_data_witness :
  exists s0 s s' src',
    rotating_writer = Ok s0
    /\ FileWriterBase.add s0 [("x", [7]); ("v", [1; 2; 3])]%string = Ok s
    /\ wf_sources s
    /\ FileWriterBase.write_train s 101 (Some 11) = Ok s'
    /\ dict_get (FileWriterBase.sources s') "dev:out/data" = Ok src'
    /\ Source.stype src' = 1
    /\ FileWriterBase._train_data s' !! "dev:out/data"%string = None
    /\ Source.nrec src' = 0.
Proof.
  let r := returned rotating_writer in pose (s0 := r).
  let r := returned (FileWriterBase.add s0 [("x", [7]); ("v", [1; 2; 3])]%string) in
  pose (s := r).
  let r := returned (FileWriterBase.write_train s 101 (Some 11)) in pose (s' := r).
  let r := returned (dict_get (FileWriterBase.sources s') "dev:out/data") in
  pose (src' := r).
  assert (wf_sources s) as Hwf.
  { unfold wf_sources, wf_dict. apply (bool_decide_unpack _).
    vm_compute. reflexivity. }
  assert (FileWriterBase.write_train s 101 (Some 11) = Ok s')
    as H1 by (vm_compute; reflexivity).
  assert (dict_get (FileWriterBase.sources s') "dev:out/data" = Ok src')
    as H2 by (vm_compute; reflexivity).
  assert (Source.stype src' = 1) as H3 by reflexivity.
  exists s0, s, s', src'.
  do 2 (split; [vm_compute; reflexivity|]).
  do 4 (split; [assumption|]).
  exact (proj1 (write_train_drops_instrument_data s s' 101 (Some 11)
                  "dev:out/data" src' Hwf H1 H2) H3).
Defined.

(** ** An instrument source that submits nothing *)

Section Unsubmitted.
Context {Row : Type}.
Import FileWriterBase.
Implicit Types (s : FileWriterBase.t Row).

Lemma Forall_dict_set_item {V} (P : string * V -> Prop) (d : dict V) k v :
  Forall P d -> P (k, v) -> Forall P (dict_set d k v).
Proof.
  intros HP Hv. induction d as [|[k1 v1] d IH]; simpl.
  - repeat constructor. exact Hv.
  - apply Forall_cons in HP as [H1 HP].
    destruct (decide (k1 = k)) as [->|]; constructor; auto.
Qed.

Lemma init_unstaged los dss meta fn dk s :
  init los dss meta fn dk = Ok s -> unstaged_expect_none s.
Proof.
  intros H.
  apply (init_all (fun src => Source.nrec src = 0) _ _ _ _ _ _) in H.
  - unfold unstaged_expect_none. eapply Forall_impl; [exact H|]. simpl. auto.
  - intros name stype src Hi. unfold Source.init in Hi. inv_ok. subst src.
    reflexivity.
  - intros src ds Hn. exact Hn.
  - intros a b (w & g & ->) Hn. exact Hn.
Qed.

Lemma add_value_unstaged s name value s' :
  wf_sources s -> unstaged_expect_none s ->
  add_value s name value = Ok s' -> unstaged_expect_none s'.
Proof.
  intros Hwf Hinv H. apply add_value_inv in H
    as (ds & src & n & _ & Hsrc & _ & _ & ->).
  pose proof (wf_dict_name _ _ _ Hwf Hsrc) as Hname.
  unfold unstaged_expect_none in *. simpl. rewrite Hname.
  apply Forall_dict_set_item.
  - eapply Forall_impl; [exact Hinv|]. simpl. intros [k v] Hx Hs Htd. simpl in *.
    destruct (decide (Dataset.source_name ds = k)) as [<-|Hne].
    + rewrite lookup_insert_eq in Htd. discriminate.
    + rewrite lookup_insert_ne in Htd by exact Hne. auto.
  - simpl. intros _ Htd. rewrite lookup_insert_eq in Htd. discriminate.
Qed.

Lemma add_unstaged s kwargs s' :
  wf_sources s -> unstaged_expect_none s ->
  add s kwargs = Ok s' -> unstaged_expect_none s'.
Proof.
  unfold add. revert s.
  induction kwargs as [|[name value] kw IH]; simpl; intros s Hwf Hinv H.
  - injection H as <-. exact Hinv.
  - apply bind_Ok in H as (s1 & H1 & H).
    eapply IH; [| |exact H].
    + eapply add_value_wf_sources; eauto.
    + eapply add_value_unstaged; eauto.
Qed.

Lemma write_train_unstaged s tid ts s' :
  wf_sources s -> write_train s tid ts = Ok s' -> unstaged_expect_none s'.
Proof.
  intros Hwf H.
  apply write_train_inv in H as (s1 & c & _ & _ & Hcommit & _); [|apply Hwf].
  unfold unstaged_expect_none.
  eapply (Forall2_Forall_pairs _ (fun _ => True) _ _ _ _ Hcommit).
  Unshelve.
  - apply Forall_true. auto.
  - intros [k a] [k' b] [_ Hw] _ Hs _. simpl in *.
    apply source_write_train_inv in Hw as (w & _ & ->). simpl in *.
    rewrite Hs. reflexivity.
Qed.

Lemma writer_run_unstaged calls s s' :
  wf_sources s -> unstaged_expect_none s ->
  for_each calls writer_step s = Ok s' ->
  wf_sources s' /\ unstaged_expect_none s'.
Proof.
  revert s. induction calls as [|c calls IH]; simpl; intros s Hwf Hinv H.
  - injection H as <-. auto.
  - apply bind_Ok in H as (s1 & H1 & H).
    apply (IH s1); [| |exact H]; destruct c as [name value|kwargs|tid ts];
      simpl in H1.
    + eapply add_value_wf_sources; eauto.
    + eapply add_wf_sources; eauto.
    + eapply write_train_wf_sources; eauto.
    + eapply add_value_unstaged; eauto.
    + eapply add_unstaged; eauto.
    + eapply write_train_unstaged; eauto.
Qed.

End Unsubmitted.

(** X10: in a session of a new writer, a train that is written while
    nothing is staged for an instrument source is recorded for that
    source with [count = 0] at the current position, the position does
    not move, and none of its writers is touched. *)
Theorem session_unsubmitted_instrument_source {Row}
    (los : list (string * string)) (dss : dict (Dataset.t Row))
    (meta : Options.t) (fn : Z -> string) (dk : list (File Row))
    (calls : list (writer_call Row)) (s0 s s' : FileWriterBase.t Row)
    (tid : Z) (ts : option Z) (sname : string) (src' : Source.t Row) :
  FileWriterBase.init los dss meta fn dk = Ok s0 ->
  for_each calls writer_step s0 = Ok s ->
  FileWriterBase.write_train s tid ts = Ok s' ->
  dict_get (FileWriterBase.sources s') sname = Ok src' ->
  Source.stype src' = 1 ->
  FileWriterBase._train_data s !! sname = None ->
  exists s1 src1,
    FileWriterBase.rotate_sequence_file s = Ok s1
    /\ dict_get (FileWriterBase.sources s1) sname = Ok src1
    /\ Source.count src' = Source.count src1 ++ [0]
    /\ Source.first src' = Source.first src1 ++ [Source.pos src1]
    /\ Source.pos src' = Source.pos src1
    /\ forall (dsno : nat) ds,
         Source.datasets src1 !! dsno = Some ds ->
         Source.file_ds src' !! dsno = Source.file_ds src1 !! dsno.
Proof.
  intros Hinit Hrun H Hget Hs Hnone.
  pose proof (init_inv _ _ _ _ _ _ Hinit) as (Hwf0 & _).
  destruct (writer_run_unstaged _ _ _ Hwf0 (init_unstaged _ _ _ _ _ _ Hinit) Hrun)
    as [Hwf Hinv].
  destruct (write_train_source _ _ _ _ _ _ Hwf H Hget)
    as (s1 & c & src & src1 & Hrot & _ & Hget0 & Hget1 & [Hsch Hn] & Hw & _).
  exists s1, src1. split; [exact Hrot|]. split; [exact Hget1|].
  destruct (source_write_train_writers _ _ _ Hw) as ((_ & Hst & _) & _ & _ & Hwr).
  assert (Source.nrec src1 = 0) as Hzero.
  { rewrite <- Hn.
    apply (Forall_dict_get
             (fun v => Source.stype v = 1 ->
                       FileWriterBase._train_data s !! Source.name v = None ->
                       Source.nrec v = 0) (FileWriterBase.sources s) sname src).
    - destruct Hwf as [_ Hnames].
      eapply Forall_impl.
      + apply Forall_and. split; [exact Hinv|exact Hnames].
      + simpl. intros x [Hx Hname]. rewrite Hname. exact Hx.
    - exact Hget0.
    - destruct Hsch as (_ & -> & _). congruence.
    - rewrite (wf_dict_name _ _ _ Hwf Hget0). exact Hnone. }
  pose proof Hw as Hw'.
  apply source_write_train_inv in Hw' as (w & _ & ->). simpl.
  rewrite Hzero. split; [reflexivity|]. split; [reflexivity|].
  split; [lia|].
  intros dsno ds Hds. destruct (Hwr dsno ds Hds) as (wrt & Hwrt & Hres).
  unfold staged_data in Hres. rewrite Hnone in Hres. simpl in Hres.
  rewrite lookup_empty in Hres. simpl in Hres. congruence.
Qed.

Lemma session_unsubmitted_instrument_source_witness :
  exists s0 s s' src',
    rotating_writer = Ok s0
    /\ for_each [WAdd [("x", [7]); ("v", [1; 2; 3])]%string;
                 WWriteTrain 101 (Some 11)] writer_step s0 = Ok s
    /\ FileWriterBase.write_train s 102 (Some 12) = Ok s'
    /\ dict_get (FileWriterBase.sources s') "dev:out/data" = Ok src'
    /\ Source.stype src' = 1
    /\ FileWriterBase._train_data s !! "dev:out/data"%string = None
    /\ Source.count src' = [3; 0]
    /\ Source.first src' = [0; 3]
    /\ exists s1 src1,
         FileWriterBase.rotate_sequence_file s = Ok s1
         /\ dict_get (FileWriterBase.sources s1) "dev:out/data" = Ok src1
         /\ Source.count src' = Source.count src1 ++ [0]
         /\ Source.first src' = Source.first src1 ++ [Source.pos src1]
         /\ Source.pos src' = Source.pos src1
         /\ forall (dsno : nat) ds,
              Source.datasets src1 !! dsno = Some ds ->
              Source.file_ds src' !! dsno = Source.file_ds src1 !! dsno.
Proof.
  let r := returned rotating_writer in pose (s0 := r).
  let r := returned (for_each [WAdd [("x", [7]); ("v", [1; 2; 3])]%string;
                               WWriteTrain 101 (Some 11)] writer_step s0) in
  pose (s := r).
  let r := returned (FileWriterBase.write_train s 102 (Some 12)) in pose (s' := r).
  let r := returned (dict_get (FileWriterBase.sources s') "dev:out/data") in
  pose (src' := r).
  assert (rotating_writer = Ok s0) as H0 by (vm_compute; reflexivity).
  assert (for_each [WAdd [("x", [7]); ("v", [1; 2; 3])]%string;
                    WWriteTrain 101 (Some 11)] writer_step s0 = Ok s)
    as H1 by (vm_compute; reflexivity).
  assert (FileWriterBase.write_train s 102 (Some 12) = Ok s')
    as H2 by (vm_compute; reflexivity).
  assert (dict_get (FileWriterBase.sources s') "dev:out/data" = Ok src')
    as H3 by (vm_compute; reflexivity).
  assert (Source.stype src' = 1) as H4 by reflexivity.
  assert (FileWriterBase._train_data s !! "dev:out/data"%string = None)
    as H5 by (vm_compute; reflexivity).
  exists s0, s, s', src'.
  do 6 (split; [assumption|]).
  do 2 (split; [vm_compute; reflexivity|]).
  exact (session_unsubmitted_instrument_source _ _ _ _ _ _ s0 s s' 102 (Some 12)
           "dev:out/data" src' H0 H1 H2 H3 H4 H5).
Defined.

(** ** The arrays of a new file *)

Section NewFile.
Context {Row : Type}.
Import FileWriterBase.
Implicit Types (s : FileWriterBase.t Row).

(* the writer that Dataset.create returns: a new, empty array at the
   path of the key below the group *)
Lemma Dataset_create_new (ds : Dataset.t Row) grp max_trains buffering wrt :
  Dataset_create ds grp max_trains buffering = Ok wrt ->
  h5py.name (DatasetWriter.file_ds wrt)
  = grp +:+ "/" +:+ replace_char "." "/" (Dataset.key ds)
  /\ h5py.rows (DatasetWriter.file_ds wrt) = [].
Proof.
  unfold Dataset_create, h5py.create_dataset. simpl.
  destruct (negb _); simpl; [discriminate|].
  destruct buffering.
  - intros H. apply bind_Ok in H as (w & Hw & [= <-]).
    unfold DatasetBufferedWriter.init in Hw.
    destruct (Dataset.chunks_autosize ds max_trains) as [shape|]; [|discriminate].
    destruct (negb _); [discriminate|].
    apply bind_Ok in Hw as (size & _ & [= <-]). simpl. auto.
  - intros [= <-]. simpl. auto.
Qed.

(* the loop of Source.create: writer number dsno is the new writer of
   its dataset *)
Lemma create_loop grp max_trains buffering (dss : list (Dataset.t Row))
    (k : nat) w w' :
  for_each (zip (List.seq k (length dss)) dss)
    (fun w '(dsno, ds) =>
       let! wrt := Dataset_create ds grp max_trains buffering in
       setitem w (Z.of_nat dsno) (Some wrt))
    w = Ok w' ->
  (forall j, (j < k)%nat -> w' !! j = w !! j)
  /\ forall i ds, dss !! i = Some ds ->
       exists wrt,
         Dataset_create ds grp max_trains buffering = Ok wrt
         /\ w' !! (k + i)%nat = Some (Some wrt).
Proof.
  revert k w. induction dss as [|ds0 dss IH]; intros k w H.
  - simpl in H. injection H as <-. split; [auto|]. intros i ds Hi. discriminate.
  - simpl in H. apply bind_Ok in H as (w1 & Hstep & H).
    apply IH in H as [Hlow Hrest].
    apply bind_Ok in Hstep as (wrt & Hc & Hset).
    apply setitem_nat_inv in Hset as [-> Hlt].
    split.
    + intros j Hj. rewrite Hlow by lia. apply list_lookup_insert_ne. lia.
    + intros [|i] ds Hi.
      * simpl in Hi. injection Hi as <-. rewrite Nat.add_0_r.
        exists wrt. split; [exact Hc|]. rewrite Hlow by lia.
        apply list_lookup_insert_eq, Hlt.
      * simpl in Hi. destruct (Hrest i ds Hi) as (wrt1 & Hc1 & Hw1).
        replace (k + S i)%nat with (S k + i)%nat by lia. eauto.
Qed.

Lemma source_create_arrays (src : Source.t Row) max_trains buffering src' :
  Source.create src max_trains buffering = Ok src' ->
  forall dsno ds, Source.datasets src !! dsno = Some ds ->
    exists wrt,
      Source.file_ds src' !! dsno = Some (Some wrt)
      /\ h5py.name (DatasetWriter.file_ds wrt)
         = (Source.section src +:+ "/" +:+ Source.name src) +:+ "/"
           +:+ replace_char "." "/" (Dataset.key ds)
      /\ h5py.rows (DatasetWriter.file_ds wrt) = [].
Proof.
  unfold Source.create. intros H.
  apply bind_Ok in H as (w & Hloop & [= <-]). simpl.
  unfold Source.enumerate in Hloop.
  apply create_loop in Hloop as [_ Hloop].
  intros dsno ds Hds. destruct (Hloop dsno ds Hds) as (wrt & Hc & Hw).
  exists wrt. split; [exact Hw|]. eapply Dataset_create_new, Hc.
Qed.

(* the loop of the constructor over the datasets: each dataset goes to
   the source it names *)
Lemma init_datasets_loop (dss : dict (Dataset.t Row)) (acc srcs : dict (Source.t Row))
    k (src : Source.t Row) :
  for_each dss
    (fun srcs '(dsname, ds) =>
       let! src := dict_get srcs (Dataset.source_name ds) in
       Ok (dict_set srcs (Dataset.source_name ds) (Source.add src ds)))
    acc = Ok srcs ->
  dict_get srcs k = Ok src ->
  exists src0,
    dict_get acc k = Ok src0
    /\ Source.datasets src
       = Source.datasets src0
         ++ filter (fun ds => Dataset.source_name ds = k) dss.*2.
Proof.
  revert acc. induction dss as [|[dsname ds] dss IH]; simpl; intros acc H Hget.
  - injection H as <-. exists src. rewrite app_nil_r. auto.
  - apply bind_Ok in H as (acc1 & Hstep & H).
    apply bind_Ok in Hstep as (src1 & Hsrc1 & [= <-]).
    destruct (IH _ H Hget) as (src0 & Hget0 & Hds).
    rewrite filter_cons. simpl.
    destruct (decide (Dataset.source_name ds = k)) as [<-|Hne].
    + rewrite dict_get_set_eq in Hget0. injection Hget0 as <-.
      exists src1. split; [exact Hsrc1|].
      rewrite Hds. simpl. rewrite <- app_assoc. reflexivity.
    + rewrite dict_get_set_ne in Hget0 by exact Hne. eauto.
Qed.

Lemma sources_rel_get_fwd (R : Source.t Row -> Source.t Row -> Prop) l1 l2 k a :
  sources_rel R l1 l2 -> dict_get l1 k = Ok a ->
  exists b, dict_get l2 k = Ok b /\ R a b.
Proof.
  intros H. induction H as [|[k1 a1] [k2 a2] l1 l2 [Hk Hxy] _ IH]; simpl.
  - discriminate.
  - simpl in Hk, Hxy. subst k2. destruct (decide (k1 = k)).
    + intros [= <-]. eauto.
    + exact IH.
Qed.

End NewFile.

(** X11: the sources of a new writer.  Each source holds exactly the
    declared datasets that name it, in the order of their declaration;
    no train is recorded for it; and for each of its datasets the open
    file has a new array without rows at
    [section/source/key with slashes]. *)
Theorem new_writer_sources {Row}
    (los : list (string * string)) (dss : dict (Dataset.t Row))
    (meta : Options.t) (fn : Z -> string) (dk : list (File Row))
    (s : FileWriterBase.t Row) (sname : string) (src : Source.t Row) :
  FileWriterBase.init los dss meta fn dk = Ok s ->
  dict_get (FileWriterBase.sources s) sname = Ok src ->
  Source.name src = sname
  /\ Source.datasets src
     = filter (fun ds => Dataset.source_name ds = sname) dss.*2
  /\ fresh_index src /\ Source.nrec src = 0
  /\ forall (dsno : nat) ds,
       Source.datasets src !! dsno = Some ds ->
       exists wrt,
         Source.file_ds src !! dsno = Some (Some wrt)
         /\ h5py.name (DatasetWriter.file_ds wrt)
            = (Source.section src +:+ "/" +:+ sname) +:+ "/"
              +:+ replace_char "." "/" (Dataset.key ds)
         /\ h5py.rows (DatasetWriter.file_ds wrt) = [].
Proof.
  intros Hinit Hget.
  pose proof (init_inv _ _ _ _ _ _ Hinit) as (Hwf & _).
  pose proof (wf_dict_name _ _ _ Hwf Hget) as Hname.
  pose proof (init_all (fun v => fresh_index v /\ Source.nrec v = 0)
                los dss meta fn dk s) as Hall.
  specialize (Hall
    ltac:(intros name stype v Hi; unfold Source.init in Hi; inv_ok; subst v;
          repeat split)
    ltac:(intros v ds Hv; exact Hv)
    ltac:(intros a b (w & g & ->) Hv; exact Hv)
    Hinit).
  destruct (Forall_dict_get _ _ _ _ Hall Hget) as [Hfresh Hnrec].
  unfold FileWriterBase.init in Hinit.
  apply bind_Ok in Hinit as (srcs0 & H0 & H).
  apply bind_Ok in H as (srcs1 & H1 & H).
  unfold FileWriterBase.open_w in H.
  apply init_file_each in H. simpl in H.
  destruct (sources_rel_get _ _ _ _ _ H Hget) as (src1 & Hget1 & Hc).
  destruct (init_datasets_loop _ _ _ _ _ H1 Hget1) as (src0 & Hget0 & Hds).
  assert (Source.datasets src0 = []) as Hnil.
  { apply (init_sources_all (fun v => Source.datasets v = [])) in H0.
    - apply (Forall_dict_get (fun v => Source.datasets v = []) _ _ _ H0 Hget0).
    - intros name stype v Hi. unfold Source.init in Hi. inv_ok. subst v.
      reflexivity.
    - constructor. }
  rewrite Hnil in Hds. simpl in Hds.
  pose proof (source_create_arrays _ _ _ _ Hc) as Harr.
  apply source_create_inv in Hc as (w & g & Hsrc).
  assert (Source.datasets src = Source.datasets src1
          /\ Source.section src = Source.section src1
          /\ Source.name src = Source.name src1) as (Ed & Es & En)
    by (rewrite Hsrc; repeat split).
  split; [exact Hname|]. split; [congruence|].
  split; [exact Hfresh|]. split; [exact Hnrec|].
  intros dsno ds Hdsno. rewrite Ed in Hdsno.
  destruct (Harr dsno ds Hdsno) as (wrt & Hw & Hn & Hr).
  exists wrt. rewrite Es, <- Hname, En. auto.
Qed.

Lemma new_writer_sources_witness :
  exists s src,
    rotating_writer = Ok s
    /\ dict_get (FileWriterBase.sources s) "dev:out/data" = Ok src
    /\ Source.name src = "dev:out/data"%string
    /\ Source.datasets src
       = filter (fun ds => Dataset.source_name ds = "dev:out/data"%string)
           [control_x; scalar_instrument]
    /\ fresh_index src /\ Source.nrec src = 0
    /\ forall (dsno : nat) ds,
         Source.datasets src !! dsno = Some ds ->
         exists wrt,
           Source.file_ds src !! dsno = Some (Some wrt)
           /\ h5py.name (DatasetWriter.file_ds wrt)
              = (Source.section src +:+ "/" +:+ "dev:out/data") +:+ "/"
                +:+ replace_char "." "/" (Dataset.key ds)
           /\ h5py.rows (DatasetWriter.file_ds wrt) = [].
Proof.
  let r := returned rotating_writer in pose (s := r).
  let r := returned (dict_get (FileWriterBase.sources s) "dev:out/data") in
  pose (src := r).
  assert (rotating_writer = Ok s) as H0 by (vm_compute; reflexivity).
  assert (dict_get (FileWriterBase.sources s) "dev:out/data" = Ok src)
    as H1 by (vm_compute; reflexivity).
  exists s, src. do 2 (split; [assumption|]).
  exact (new_writer_sources _ _ _ _ _ s "dev:out/data" src H0 H1).
Defined.

(** X12: in a session of a new writer, a write_train that finds the
    open file full (a rotation is due) starts a new file: every source
    gets a new array without rows for each of its datasets and an
    empty index, and the train is then recorded as the first one of the
    new file, at offset 0. *)
Theorem rotation_starts_new_file {Row}
    (los : list (string * string)) (dss : dict (Dataset.t Row))
    (meta : Options.t) (fn : Z -> string) (dk : list (File Row))
    (calls : list (writer_call Row)) (s0 s s' : FileWriterBase.t Row)
    (tid : Z) (ts : option Z) (sname : string) (src' : Source.t Row) :
  FileWriterBase.init los dss meta fn dk = Ok s0 ->
  for_each calls writer_step s0 = Ok s ->
  rotation_due s = true ->
  FileWriterBase.write_train s tid ts = Ok s' ->
  dict_get (FileWriterBase.sources s') sname = Ok src' ->
  FileWriterBase.trains s' = [tid]
  /\ Source.first src' = [0]
  /\ exists s1 src1,
       FileWriterBase.rotate_sequence_file s = Ok s1
       /\ dict_get (FileWriterBase.sources s1) sname = Ok src1
       /\ fresh_index src1
       /\ Source.count src' = [Source.nrec src1]
       /\ forall (dsno : nat) ds,
            Source.datasets src1 !! dsno = Some ds ->
            exists wrt,
              Source.file_ds src1 !! dsno = Some (Some wrt)
              /\ h5py.rows (DatasetWriter.file_ds wrt) = [].
Proof.
  intros Hinit Hrun Hdue H Hget.
  pose proof (init_inv _ _ _ _ _ _ Hinit) as (Hwf0 & _).
  destruct (writer_run_in_step _ _ _ Hwf0 (init_in_step _ _ _ _ _ _ Hinit) Hrun)
    as [Hwf Hinv].
  destruct (write_train_source _ _ _ _ _ _ Hwf H Hget)
    as (s1 & c & src & src1 & Hrot & _ & _ & Hget1 & _ & Hw & _).
  destruct (rotate_fresh _ _ Hdue Hrot Hinv) as [Hfresh Htr].
  pose proof (Forall_dict_get fresh_index _ _ _ Hfresh Hget1) as Hf1.
  apply write_train_inv in H
    as (s1' & c' & Hrot' & _ & _ & _ & Etr & _); [|apply Hwf].
  assert (s1' = s1) as -> by congruence.
  pose proof Hw as Hw'.
  apply source_write_train_inv in Hw' as (w & _ & Hsrc').
  destruct Hf1 as (Hfirst & Hcount & Hpos).
  split; [rewrite Etr, Htr; reflexivity|].
  split; [rewrite Hsrc'; simpl; rewrite Hfirst, Hpos; reflexivity|].
  exists s1, src1. split; [exact Hrot|]. split; [exact Hget1|].
  split; [repeat split; assumption|].
  split; [rewrite Hsrc'; simpl; rewrite Hcount; reflexivity|].
  pose proof (rotate_each _ _ Hdue Hrot) as Heach.
  destruct (sources_rel_get _ _ _ _ _ Heach Hget1)
    as (a & _ & a1 & a2 & g & g' & _ & _ & Hc).
  pose proof (source_create_arrays _ _ _ _ Hc) as Harr.
  apply source_create_inv in Hc as (w1 & grp & Hsrc1).
  intros dsno ds Hds.
  assert (Source.datasets src1 = Source.datasets a2) as Ed
    by (rewrite Hsrc1; reflexivity).
  rewrite Ed in Hds. destruct (Harr dsno ds Hds) as (wrt & Hwrt & _ & Hrows).
  eauto.
Qed.

Lemma rotation_starts_new_file_witness :
  exists s0 s s' src',
    rotating_writer = Ok s0
    /\ for_each session_calls writer_step s0 = Ok s
    /\ rotation_due s = true
    /\ FileWriterBase.write_train s 103 (Some 13) = Ok s'
    /\ dict_get (FileWriterBase.sources s') "dev" = Ok src'
    /\ FileWriterBase.seq s' = 1
    /\ FileWriterBase.trains s' = [103]
    /\ Source.first src' = [0]
    /\ exists s1 src1,
         FileWriterBase.rotate_sequence_file s = Ok s1
         /\ dict_get (FileWriterBase.sources s1) "dev" = Ok src1
         /\ fresh_index src1
         /\ Source.count src' = [Source.nrec src1]
         /\ forall (dsno : nat) ds,
              Source.datasets src1 !! dsno = Some ds ->
              exists wrt,
                Source.file_ds src1 !! dsno = Some (Some wrt)
                /\ h5py.rows (DatasetWriter.file_ds wrt) = [].
Proof.
  let r := returned rotating_writer in pose (s0 := r).
  let r := returned (for_each session_calls writer_step s0) in pose (s := r).
  let r := returned (FileWriterBase.write_train s 103 (Some 13)) in pose (s' := r).
  let r := returned (dict_get (FileWriterBase.sources s') "dev") in pose (src' := r).
  assert (rotating_writer = Ok s0) as H0 by (vm_compute; reflexivity).
  assert (for_each session_calls writer_step s0 = Ok s)
    as H1 by (vm_compute; reflexivity).
  assert (rotation_due s = true) as H2 by (vm_compute; reflexivity).
  assert (FileWriterBase.write_train s 103 (Some 13) = Ok s')
    as H3 by (vm_compute; reflexivity).
  assert (dict_get (FileWriterBase.sources s') "dev" = Ok src')
    as H4 by (vm_compute; reflexivity).
  exists s0, s, s', src'.
  do 5 (split; [assumption|]).
  split; [vm_compute; reflexivity|].
  exact (rotation_starts_new_file _ _ _ _ _ _ s0 s s' 103 (Some 13) "dev" src'
           H0 H1 H2 H3 H4).
Defined.

(** ** Closing a file *)

Section CloseFile.
Context {Row : Type}.
Import FileWriterBase.
Implicit Types (s : FileWriterBase.t Row).

Lemma resize_name (ds ds' : h5py.dataset Row) n :
  h5py.resize ds n = Ok ds' -> h5py.name ds' = h5py.name ds.
Proof.
  unfold h5py.resize. destruct (n <? 0); [discriminate|].
  intros [= <-]. reflexivity.
Qed.

Lemma write_direct_name (ds ds' : h5py.dataset Row) source ssel dsel :
  h5py.write_direct ds source ssel dsel = Ok ds' -> h5py.name ds' = h5py.name ds.
Proof.
  unfold h5py.write_direct, h5py.put. intros H.
  apply bind_Ok in H as ([lo hi] & _ & H).
  apply bind_Ok in H as (new & _ & [= <-]). reflexivity.
Qed.

Lemma buffered_flush_name (w w' : DatasetBufferedWriter.t Row) :
  DatasetBufferedWriter.flush w = Ok w' ->
  h5py.name (DatasetBufferedWriter.file_ds w')
  = h5py.name (DatasetBufferedWriter.file_ds w).
Proof.
  unfold DatasetBufferedWriter.flush.
  destruct (negb _); [|intros [= <-]; reflexivity].
  intros H. apply bind_Ok in H as (f1 & H1 & H).
  apply bind_Ok in H as (f2 & H2 & [= <-]).
  apply resize_name in H1. apply write_direct_name in H2.
  unfold DatasetBufferedWriter.file_ds in *. simpl. congruence.
Qed.

(* flush leaves in the array every row the writer has taken *)
Lemma writer_flush_rows (w : DatasetBufferedWriter.t Row)
    (wrt' : DatasetWriter.t Row) :
  consistent w ->
  DatasetWriter.flush (DatasetWriter.Buffered w) = Ok wrt' ->
  h5py.rows (DatasetWriter.file_ds wrt') = contents w
  /\ h5py.name (DatasetWriter.file_ds wrt')
     = h5py.name (DatasetBufferedWriter.file_ds w).
Proof.
  simpl. intros Hc H.
  apply bind_Ok in H as (w' & Hf & [= <-]). simpl.
  split; [|eapply buffered_flush_name; eauto].
  destruct (flush_spec w Hc) as (w'' & Hf' & Hr & _). congruence.
Qed.

(* the loop of Source.close_datasets: writer number dsno is flushed *)
Lemma flush_loop (dss : list (Dataset.t Row)) (k : nat)
    (w w' : list (option (DatasetWriter.t Row))) :
  for_each (zip (List.seq k (length dss)) dss)
    (fun w '(dsno, ds) =>
       let! wrt := getitem w (Z.of_nat dsno) in
       match wrt with
       | None => Raise AttributeError
       | Some wrt =>
           let! wrt' := DatasetWriter.flush wrt in
           setitem w (Z.of_nat dsno) (Some wrt')
       end)
    w = Ok w' ->
  (forall j, (j < k)%nat -> w' !! j = w !! j)
  /\ forall i ds, dss !! i = Some ds ->
       exists wrt wrt',
         w !! (k + i)%nat = Some (Some wrt)
         /\ DatasetWriter.flush wrt = Ok wrt'
         /\ w' !! (k + i)%nat = Some (Some wrt').
Proof.
  revert k w. induction dss as [|ds0 dss IH]; intros k w H.
  - simpl in H. injection H as <-. split; [auto|]. intros i ds Hi. discriminate.
  - simpl in H. apply bind_Ok in H as (w1 & Hstep & H).
    apply IH in H as [Hlow Hrest].
    apply bind_Ok in Hstep as (owrt & Hget & Hstep).
    apply getitem_nat_inv in Hget.
    destruct owrt as [wrt|]; [|discriminate].
    apply bind_Ok in Hstep as (wrt' & Hf & Hset).
    apply setitem_nat_inv in Hset as [-> Hlt].
    split.
    + intros j Hj. rewrite Hlow by lia. apply list_lookup_insert_ne. lia.
    + intros [|i] ds Hi.
      * simpl in Hi. injection Hi as <-. rewrite Nat.add_0_r.
        exists wrt, wrt'. split; [exact Hget|]. split; [exact Hf|].
        rewrite Hlow by lia. apply list_lookup_insert_eq, Hlt.
      * simpl in Hi. destruct (Hrest i ds Hi) as (wrt1 & wrt1' & Hw1 & Hf1 & Hw1').
        replace (k + S i)%nat with (S k + i)%nat by lia.
        exists wrt1, wrt1'. split; [|auto].
        rewrite <- Hw1. symmetry. apply list_lookup_insert_ne. lia.
Qed.

Lemma data_of_elem (srcs : dict (Source.t Row)) k src (dsno : nat) wrt :
  dict_get srcs k = Ok src ->
  Source.file_ds src !! dsno = Some (Some wrt) ->
  DatasetWriter.file_ds wrt ∈ data_of srcs.
Proof.
  intros Hget Hw. unfold data_of.
  apply list_elem_of_bind. exists src. split.
  - apply list_elem_of_fmap. exists wrt. split; [reflexivity|].
    apply list_elem_of_omap. exists (Some wrt). split; [|reflexivity].
    apply list_elem_of_lookup. eauto.
  - apply list_elem_of_fmap. exists (k, src). split; [reflexivity|].
    apply dict_get_elem, Hget.
Qed.

End CloseFile.

(** X13: close loses no staged row.  For every dataset of every source
    that is written through a buffered writer, the file that close puts
    on disk has an array with the name of the dataset's array that
    holds the rows the array had, followed by the rows that were still
    staged in the writer. *)
Theorem close_keeps_staged_rows {Row} (s s' : FileWriterBase.t Row)
    (sname : string) (src : Source.t Row) (dsno : nat) (ds : Dataset.t Row)
    (w : DatasetBufferedWriter.t Row) :
  FileWriterBase.close s = Ok s' ->
  dict_get (FileWriterBase.sources s) sname = Ok src ->
  Source.datasets src !! dsno = Some ds ->
  Source.file_ds src !! dsno = Some (Some (DatasetWriter.Buffered w)) ->
  consistent w ->
  exists f arr,
    FileWriterBase.disk s' = FileWriterBase.disk s ++ [f]
    /\ arr ∈ DATA f
    /\ h5py.name arr = h5py.name (DatasetBufferedWriter.file_ds w)
    /\ h5py.rows arr
       = h5py.rows (DatasetBufferedWriter.file_ds w)
         ++ take (Z.to_nat (DatasetBufferedWriter.nbuf w))
                 (DatasetBufferedWriter._data w).
Proof.
  intros H Hget Hds Hwrt Hc.
  apply close_each in H as [Hrel (f & Hdisk & Hdata)].
  destruct (sources_rel_get_fwd _ _ _ _ _ Hrel Hget)
    as (b & Hgetb & a1 & g & g' & Hclose & Hidx).
  unfold Source.close_datasets in Hclose.
  apply bind_Ok in Hclose as (ws & Hloop & [= <-]).
  unfold Source.enumerate in Hloop.
  apply flush_loop in Hloop as [_ Hloop].
  destruct (Hloop dsno ds Hds) as (wrt0 & wrt' & Hw0 & Hf & Hw').
  simpl in Hw0. rewrite Hwrt in Hw0. injection Hw0 as <-.
  destruct (writer_flush_rows _ _ Hc Hf) as [Hrows Hname].
  apply source_write_index_inv in Hidx as (fi & co & po & ->).
  exists f, (DatasetWriter.file_ds wrt').
  split; [exact Hdisk|]. split; [|auto].
  rewrite Hdata. eapply data_of_elem; [exact Hgetb|]. exact Hw'.
Qed.

Lemma close_keeps_staged_rows_witness :
  exists s0 s s' src w,
    rotating_writer = Ok s0
    /\ for_each [WAdd [("x", [7]); ("v", [1; 2; 3])]%string;
                 WWriteTrain 101 (Some 11)] writer_step s0 = Ok s
    /\ FileWriterBase.close s = Ok s'
    /\ dict_get (FileWriterBase.sources s) "dev:out/data" = Ok src
    /\ Source.datasets src !! 0%nat = Some scalar_instrument
    /\ Source.file_ds src !! 0%nat = Some (Some (DatasetWriter.Buffered w))
    /\ consistent w
    /\ h5py.rows (DatasetBufferedWriter.file_ds w) = []
    /\ take (Z.to_nat (DatasetBufferedWriter.nbuf w))
            (DatasetBufferedWriter._data w) = [1; 2; 3]
    /\ exists f arr,
         FileWriterBase.disk s' = FileWriterBase.disk s ++ [f]
         /\ arr ∈ DATA f
         /\ h5py.name arr = h5py.name (DatasetBufferedWriter.file_ds w)
         /\ h5py.rows arr
            = h5py.rows (DatasetBufferedWriter.file_ds w)
              ++ take (Z.to_nat (DatasetBufferedWriter.nbuf w))
                      (DatasetBufferedWriter._data w).
Proof.
  let r := returned rotating_writer in pose (s0 := r).
  let r := returned (for_each [WAdd [("x", [7]); ("v", [1; 2; 3])]%string;
                               WWriteTrain 101 (Some 11)] writer_step s0) in
  pose (s := r).
  let r := returned (FileWriterBase.close s) in pose (s' := r).
  let r := returned (dict_get (FileWriterBase.sources s) "dev:out/data") in
  pose (src := r).
  let r := eval vm_compute in (Source.file_ds src !! 0%nat) in
  match r with Some (Some (DatasetWriter.Buffered ?x)) => pose (w := x) end.
  assert (FileWriterBase.close s = Ok s') as H1 by (vm_compute; reflexivity).
  assert (dict_get (FileWriterBase.sources s) "dev:out/data" = Ok src)
    as H2 by (vm_compute; reflexivity).
  assert (Source.datasets src !! 0%nat = Some scalar_instrument)
    as H3 by (vm_compute; reflexivity).
  assert (Source.file_ds src !! 0%nat = Some (Some (DatasetWriter.Buffered w)))
    as H4 by (vm_compute; reflexivity).
  assert (consistent w) as H5.
  { vm_compute. repeat split; try reflexivity; intros; discriminate. }
  exists s0, s, s', src, w.
  do 2 (split; [vm_compute; reflexivity|]).
  do 5 (split; [assumption|]).
  do 2 (split; [vm_compute; reflexivity|]).
  exact (close_keeps_staged_rows s s' "dev:out/data" src 0 scalar_instrument w
           H1 H2 H3 H4 H5).
Defined.

(** ** The trains of a session, file after file *)

Section SessionFiles.
Context {Row : Type}.
Import FileWriterBase.
Implicit Types (s : FileWriterBase.t Row).

Lemma at_state_self s :
  wf_sources s -> wf_index s ->
  at_state s (filename s) (_meta s) (trains s) (timestamp s) (flags s)
    (seq s) (disk s).
Proof. intros Hs Hi. repeat split; auto; apply Hs || apply Hi. Qed.

Lemma disk_trains_snoc (dk : list (File Row)) f tr :
  index_rows f "trainId" = Some tr ->
  disk_trains (dk ++ [f]) = disk_trains dk ++ tr.
Proof.
  intros Hf. unfold disk_trains. rewrite bind_app. simpl.
  rewrite Hf. simpl. rewrite app_nil_r. reflexivity.
Qed.

Lemma session_files_add fn meta s kwargs s' tids :
  session_files fn meta s tids -> add s kwargs = Ok s' ->
  session_files fn meta s' tids.
Proof.
  intros (Hs & Hi & Hfn & Hm & Hsq & Hp & Ht & Hnb & Hb) H.
  pose proof (at_add _ _ _ _ _ _ _ _ _ _ (at_state_self s Hs Hi) H)
    as (Hs' & Hi' & Efn & Em & Etr & _ & _ & Esq & Ed).
  unfold session_files. rewrite Etr, Esq, Ed.
  repeat (split; [assumption || congruence|]). assumption.
Qed.

Lemma session_files_add_value fn meta s name value s' tids :
  session_files fn meta s tids -> add_value s name value = Ok s' ->
  session_files fn meta s' tids.
Proof.
  intros HK H. apply (session_files_add _ _ s [(name, value)]); [exact HK|].
  unfold add. simpl. rewrite H. reflexivity.
Qed.

Lemma session_files_write_train fn meta s tid ts s' tids :
  (forall i j, fn i = fn j -> i = j) ->
  session_files fn meta s tids -> write_train s tid ts = Ok s' ->
  session_files fn meta s' (tids ++ [tid]).
Proof.
  intros Hinj (Hs & Hi & Hfn & Hm & Hsq & Hp & Ht & Hnb & Hb) H.
  pose proof (at_state_self s Hs Hi) as Hat. rewrite Hfn, Hm in Hat.
  pose proof (len_nonneg (disk s)) as Hdk.
  destruct (Options.break_into_sequence meta
            && (Options.max_train_per_file meta <=? len (trains s))) eqn:Hdue.
  - destruct (at_train_rotate _ _ _ _ _ _ _ _ _ _ _ Hat Hdue H)
      as (f & tsv & _ & (Hpf & Hr1 & _) & Hat').
    destruct Hat' as (Hs' & Hi' & Efn & Em & Etr & _ & _ & Esq & Ed).
    apply andb_prop in Hdue as [Hbreak Hfull]. apply Z.leb_le in Hfull.
    assert (Forall (fun f0 => path f0 ≠ fn (seq s + 1)) (disk s ++ [f])) as Hkeep.
    { apply Forall_app. split.
      - eapply Forall_impl; [exact Hp|]. simpl.
        intros f0 (i & Hi0 & ->) He. apply Hinj in He. lia.
      - repeat constructor. rewrite Hpf. intros He. apply Hinj in He. lia. }
    rewrite filter_other_paths in Ed by exact Hkeep.
    unfold session_files. rewrite Etr, Esq, Ed.
    repeat (split; [assumption|]).
    split; [rewrite len_app; unfold len at 2; simpl; lia|].
    split.
    { apply Forall_app. split.
      - eapply Forall_impl; [exact Hp|]. simpl.
        intros f0 (i & Hi0 & Hf0). exists i. split; [lia|exact Hf0].
      - repeat constructor. exists (seq s). split; [lia|exact Hpf]. }
    split; [rewrite (disk_trains_snoc _ _ _ Hr1), <- Ht, <- app_assoc; reflexivity|].
    split; [congruence|].
    intros _ Hmax. destruct (Hb Hbreak Hmax) as [Hle Hall].
    split; [unfold len; simpl; lia|].
    apply Forall_app. split; [exact Hall|].
    repeat constructor. exists (trains s). split; [exact Hr1|lia].
  - destruct (at_train_keep _ _ _ _ _ _ _ _ _ _ _ Hat Hdue H)
      as (Hs' & Hi' & Efn & Em & Etr & _ & _ & Esq & Ed).
    unfold session_files. rewrite Etr, Esq, Ed.
    repeat (split; [assumption|]).
    split; [rewrite app_assoc, Ht; reflexivity|].
    split; [exact Hnb|].
    intros Hbreak Hmax. destruct (Hb Hbreak Hmax) as [Hle Hall].
    split; [|exact Hall].
    rewrite Hbreak in Hdue. simpl in Hdue. apply Z.leb_gt in Hdue.
    rewrite len_app. unfold len at 2. simpl. lia.
Qed.

Lemma train_ids_cons (c : writer_call Row) calls :
  train_ids (c :: calls)
  = match c with WWriteTrain tid _ => [tid] | _ => [] end ++ train_ids calls.
Proof. destruct c; reflexivity. Qed.

Lemma session_files_run fn meta calls s s' tids :
  (forall i j, fn i = fn j -> i = j) ->
  session_files fn meta s tids -> for_each calls writer_step s = Ok s' ->
  session_files fn meta s' (tids ++ train_ids calls).
Proof.
  intros Hinj. revert s tids.
  induction calls as [|c calls IH]; intros s tids HK H; simpl in H.
  - injection H as <-. unfold train_ids. simpl. rewrite app_nil_r. exact HK.
  - apply bind_Ok in H as (s1 & H1 & H). rewrite train_ids_cons.
    rewrite app_assoc. apply (IH s1); [|exact H].
    destruct c as [name value|kwargs|tid ts]; simpl in *.
    + rewrite app_nil_r. eapply session_files_add_value; eauto.
    + rewrite app_nil_r. eapply session_files_add; eauto.
    + eapply session_files_write_train; eauto.
Qed.

Lemma session_files_init los dss meta fn s :
  init los dss meta fn [] = Ok s -> session_files fn meta s [].
Proof.
  intros H. apply at_init in H
    as (Hs & Hi & Hfn & Hm & Htr & _ & _ & Hsq & Hd).
  unfold session_files. rewrite Htr, Hsq, Hd.
  repeat (split; [assumption || reflexivity|]).
  split; [constructor|]. split; [reflexivity|]. split; [reflexivity|].
  intros _ Hmax. split; [unfold len; simpl; lia|constructor].
Qed.

End SessionFiles.

Lemma seq_name_inj i j : seq_name i = seq_name j -> i = j.
Proof.
  unfold seq_name. intros H.
  apply (inj (String.app "run-")) in H. apply (inj pretty) in H. exact H.
Qed.

(** X14: a session of a new writer on an empty disk whose file names
    differ from one sequence number to the next.  The train ids in the
    closed files, file after file, followed by those of the open file
    are the ids of the write_train calls in call order; the sequence
    number is the number of closed files; without
    [break_into_sequence] no file is closed; with it (and
    [max_train_per_file >= 1]) the open file never holds more than
    [max_train_per_file] trains and every closed file holds exactly
    that many.  A final close puts the remaining trains on disk. *)
Theorem session_trains_in_order {Row}
    (los : list (string * string)) (dss : dict (Dataset.t Row))
    (meta : Options.t) (fn : Z -> string)
    (calls : list (writer_call Row)) (s0 s : FileWriterBase.t Row) :
  (forall i j, fn i = fn j -> i = j) ->
  FileWriterBase.init los dss meta fn [] = Ok s0 ->
  for_each calls writer_step s0 = Ok s ->
  disk_trains (FileWriterBase.disk s) ++ FileWriterBase.trains s
  = train_ids calls
  /\ FileWriterBase.seq s = len (FileWriterBase.disk s)
  /\ (Options.break_into_sequence meta = false -> FileWriterBase.disk s = [])
  /\ (Options.break_into_sequence meta = true ->
      1 <= Options.max_train_per_file meta ->
      len (FileWriterBase.trains s) <= Options.max_train_per_file meta
      /\ Forall (holds_trains (Options.max_train_per_file meta))
           (FileWriterBase.disk s))
  /\ forall s', FileWriterBase.close s = Ok s' ->
       disk_trains (FileWriterBase.disk s') = train_ids calls.
Proof.
  intros Hinj Hinit Hrun.
  pose proof (session_files_run _ _ _ _ _ _ Hinj
                (session_files_init _ _ _ _ _ Hinit) Hrun)
    as (Hs & Hi & Hfn & Hm & Hsq & Hp & Ht & Hnb & Hb).
  simpl in Ht. repeat (split; [assumption|]).
  intros s' Hc. apply close_index in Hc
    as (f & tsv & _ & _ & Hr & _ & _ & Hd); [|exact Hi].
  rewrite Hd, (disk_trains_snoc _ _ _ Hr). exact Ht.
Qed.

Lemma session_trains_in_order_witness :
  exists s0 s s',
    sequence_writer = Ok s0
    /\ for_each (session_calls ++ [WWriteTrain 103 (Some 13)]) writer_step s0 = Ok s
    /\ FileWriterBase.close s = Ok s'
    /\ path <$> FileWriterBase.disk s' = ["run-0"; "run-1"]%string
    /\ disk_trains (FileWriterBase.disk s') = [101; 102; 103]
    /\ disk_trains (FileWriterBase.disk s) ++ FileWriterBase.trains s
       = train_ids (session_calls ++ [WWriteTrain 103 (Some 13)])
    /\ FileWriterBase.seq s = len (FileWriterBase.disk s)
    /\ (Options.break_into_sequence rotating_options = false ->
        FileWriterBase.disk s = [])
    /\ (Options.break_into_sequence rotating_options = true ->
        1 <= Options.max_train_per_file rotating_options ->
        len (FileWriterBase.trains s) <= Options.max_train_per_file rotating_options
        /\ Forall (holds_trains (Options.max_train_per_file rotating_options))
             (FileWriterBase.disk s))
    /\ forall s', FileWriterBase.close s = Ok s' ->
         disk_trains (FileWriterBase.disk s')
         = train_ids (session_calls ++ [WWriteTrain 103 (Some 13)]).
Proof.
  let r := returned sequence_writer in pose (s0 := r).
  let r := returned (for_each (session_calls ++ [WWriteTrain 103 (Some 13)])
                       writer_step s0) in pose (s := r).
  let r := returned (FileWriterBase.close s) in pose (s' := r).
  assert (sequence_writer = Ok s0) as H0 by (vm_compute; reflexivity).
  assert (for_each (session_calls ++ [WWriteTrain 103 (Some 13)]) writer_step s0
          = Ok s) as H1 by (vm_compute; reflexivity).
  exists s0, s, s'.
  do 2 (split; [assumption|]).
  do 3 (split; [vm_compute; reflexivity|]).
  exact (session_trains_in_order _ _ _ _ _ s0 s seq_name_inj H0 H1).
Defined.

(** ** Submitting values *)

(** X15: add_value stages the value under the source and key of the
    dataset it names, where write_train will look it up; it replaces
    what was staged there and leaves every other staged field, the
    train index and the files as they were. *)
Theorem add_value_stages_value {Row} (s s' : FileWriterBase.t Row)
    (name : string) (value : list Row) :
  wf_sources s ->
  FileWriterBase.add_value s name value = Ok s' ->
  exists ds,
    dict_get (FileWriterBase.datasets s) name = Ok ds
    /\ staged_data s' (Dataset.source_name ds) !! Dataset.key ds = Some value
    /\ (forall sname key,
          ~ (Dataset.source_name ds = sname /\ Dataset.key ds = key) ->
          staged_data s' sname !! key = staged_data s sname !! key)
    /\ FileWriterBase.trains s' = FileWriterBase.trains s
    /\ FileWriterBase.disk s' = FileWriterBase.disk s
    /\ FileWriterBase._file s' = FileWriterBase._file s.
Proof.
  intros Hwf H.
  destruct (add_value_staged _ _ _ _ "" "" Hwf H) as (ds & Hds & _).
  exists ds. split; [exact Hds|]. split; [|split].
  - destruct (add_value_staged _ _ _ _ (Dataset.source_name ds) (Dataset.key ds)
                Hwf H) as (ds' & Hds' & Hst).
    assert (ds' = ds) as -> by congruence.
    rewrite Hst, decide_True by auto. reflexivity.
  - intros sname key Hne.
    destruct (add_value_staged _ _ _ _ sname key Hwf H) as (ds' & Hds' & Hst).
    assert (ds' = ds) as -> by congruence.
    rewrite Hst, decide_False by exact Hne. reflexivity.
  - apply add_value_frame in H as (? & _ & _ & _ & ? & ? & _). auto.
Qed.

Lemma add_value_stages_value_witness :
  exists s s',
    rotating_writer = Ok s
    /\ wf_sources s
    /\ FileWriterBase.add_value s "v" [1; 2; 3] = Ok s'
    /\ staged_data s' "dev:out/data" !! "value"%string = Some [1; 2; 3]
    /\ exists ds,
         dict_get (FileWriterBase.datasets s) "v" = Ok ds
         /\ staged_data s' (Dataset.source_name ds) !! Dataset.key ds
            = Some [1; 2; 3]
         /\ (forall sname key,
               ~ (Dataset.source_name ds = sname /\ Dataset.key ds = key) ->
               staged_data s' sname !! key = staged_data s sname !! key)
         /\ FileWriterBase.trains s' = FileWriterBase.trains s
         /\ FileWriterBase.disk s' = FileWriterBase.disk s
         /\ FileWriterBase._file s' = FileWriterBase._file s.
Proof.
  let r := returned rotating_writer in pose (s := r).
  let r := returned (FileWriterBase.add_value s "v" [1; 2; 3]) in pose (s' := r).
  assert (wf_sources s) as Hwf.
  { unfold wf_sources, wf_dict. apply (bool_decide_unpack _).
    vm_compute. reflexivity. }
  assert (FileWriterBase.add_value s "v" [1; 2; 3] = Ok s')
    as H1 by (vm_compute; reflexivity).
  exists s, s'.
  split; [vm_compute; reflexivity|]. do 2 (split; [assumption|]).
  split; [vm_compute; reflexivity|].
  exact (add_value_stages_value s s' "v" [1; 2; 3] Hwf H1).
Defined.

(** X16: what add_value rejects.  A name that is no dataset of the
    class is a KeyError.  A value for a control source must have one
    entry, otherwise ValueError.  When the source already expects
    [nrec <> 0] entries for this train and the value has a different
    number, the call fails with RuntimeError, unless the field is the
    only one staged for the source; in that case the value is accepted
    and the source goes on expecting the old number of entries. *)
Theorem add_value_checks {Row} (s : FileWriterBase.t Row)
    (name : string) (value : list Row) (ds : Dataset.t Row)
    (src : Source.t Row) :
  let sole :=
    size (staged_data s (Source.name src)) = 1%nat
    /\ is_Some (staged_data s (Source.name src) !! Dataset.key ds) in
  (forall e, dict_get (FileWriterBase.datasets s) name = Raise e ->
             FileWriterBase.add_value s name value = Raise KeyError)
  /\ (dict_get (FileWriterBase.datasets s) name = Ok ds ->
      dict_get (FileWriterBase.sources s) (Dataset.source_name ds) = Ok src ->
      (Source.stype src = 0 -> len value <> 1 ->
       FileWriterBase.add_value s name value = Raise ValueError)
      /\ ((Source.stype src = 0 -> len value = 1) ->
          Source.nrec src <> 0 -> len value <> Source.nrec src ->
          (~ sole -> FileWriterBase.add_value s name value = Raise RuntimeError)
          /\ (sole ->
              exists s',
                FileWriterBase.add_value s name value = Ok s'
                /\ dict_get (FileWriterBase.sources s') (Dataset.source_name ds)
                   = Ok src))).
Proof.
  intros sole. split.
  - intros e He. unfold FileWriterBase.add_value. rewrite He. simpl.
    f_equal. clear -He. induction (FileWriterBase.datasets s) as [|[k v] d IH];
      simpl in He; [congruence|].
    destruct (decide (k = name)); [discriminate|auto].
  - intros Hds Hsrc. unfold FileWriterBase.add_value. rewrite Hds. simpl.
    rewrite Hsrc. simpl. split.
    + intros Hs Hlen. rewrite Hs. simpl.
      destruct (Z.eqb_spec (len value) 1); [contradiction|reflexivity].
    + intros Hone Hnz Hlen.
      replace ((Source.stype src =? 0) && negb (len value =? 1)) with false.
      2:{ symmetry. destruct (Z.eqb_spec (Source.stype src) 0); [|reflexivity].
          simpl. rewrite (Hone e). reflexivity. }
      destruct (Z.eqb_spec (Source.nrec src) 0); [contradiction|].
      destruct (Z.eqb_spec (Source.nrec src) (len value)); [congruence|].
      simpl. fold (staged_data s (Source.name src)).
      assert (negb (Z.of_nat (size (staged_data s (Source.name src))) =? 1)
              || bool_decide (staged_data s (Source.name src) !! Dataset.key ds
                              = None)
              = true <-> ~ sole) as Hsole.
      { unfold sole. rewrite orb_true_iff, negb_true_iff, Z.eqb_neq.
        rewrite bool_decide_eq_true, <- not_eq_None_Some. split.
        - intros [Hsz|Hk] [Hsz' Hk']; [lia|contradiction].
        - intros Hno.
          destruct (decide (size (staged_data s (Source.name src)) = 1%nat));
            [|left; lia].
          right.
          destruct (staged_data s (Source.name src) !! Dataset.key ds) eqn:Hk;
            [|reflexivity].
          exfalso. apply Hno. split; [assumption|congruence]. }
      split.
      * intros Hno. apply Hsole in Hno. rewrite Hno. reflexivity.
      * intros Hyes.
        destruct (negb _ || bool_decide _) eqn:Hb.
        { destruct (proj1 Hsole eq_refl Hyes). }
        simpl. eexists. split; [reflexivity|]. simpl.
        rewrite dict_get_set_eq. destruct src; reflexivity.
Qed.

(** ** The shape check of a submitted value *)

Lemma broadcast_rev_length a b r :
  broadcast_rev a b = Ok r -> length r = Nat.max (length a) (length b).
Proof.
  revert b r. induction a as [|x a IH]; intros [|y b] r; simpl.
  - intros [= <-]. reflexivity.
  - intros [= <-]. reflexivity.
  - intros [= <-]. reflexivity.
  - intros H. apply bind_Ok in H as (r' & Hr & H). apply IH in Hr.
    destruct (x =? y); [|destruct (x =? 1); [|destruct (y =? 1); [|discriminate]]];
      injection H as <-; simpl; rewrite Hr; reflexivity.
Qed.

Lemma broadcast_rev_prefix r t : broadcast_rev r (r ++ t) = Ok (r ++ t).
Proof.
  induction r as [|x r IH]; simpl; [reflexivity|].
  rewrite IH. simpl. rewrite Z.eqb_refl. reflexivity.
Qed.

Lemma broadcast_rev_lead r n : broadcast_rev (r ++ [n]) (r ++ [1]) = Ok (r ++ [n]).
Proof.
  induction r as [|x r IH]; simpl.
  - destruct (Z.eqb_spec n 1) as [->|Hne]; [reflexivity|]. reflexivity.
  - rewrite IH. simpl. rewrite Z.eqb_refl. reflexivity.
Qed.

Lemma check_value_rows n entry_shape shape :
  broadcast_shapes shape (1 :: entry_shape) = Ok (n :: entry_shape) ->
  check_value shape entry_shape = Ok n.
Proof.
  intros H. unfold check_value. rewrite H. simpl.
  rewrite decide_False.
  2:{ intros He. apply (f_equal length) in He. simpl in He. lia. }
  rewrite getslice_suffix by lia. simpl. rewrite drop_0.
  rewrite decide_True by reflexivity. reflexivity.
Qed.

(** X17: the shape check of add_value.  A value with the shape of one
    entry, and a scalar, count as one entry; a value of shape
    [(n,) + entry_shape] counts as [n] entries; a value with more axes
    than [1 + len(entry_shape)] is rejected.  The broadcast shape always
    has more axes than [entry_shape], so the first test of the check
    ([shape == entry_shape]) never holds. *)
Theorem check_value_counts_entries (entry_shape : list Z) :
  check_value entry_shape entry_shape = Ok 1
  /\ check_value [] entry_shape = Ok 1
  /\ (forall n, check_value (n :: entry_shape) entry_shape = Ok n)
  /\ (forall value_shape nrec,
        check_value value_shape entry_shape = Ok nrec ->
        (length value_shape <= S (length entry_shape))%nat)
  /\ (forall value_shape shape,
        broadcast_shapes value_shape (1 :: entry_shape) = Ok shape ->
        shape <> entry_shape).
Proof.
  split; [|split; [|split; [|split]]].
  - apply check_value_rows. unfold broadcast_shapes.
    rewrite reverse_cons, broadcast_rev_prefix. simpl.
    rewrite reverse_app, reverse_involutive. reflexivity.
  - apply check_value_rows. unfold broadcast_shapes.
    rewrite reverse_cons. simpl.
    rewrite reverse_app, reverse_involutive. reflexivity.
  - intros n. apply check_value_rows. unfold broadcast_shapes.
    rewrite !reverse_cons, broadcast_rev_lead. simpl.
    rewrite reverse_app, reverse_involutive. reflexivity.
  - intros value_shape nrec H. unfold check_value in H.
    apply bind_Ok in H as (shape & Hs & H).
    unfold broadcast_shapes in Hs. apply bind_Ok in Hs as (r & Hr & [= <-]).
    apply broadcast_rev_length in Hr.
    rewrite !length_reverse in Hr. simpl in Hr.
    destruct (decide (reverse r = entry_shape)) as [He|_].
    { apply (f_equal length) in He. rewrite length_reverse in He. lia. }
    destruct (decide (getslice (reverse r) (Slice (Some 1) None) = entry_shape))
      as [He|_]; [|discriminate].
    rewrite getslice_suffix in He by lia.
    apply (f_equal length) in He.
    rewrite length_drop, length_reverse in He. simpl in He. lia.
  - intros value_shape shape Hs He.
    unfold broadcast_shapes in Hs. apply bind_Ok in Hs as (r & Hr & [= <-]).
    apply broadcast_rev_length in Hr.
    rewrite !length_reverse in Hr. simpl in Hr.
    apply (f_equal length) in He. rewrite length_reverse in He. lia.
Qed.

(** ** Options *)

Section OptionsMeta.
Implicit Types (d : list (string * attr_value)) (self : Options.t).

Lemma filter_ext_in {A} (P Q : A -> Prop) `{!forall x, Decision (P x)}
    `{!forall x, Decision (Q x)} (l : list A) :
  (forall x, x ∈ l -> P x <-> Q x) -> filter P l = filter Q l.
Proof.
  induction l as [|x l IH]; intros Hext; [reflexivity|].
  rewrite !filter_cons.
  assert (filter P l = filter Q l) as ->.
  { apply IH. intros y Hy. apply Hext. apply elem_of_cons. auto. }
  destruct (decide (P x)) as [Hp|Hp], (decide (Q x)) as [Hq|Hq];
    try reflexivity; exfalso;
    pose proof (Hext x ltac:(apply elem_of_cons; auto)); tauto.
Qed.

Lemma dict_get_error {V} (dv : list (string * V)) k e : dict_get dv k = Raise e -> e = KeyError.
Proof.
  induction dv as [|[k1 v] dv IH]; simpl; [congruence|].
  destruct (decide (k1 = k)); [discriminate|exact IH].
Qed.

Lemma dict_get_absent {V} (dv : list (string * V)) k e :
  dict_get dv k = Raise e -> Forall (fun kv => kv.1 ≠ k) dv.
Proof.
  induction dv as [|[k1 v] dv IH]; simpl; [constructor|].
  destruct (decide (k1 = k)); [discriminate|]. intros Hg. constructor; auto.
Qed.

Lemma dict_del_absent {V} (dv : list (string * V)) k e :
  dict_get dv k = Raise e -> dict_del dv k = dv.
Proof.
  intros Hg. apply dict_get_absent in Hg. unfold dict_del.
  induction Hg as [|x l Hx _ IH]; [reflexivity|].
  rewrite filter_cons, IH. destruct (decide (x.1 ≠ k)); [reflexivity|contradiction].
Qed.

Lemma dict_get_filter {V} (P : string -> Prop) `{!forall k, Decision (P k)}
    (dv : list (string * V)) k :
  P k -> dict_get (filter (fun kv => P kv.1) dv) k = dict_get dv k.
Proof.
  intros Hk. induction dv as [|[k1 v] dv IH]; [reflexivity|].
  rewrite filter_cons. simpl. destruct (decide (P k1)) as [Hp|Hp]; simpl.
  - rewrite IH. reflexivity.
  - rewrite IH. destruct (decide (k1 = k)) as [->|]; [contradiction|reflexivity].
Qed.

(* the loop that drops the private attributes *)
Lemma strip_loop (names : list string) d :
  foldl (fun meta_attrs attr_name =>
           if startswith_underscore attr_name
           then dict_del meta_attrs attr_name else meta_attrs)
        d names
  = filter (fun kv => kv.1 ∈ names -> startswith_underscore kv.1 = false) d.
Proof.
  revert d. induction names as [|n names IH]; intros d; simpl.
  - symmetry. induction d as [|x d IHd]; [reflexivity|].
    rewrite filter_cons, IHd.
    match goal with |- context [decide ?P] => destruct (decide P) as [|Hno] end;
      [reflexivity|].
    exfalso. apply Hno. intros Hx. inversion Hx.
  - rewrite IH. destruct (startswith_underscore n) eqn:Hn.
    + unfold dict_del. rewrite list_filter_filter. apply filter_ext_in.
      intros [k v] _. simpl. rewrite elem_of_cons. split.
      * intros [Hk Hne] [->|Hin]; [contradiction|auto].
      * intros Hk. split; [auto|]. intros ->.
        specialize (Hk (or_introl eq_refl)). congruence.
    + apply filter_ext_in. intros [k v] _. simpl. rewrite elem_of_cons. split.
      * intros Hk [->|Hin]; auto.
      * auto.
Qed.

Lemma strip_all d :
  foldl (fun meta_attrs attr_name =>
           if startswith_underscore attr_name
           then dict_del meta_attrs attr_name else meta_attrs)
        d d.*1
  = filter (fun kv => startswith_underscore kv.1 = false) d.
Proof.
  rewrite strip_loop. apply filter_ext_in. intros kv Hkv. split; [|auto].
  intros Hk. apply Hk. apply list_elem_of_fmap. eauto.
Qed.

Lemma dict_get_del_ne {V} (dv : list (string * V)) n m :
  m ≠ n -> dict_get (dict_del dv n) m = dict_get dv m.
Proof. intros Hne. exact (dict_get_filter (fun k => k ≠ n) dv m Hne). Qed.

Lemma dict_get_public {V} (dv : list (string * V)) k :
  startswith_underscore k = false ->
  dict_get (filter (fun kv => startswith_underscore kv.1 = false) dv) k
  = dict_get dv k.
Proof.
  intros Hk.
  exact (dict_get_filter (fun k => startswith_underscore k = false) dv k Hk).
Qed.

Lemma set_options_del (names : list string) self d n :
  n ∉ names ->
  foldl (fun self attr_name =>
           match dict_get (dict_del d n) attr_name with
           | Ok v => Options_setattr self attr_name v
           | Raise _ => self
           end) self names
  = foldl (fun self attr_name =>
             match dict_get d attr_name with
             | Ok v => Options_setattr self attr_name v
             | Raise _ => self
             end) self names.
Proof.
  revert self. induction names as [|m names IH]; intros self Hn; [reflexivity|].
  simpl. rewrite not_elem_of_cons in Hn. destruct Hn as [Hne Hn].
  rewrite dict_get_del_ne by congruence.
  apply IH, Hn.
Qed.

(* the loop over NAMES: each name that is an attribute sets its option
   and is removed *)
Lemma override_loop (names : list string) self d :
  NoDup names ->
  foldl (fun '(self, meta_attrs) attr_name =>
           match dict_get meta_attrs attr_name with
           | Ok v => (Options_setattr self attr_name v,
                      dict_del meta_attrs attr_name)
           | Raise _ => (self, meta_attrs)
           end)
        (self, d) names
  = (foldl (fun self attr_name =>
              match dict_get d attr_name with
              | Ok v => Options_setattr self attr_name v
              | Raise _ => self
              end) self names,
     filter (fun kv => kv.1 ∉ names) d).
Proof.
  revert self d. induction names as [|n names IH]; intros self d Hnd; simpl.
  - f_equal. symmetry. induction d as [|x d IHd]; [reflexivity|].
    rewrite filter_cons, IHd.
    match goal with |- context [decide ?P] => destruct (decide P) as [|Hno] end;
      [reflexivity|].
    exfalso. apply Hno. intros Hx. inversion Hx.
  - apply NoDup_cons in Hnd as [Hn Hnd].
    destruct (dict_get d n) as [v|e] eqn:Hg; rewrite IH by exact Hnd; f_equal.
    + apply set_options_del, Hn.
    + unfold dict_del. rewrite list_filter_filter. apply filter_ext_in.
      intros [k v'] _. simpl. rewrite not_elem_of_cons. tauto.
    + apply filter_ext_in. intros kv Hkv. rewrite not_elem_of_cons.
      apply dict_get_absent in Hg. rewrite Forall_forall in Hg.
      specialize (Hg kv Hkv). tauto.
Qed.

Lemma Options_NAMES_NoDup : NoDup Options_NAMES.
Proof. apply (bool_decide_unpack _). reflexivity. Qed.

Lemma Options_copy_base (base : Options.t) :
  Options_copy Options.default (Some base) = Ok base.
Proof. destruct base. reflexivity. Qed.

Lemma filter_nil_Forall {A} (P : A -> Prop) `{!forall x, Decision (P x)} (l : list A) :
  filter P l = [] <-> Forall (fun x => ~ P x) l.
Proof.
  induction l as [|x l IH]; [split; [constructor|reflexivity]|].
  rewrite filter_cons, Forall_cons. destruct (decide (P x)).
  - split; [discriminate|tauto].
  - tauto.
Qed.

(* override_defaults when meta is a class *)
Lemma override_defaults_spec self (attrs : list (string * attr_value)) :
  Options_override_defaults self (Some attrs)
  = if decide (Forall (fun kv => startswith_underscore kv.1 = true
                                 \/ kv.1 ∈ Options_NAMES) attrs)
    then Ok (foldl (fun self attr_name =>
                      match dict_get attrs attr_name with
                      | Ok v => Options_setattr self attr_name v
                      | Raise _ => self
                      end) self Options_NAMES)
    else Raise TypeError.
Proof.
  unfold Options_override_defaults.
  rewrite strip_all, (override_loop _ _ _ Options_NAMES_NoDup).
  set (pub := filter (fun kv => startswith_underscore kv.1 = false) attrs).
  assert (filter (fun kv => kv.1 ∉ Options_NAMES) pub = []
          <-> Forall (fun kv => startswith_underscore kv.1 = true
                                \/ kv.1 ∈ Options_NAMES) attrs) as Hnil.
  { rewrite filter_nil_Forall. unfold pub. rewrite !Forall_forall. split.
    - intros Hall kv Hkv.
      destruct (startswith_underscore kv.1) eqn:Hu; [auto|]. right.
      destruct (decide (kv.1 ∈ Options_NAMES)) as [|Hno]; [assumption|].
      exfalso. apply (Hall kv); [|exact Hno].
      apply list_elem_of_filter. auto.
    - intros Hall kv Hkv Hno. apply list_elem_of_filter in Hkv as [Hu Hkv].
      destruct (Hall kv Hkv) as [Hu'|Hin]; [congruence|contradiction]. }
  assert (foldl (fun self attr_name =>
                   match dict_get pub attr_name with
                   | Ok v => Options_setattr self attr_name v
                   | Raise _ => self
                   end) self Options_NAMES
          = foldl (fun self attr_name =>
                     match dict_get attrs attr_name with
                     | Ok v => Options_setattr self attr_name v
                     | Raise _ => self
                     end) self Options_NAMES) as ->.
  { unfold pub. simpl. rewrite !dict_get_public by reflexivity. reflexivity. }
  destruct (decide _) as [Hall|Hno].
  - apply Hnil in Hall. rewrite Hall. reflexivity.
  - destruct (filter _ pub) eqn:Hf; [|reflexivity].
    exfalso. apply Hno, Hnil. reflexivity.
Qed.

End OptionsMeta.

(** X18: the options of a class.  Each option is the attribute of that
    name of class Meta if Meta has one, otherwise the option of the base
    class if there is one, otherwise the default (500 trains per file,
    no sequence files, no warning on missing data, class attributes
    interface and buffering on). *)
Theorem options_from_meta (meta : option (dict attr_value))
    (base : option Options.t) (o : Options.t) :
  Options_init meta base = Ok o ->
  let b := default Options.default base in
  o = Options.Build
        (as_int (meta_or meta "max_train_per_file"
                   (AInt (Options.max_train_per_file b))))
        (as_bool (meta_or meta "break_into_sequence"
                    (ABool (Options.break_into_sequence b))))
        (as_bool (meta_or meta "warn_on_missing_data"
                    (ABool (Options.warn_on_missing_data b))))
        (as_bool (meta_or meta "class_attrs_interface"
                    (ABool (Options.class_attrs_interface b))))
        (as_bool (meta_or meta "buffering"
                    (ABool (Options.buffering b)))).
Proof.
  intros H b. unfold Options_init in H.
  assert (Options_copy Options.default base = Ok b) as Hcopy.
  { unfold b. destruct base as [base|]; [apply Options_copy_base|reflexivity]. }
  rewrite Hcopy in H. simpl in H.
  destruct meta as [attrs|].
  - rewrite override_defaults_spec in H.
    destruct (decide _); [|discriminate]. injection H as <-.
    unfold meta_or. simpl.
    destruct (dict_get attrs "max_train_per_file");
      destruct (dict_get attrs "break_into_sequence");
      destruct (dict_get attrs "warn_on_missing_data");
      destruct (dict_get attrs "class_attrs_interface");
      destruct (dict_get attrs "buffering");
      destruct b; reflexivity.
  - simpl in H. injection H as <-. destruct b. reflexivity.
Qed.

Lemma options_from_meta_witness :
  Options_init (Some sample_meta) None = Ok (Options.Build 10 true false true true)
  /\ Options.Build 10 true false true true
     = Options.Build
         (as_int (meta_or (Some sample_meta) "max_train_per_file" (AInt 500)))
         (as_bool (meta_or (Some sample_meta) "break_into_sequence" (ABool false)))
         (as_bool (meta_or (Some sample_meta) "warn_on_missing_data" (ABool false)))
         (as_bool (meta_or (Some sample_meta) "class_attrs_interface" (ABool true)))
         (as_bool (meta_or (Some sample_meta) "buffering" (ABool true))).
Proof.
  assert (Options_init (Some sample_meta) None
          = Ok (Options.Build 10 true false true true))
    as H by (vm_compute; reflexivity).
  split; [exact H|].
  exact (options_from_meta (Some sample_meta) None _ H).
Defined.

(** X19: class Meta may only have the five option names as public
    attributes.  Options(meta, base) returns exactly when every
    attribute of Meta either starts with an underscore or is one of the
    option names; any other attribute makes it fail with a TypeError. *)
Theorem options_reject_unknown_attribute (attrs : dict attr_value)
    (base : option Options.t) :
  let allowed :=
    Forall (fun kv => startswith_underscore kv.1 = true
                      \/ kv.1 ∈ Options_NAMES) attrs in
  (allowed -> exists o, Options_init (Some attrs) base = Ok o)
  /\ (~ allowed -> Options_init (Some attrs) base = Raise TypeError).
Proof.
  intros allowed. unfold Options_init.
  assert (exists b, Options_copy Options.default base = Ok b) as [b ->].
  { destruct base as [base|]; [exists base; apply Options_copy_base|].
    eexists. reflexivity. }
  cbv [bind]. rewrite override_defaults_spec. fold allowed.
  destruct (decide allowed) as [Hyes|Hno]; split; intros H;
    try contradiction; eauto.
Qed.

(** ** A new writer can be created *)

Section InitReturns.
Context {Row : Type}.
Import FileWriterBase.
Implicit Types (s : FileWriterBase.t Row).













End InitReturns.



(** ** What the constructor needs *)

Section InitNeeds.
Context {Row : Type}.
Import FileWriterBase.

Lemma SECTION_index_inv sect stype :
  SECTION_index sect = Ok stype -> sect ∈ @Source.SECTION.
Proof.
  unfold SECTION_index.
  destruct (list_find _ _) as [[i x]|] eqn:Hf; [|discriminate].
  intros _. apply list_find_Some in Hf as (Hi & -> & _).
  eapply list_elem_of_lookup_2, Hi.
Qed.

Lemma dict_get_set_inv {V} (d : dict V) k v n w :
  dict_get (dict_set d k v) n = Ok w -> n = k \/ dict_get d n = Ok w.
Proof.
  destruct (decide (k = n)) as [->|Hne]; [auto|].
  rewrite dict_get_set_ne by exact Hne. auto.
Qed.

Lemma init_sources_needs (los : list (string * string))
    (acc srcs : dict (Source.t Row)) :
  for_each los
    (fun srcs '(sect, src_name) =>
       let! stype := SECTION_index sect in
       let! src := Source.init src_name (Some stype) in
       Ok (dict_set srcs src_name src))
    acc = Ok srcs ->
  Forall (fun x => x.1 ∈ @Source.SECTION) los
  /\ forall n v, dict_get srcs n = Ok v ->
                 n ∈ los.*2 \/ exists v', dict_get acc n = Ok v'.
Proof.
  revert acc. induction los as [|[sect name] los IH]; intros acc H; simpl in H.
  - injection H as <-. split; [constructor|]. eauto.
  - apply bind_Ok in H as (acc1 & Hstep & H).
    apply bind_Ok in Hstep as (stype & Hs & Hstep).
    apply bind_Ok in Hstep as (src & _ & [= <-]).
    apply IH in H as [Hall Hkeys]. split.
    + constructor; [eapply SECTION_index_inv, Hs|exact Hall].
    + intros n v Hn. destruct (Hkeys n v Hn) as [Hin|[v' Hv']].
      * left. simpl. apply elem_of_cons. auto.
      * apply dict_get_set_inv in Hv' as [->|Hv'].
        -- left. simpl. apply elem_of_cons. auto.
        -- eauto.
Qed.

Lemma init_datasets_needs (dss : dict (Dataset.t Row))
    (acc srcs : dict (Source.t Row)) :
  for_each dss
    (fun srcs '(dsname, ds) =>
       let! src := dict_get srcs (Dataset.source_name ds) in
       Ok (dict_set srcs (Dataset.source_name ds) (Source.add src ds)))
    acc = Ok srcs ->
  Forall (fun x => exists v, dict_get acc (Dataset.source_name x.2) = Ok v) dss.
Proof.
  revert acc. induction dss as [|[dsname ds] dss IH]; intros acc H; simpl in H.
  - constructor.
  - apply bind_Ok in H as (acc1 & Hstep & H).
    apply bind_Ok in Hstep as (src & Hsrc & [= <-]).
    apply IH in H. constructor; [simpl; eauto|].
    eapply Forall_impl; [exact H|]. simpl. intros x [v Hv].
    apply dict_get_set_inv in Hv as [->|Hv]; [rewrite Hsrc|]; eauto.
Qed.

Lemma init_file_needs (s : FileWriterBase.t Row) file s' :
  init_file s file = Ok s' ->
  list_of_sources s <> [] /\ 1 <= Options.max_train_per_file (_meta s).
Proof.
  unfold init_file, write_metadata. simpl. intros H.
  destruct (list_of_sources s) as [|x los]; [discriminate|]. simpl in H.
  split; [discriminate|].
  apply bind_Ok in H as (s1 & H & _).
  unfold create_indices in H. simpl in H.
  apply bind_Ok in H as (grp & H & _).
  apply bind_Ok in H as (grp1 & H & _).
  apply bind_Ok in H as (ds & H & _).
  unfold h5py.create_dataset in H. simpl in H.
  destruct (Options.max_train_per_file (_meta s) <? 0); [discriminate|].
  destruct (Z.ltb_spec 0 (Options.max_train_per_file (_meta s)));
    [lia|discriminate].
Qed.

Lemma new_writer_needs_capacity los dss meta fn dk (s : FileWriterBase.t Row) :
  init los dss meta fn dk = Ok s -> 1 <= Options.max_train_per_file meta.
Proof.
  unfold init. intros H.
  apply bind_Ok in H as (srcs0 & _ & H).
  apply bind_Ok in H as (srcs1 & _ & H).
  unfold open_w in H. apply init_file_needs in H as [_ Hmax]. exact Hmax.
Qed.

End InitNeeds.

(** X22: what a writer needs to exist.  When the constructor returns,
    the class lists at least one source, every section is CONTROL or
    INSTRUMENT, every dataset names a listed source, and
    [max_train_per_file >= 1] (the index datasets are created with
    chunks of that many rows). *)
Theorem new_writer_requires {Row}
    (los : list (string * string)) (dss : dict (Dataset.t Row))
    (meta : Options.t) (fn : Z -> string) (dk : list (File Row))
    (s : FileWriterBase.t Row) :
  FileWriterBase.init los dss meta fn dk = Ok s ->
  los <> []
  /\ Forall (fun x => x.1 ∈ @Source.SECTION) los
  /\ Forall (fun x => Dataset.source_name x.2 ∈ los.*2) dss
  /\ 1 <= Options.max_train_per_file meta.
Proof.
  unfold FileWriterBase.init. intros H.
  apply bind_Ok in H as (srcs0 & H0 & H).
  apply bind_Ok in H as (srcs1 & H1 & H).
  unfold FileWriterBase.open_w in H.
  apply init_file_needs in H as [Hlos Hmax]. simpl in Hlos, Hmax.
  apply init_sources_needs in H0 as [Hsect Hkeys].
  apply init_datasets_needs in H1.
  repeat split; try assumption.
  eapply Forall_impl; [exact H1|]. simpl. intros x [v Hv].
  destruct (Hkeys _ _ Hv) as [Hin|[v' Hv']]; [exact Hin|discriminate].
Qed.

Lemma new_writer_requires_witness :
  exists s,
    rotating_writer = Ok s
    /\ 1 <= Options.max_train_per_file rotating_options.
Proof.
  let r := returned rotating_writer in pose (s := r).
  assert (rotating_writer = Ok s) as H by (vm_compute; reflexivity).
  exists s. split; [exact H|].
  exact (proj2 (proj2 (proj2 (new_writer_requires _ _ _ _ _ s H)))).
Defined.

(** ** Rows and index under buffering *)

Section SourceRows.
Context {Row : Type}.
Implicit Types (src : Source.t Row).

Lemma for_each_length {A B} (xs : list A) (body : list B -> A -> result (list B))
    w w' :
  (forall w x w', body w x = Ok w' -> length w' = length w) ->
  for_each xs body w = Ok w' -> length w' = length w.
Proof.
  intros Hb. revert w. induction xs as [|x xs IH]; simpl; intros w H.
  - injection H as <-. reflexivity.
  - apply bind_Ok in H as (w1 & H1 & H).
    rewrite (IH _ H). eapply Hb, H1.
Qed.

Lemma setitem_length {A} (l : list A) i x l' :
  setitem l i x = Ok l' -> length l' = length l.
Proof.
  unfold setitem. intros H. apply bind_Ok in H as (j & _ & [= <-]).
  apply length_insert.
Qed.

Lemma broadcast_to_len {A} (data : list A) n rows :
  broadcast_to data n = Ok rows -> len rows = n.
Proof.
  unfold broadcast_to. destruct (Z.ltb_spec n 0) as [|Hn]; [discriminate|].
  intros Hb. eapply broadcast_rows_len; eauto.
Qed.

(* a new buffered writer is empty and has room *)
Lemma Dataset_create_buffered (ds : Dataset.t Row) grp max_trains wrt :
  1 <= max_trains ->
  Dataset_create ds grp max_trains true = Ok wrt ->
  holds_rows 0 (Some wrt).
Proof.
  intros Hmax H. unfold Dataset_create in H.
  apply bind_Ok in H as (f & Hf & H).
  apply bind_Ok in H as (w & Hw & [= <-]).
  assert (h5py.rows f = []) as Hrows.
  { unfold h5py.create_dataset in Hf. simpl in Hf.
    destruct (negb _); [discriminate|]. injection Hf as <-. reflexivity. }
  destruct (Dataset.chunks ds) as [c|] eqn:Hc.
  { rewrite chunks_autosize_override in Hw by congruence. discriminate. }
  destruct (chunks_autosize_rows ds max_trains Hc) as (rows & Hr & Hlo & _).
  rewrite Hr in Hw.
  assert (h5py.rows (DatasetBufferedWriter.file_ds w) = []) as Hw0.
  { unfold DatasetBufferedWriter.init in Hw.
    destruct (negb _); [discriminate|]. simpl in Hw. injection Hw as <-.
    exact Hrows. }
  apply buffered_init_idle in Hw as (Hidle & _ & Hn); [|exact Hrows|lia].
  exists w. split; [reflexivity|]. split; [exact Hidle|].
  unfold contents. rewrite Hn, Hw0. reflexivity.
Qed.

Lemma holds_rows_lookup (l : list (option (DatasetWriter.t Row))) p :
  (forall i o, l !! i = Some o -> holds_rows p o) -> Forall (holds_rows p) l.
Proof. intros H. apply Forall_lookup. exact H. Qed.

(* Source.create under buffering: every dataset gets an empty writer *)
Lemma source_create_rows src max_trains src' :
  1 <= max_trains ->
  length (Source.file_ds src) = length (Source.datasets src) ->
  Source.create src max_trains true = Ok src' ->
  length (Source.file_ds src') = length (Source.datasets src')
  /\ Forall (holds_rows 0) (Source.file_ds src').
Proof.
  intros Hmax Hlen H. unfold Source.create in H.
  apply bind_Ok in H as (w & Hloop & [= <-]). simpl.
  assert (length w = length (Source.file_ds src)) as Hw.
  { eapply for_each_length; [|exact Hloop].
    intros w0 [dsno ds] w1 Hb. apply bind_Ok in Hb as (wrt & _ & Hb).
    eapply setitem_length, Hb. }
  split; [congruence|].
  unfold Source.enumerate in Hloop. apply create_loop in Hloop as [_ Hloop].
  apply Forall_lookup. intros i o Hi.
  destruct (Source.datasets src !! i) as [ds|] eqn:Hds.
  - destruct (Hloop i ds Hds) as (wrt & Hc & Hwrt). simpl in Hwrt.
    rewrite Hwrt in Hi. injection Hi as <-.
    eapply Dataset_create_buffered; eauto.
  - apply lookup_lt_Some in Hi. apply lookup_ge_None in Hds. lia.
Qed.

(* Source.write_train when a value is staged for every field, or for
   none while the source expects no entry: every writer gains [nrec]
   rows *)
Lemma source_write_train_rows src (data : gmap string (list Row)) src' :
  source_rows src ->
  (forall ds, ds ∈ Source.datasets src -> is_Some (data !! Dataset.key ds))
  \/ (Source.nrec src = 0
      /\ forall ds, ds ∈ Source.datasets src -> data !! Dataset.key ds = None) ->
  Source.write_train src data = Ok src' ->
  source_rows src'.
Proof.
  intros [Hlen Hrows] Hdata H.
  destruct (source_write_train_writers _ _ _ H) as (_ & _ & _ & Hwriters).
  apply source_write_train_inv in H as (w & Hloop & ->).
  assert (length w = length (Source.file_ds src)) as Hw.
  { eapply for_each_length; [|exact Hloop].
    intros w0 [dsno ds] w1 Hb. unfold Source.write_dataset in Hb.
    apply bind_Ok in Hb as ([wrt|] & _ & Hb); [|discriminate].
    destruct (data !! Dataset.key ds); [|congruence].
    apply bind_Ok in Hb as (wrt' & _ & Hb). eapply setitem_length, Hb. }
  split; simpl; [congruence|].
  simpl in Hwriters.
  apply Forall_lookup. intros i o Hi.
  destruct (Source.datasets src !! i) as [ds|] eqn:Hds.
  2:{ apply lookup_lt_Some in Hi. apply lookup_ge_None in Hds. lia. }
  destruct (Hwriters i ds Hds) as (wrt & Hwrt & Hcase).
  pose proof (proj1 (Forall_lookup _ _) Hrows i _ Hwrt) as (w0 & [= ->] & Hidle & Hp).
  assert (ds ∈ Source.datasets src) as Hin
    by (apply list_elem_of_lookup; eauto).
  destruct (data !! Dataset.key ds) as [v|] eqn:Hv.
  - destruct Hcase as (wrt' & Hwrite & Hwrt'). rewrite Hwrt' in Hi.
    injection Hi as <-. simpl in Hwrite.
    apply bind_Ok in Hwrite as (w' & Hwrite & [= <-]).
    destruct (write_appends _ _ _ _ Hidle Hwrite) as (rows & Hb & Hc & _ & Hidle').
    exists w'. split; [reflexivity|]. split; [exact Hidle'|].
    rewrite Hc, len_app, Hp, (broadcast_to_len _ _ _ Hb). reflexivity.
  - rewrite Hcase in Hi. injection Hi as <-.
    destruct Hdata as [Hall|[Hn _]].
    + destruct (Hall ds Hin) as [v' Hv']. congruence.
    + exists w0. rewrite Hn, Z.add_0_r. auto.
Qed.

End SourceRows.

Section SessionRows.
Context {Row : Type}.
Import FileWriterBase.
Implicit Types (s : FileWriterBase.t Row).

(* a complete train: a source has nothing staged at all (an instrument
   source) or a value for every field *)
Lemma complete_source_staged s complete sname (src : Source.t Row) :
  is_data_complete s = Complete complete ->
  (sname, src) ∈ sources s ->
  (Source.stype src = 1 /\ size (staged_data s sname) = 0%nat)
  \/ forall ds, ds ∈ Source.datasets src ->
                is_Some (staged_data s sname !! Dataset.key ds).
Proof.
  rewrite is_data_complete_spec.
  destruct (reported s) eqn:Hrep; [|discriminate]. intros _ Hin.
  unfold reported in Hrep.
  induction (sources s) as [|x l IH]; [inversion Hin|].
  rewrite omap_cons' in Hrep.
  apply elem_of_cons in Hin as [<-|Hin].
  - destruct (nothing_staged s (sname, src)) eqn:Hn.
    + left. unfold nothing_staged in Hn. simpl in Hn.
      apply andb_true_iff in Hn as [H1 H2].
      apply Z.eqb_eq in H1, H2. split; [exact H1|lia].
    + right. intros ds Hds. simpl in Hrep.
      destruct (Source.missed_keys src (staged_data s sname)) eqn:Hm;
        [|discriminate].
      unfold Source.missed_keys in Hm.
      destruct (staged_data s sname !! Dataset.key ds) eqn:Hv; [eauto|].
      exfalso.
      assert (Dataset.key ds
                ∈ remove_dups
                    (filter (fun k => staged_data s sname !! k = None)
                            (Dataset.key <$> Source.datasets src))) as Hk.
      { apply elem_of_remove_dups, list_elem_of_filter. split; [exact Hv|].
        apply list_elem_of_fmap. eauto. }
      rewrite Hm in Hk. inversion Hk.
  - apply IH; [|exact Hin].
    destruct (nothing_staged s x); [exact Hrep|].
    destruct (Source.missed_keys x.2 (staged_data s x.1)); [exact Hrep|discriminate].
Qed.

Lemma size_insert_ne_0 (m : gmap string (list Row)) k v :
  size (<[k := v]> m) <> 0%nat.
Proof.
  intros H. apply map_size_empty_iff in H.
  exact (insert_non_empty m k v H).
Qed.

Lemma add_value_rows s name value s' :
  wf_sources s -> rows_in_step s ->
  add_value s name value = Ok s' -> rows_in_step s'.
Proof.
  intros Hwf Hinv H. apply add_value_inv in H
    as (ds & src & n & _ & Hsrc & _ & _ & ->).
  pose proof (wf_dict_name _ _ _ Hwf Hsrc) as Hname.
  unfold rows_in_step in *. simpl. rewrite Hname.
  apply Forall_dict_set_item.
  - eapply Forall_impl; [exact Hinv|]. simpl.
    intros [k v] [Hrows Hn]. simpl in *. split; [exact Hrows|].
    intros Hs Hsz. apply Hn; [exact Hs|].
    unfold staged_data in *. simpl in Hsz.
    destruct (decide (Dataset.source_name ds = k)) as [<-|Hne].
    + rewrite lookup_insert_eq in Hsz. simpl in Hsz.
      apply size_insert_ne_0 in Hsz. contradiction.
    + rewrite lookup_insert_ne in Hsz by exact Hne. exact Hsz.
  - simpl. split.
    + apply dict_get_elem in Hsrc.
      apply (proj1 (Forall_forall _ _) Hinv) in Hsrc as [Hrows _]. exact Hrows.
    + intros _ Hsz. unfold staged_data in Hsz. simpl in Hsz.
      rewrite lookup_insert_eq in Hsz. simpl in Hsz.
      apply size_insert_ne_0 in Hsz. contradiction.
Qed.

Lemma add_rows s kwargs s' :
  wf_sources s -> rows_in_step s ->
  add s kwargs = Ok s' -> rows_in_step s'.
Proof.
  unfold add. revert s.
  induction kwargs as [|[name value] kw IH]; simpl; intros s Hwf Hinv H.
  - injection H as <-. exact Hinv.
  - apply bind_Ok in H as (s1 & H1 & H).
    apply (IH s1); [| |exact H].
    + eapply add_value_wf_sources; eauto.
    + exact (add_value_rows _ _ _ _ Hwf Hinv H1).
Qed.

Lemma close_datasets_length (src src' : Source.t Row) :
  Source.close_datasets src = Ok src' ->
  exists w, src' = Source.set_file_ds src w
            /\ length w = length (Source.file_ds src).
Proof.
  unfold Source.close_datasets. intros H.
  apply bind_Ok in H as (w & Hloop & [= <-]). exists w. split; [reflexivity|].
  eapply for_each_length; [|exact Hloop].
  intros w0 [dsno ds] w1 Hb.
  apply bind_Ok in Hb as ([wrt|] & _ & Hb); [|discriminate].
  apply bind_Ok in Hb as (wrt' & _ & Hb). eapply setitem_length, Hb.
Qed.

Lemma rotate_rows s s1 :
  index_in_step s -> rows_in_step s ->
  Options.buffering (_meta s) = true ->
  1 <= Options.max_train_per_file (_meta s) ->
  rotate_sequence_file s = Ok s1 -> rows_in_step s1.
Proof.
  intros Hidx Hinv Hbuf Hmax H.
  pose proof (rotate_sequence_file_inv _ _ H) as [[_ ->]|[Hdue _]];
    [exact Hinv|].
  destruct (rotate_frame _ _ H) as [(Htd & _ & _) _].
  apply rotate_each in H; [|exact Hdue]. rewrite Hbuf in H.
  pose proof (proj2 (Forall_and _ _) (conj Hidx Hinv)) as HP.
  unfold rows_in_step.
  refine (Forall2_Forall_pairs _ _ _ _ _ _ H HP).
  intros [k a] [k' b] [Hk (a1 & a2 & g & g' & H1 & H2 & H3)]
    [[Hlen Hch] [[Hl _] Hn]]. simpl in *. subst k'.
  apply close_datasets_length in H1 as (w & -> & Hw).
    apply source_write_index_all in H2 as [_ ->];
      [|exact Hch|unfold len; simpl; rewrite Hlen; reflexivity].
  assert (length (Source.file_ds (Source.set_index (Source.set_file_ds a w)
                                    [] [] 0 (Source.nrec (Source.set_file_ds a w))))
          = length (Source.datasets (Source.set_index (Source.set_file_ds a w)
                                    [] [] 0 (Source.nrec (Source.set_file_ds a w)))))
    as Hl2 by (simpl; congruence).
  pose proof (source_create_rows _ _ _ Hmax Hl2 H3) as [Hl' Hrows].
    apply source_create_inv in H3 as (w' & grp & ->). simpl in *.
    split; [split; assumption|].
    unfold staged_data in *. rewrite Htd. exact Hn.
Qed.

Lemma write_train_rows s tid ts s' :
  wf_sources s -> index_in_step s -> rows_in_step s ->
  Options.buffering (_meta s) = true ->
  1 <= Options.max_train_per_file (_meta s) ->
  write_train s tid ts = Ok s' -> rows_in_step s'.
Proof.
  intros Hwf Hidx Hinv Hbuf Hmax H.
  apply write_train_inv in H
    as (s1 & c & Hrot & Hc & Hcommit & _); [|apply Hwf].
  pose proof (rotate_rows _ _ Hidx Hinv Hbuf Hmax Hrot) as Hinv1.
  destruct (rotate_frame _ _ Hrot) as [(Htd & _ & _) _].
  assert (Forall (fun x => x ∈ sources s1
                           /\ source_rows x.2
                           /\ (Source.stype x.2 = 1 ->
                               size (staged_data s1 x.1) = 0%nat ->
                               Source.nrec x.2 = 0)) (sources s1)) as HP.
  { apply Forall_forall. intros x Hx. split; [exact Hx|].
    exact (proj1 (Forall_forall _ _) Hinv1 x Hx). }
  unfold rows_in_step.
  refine (Forall2_Forall_pairs _ _ _ _ _ _ Hcommit HP).
  intros [k a] [k' b] [Hk Hw] (Hin & Hrows & Hn). simpl in *. subst k'.
  idtac.
    assert (staged_data s k = staged_data s1 k) as Hst
      by (unfold staged_data; rewrite Htd; reflexivity).
    split.
    + eapply source_write_train_rows; [exact Hrows| |exact Hw].
      destruct (complete_source_staged _ _ _ _ Hc Hin) as [[Hs Hsz]|Hall].
      * right. split; [auto|]. intros ds _. rewrite Hst.
        apply map_size_empty_iff in Hsz. rewrite Hsz. apply lookup_empty.
      * left. rewrite Hst. exact Hall.
    + intros Hs _.
      apply source_write_train_inv in Hw as (w & _ & ->). simpl in *.
      rewrite Hs. reflexivity.
Qed.

Lemma init_rows los dss meta fn dk s :
  Options.buffering meta = true ->
  init los dss meta fn dk = Ok s -> rows_in_step s.
Proof.
  intros Hbuf H. unfold init in H.
  apply bind_Ok in H as (srcs0 & H0 & H).
  apply bind_Ok in H as (srcs1 & H1 & H).
  pose (P := fun src : Source.t Row =>
               length (Source.file_ds src) = length (Source.datasets src)
               /\ Source.pos src = 0 /\ Source.nrec src = 0).
  apply (init_sources_all P) in H0; [| |constructor].
  2:{ intros name stype src Hi. unfold Source.init in Hi. inv_ok. subst src.
      repeat split. }
  apply (init_datasets_all P) in H1; [| |exact H0].
  2:{ intros src ds (Hl & Hp & Hn). repeat split; simpl; [|assumption..].
      rewrite !length_app, Hl. reflexivity. }
  unfold open_w in H.
  pose proof (init_file_needs _ _ _ H) as [_ Hmax]. simpl in Hmax.
  apply init_file_each in H. simpl in H. rewrite Hbuf in H.
  unfold rows_in_step.
  refine (Forall2_Forall_pairs _ _ _ _ _ _ H H1).
  intros [k a] [k' b] [_ Hc] (Hl & Hp & Hn). simpl in *.
  pose proof (source_create_rows _ _ _ Hmax Hl Hc) as [Hl' Hrows].
  apply source_create_inv in Hc as (w & grp & ->). simpl in *.
  rewrite Hp. repeat split; auto.
Qed.

Lemma writer_step_meta s c s' :
  wf_sources s -> writer_step s c = Ok s' -> _meta s' = _meta s.
Proof.
  intros Hwf. destruct c as [name value|kwargs|tid ts]; simpl; intros H.
  - apply add_value_frame in H as (_ & _ & _ & _ & _ & _ & Hst & _).
    unfold static in Hst. congruence.
  - apply add_frame in H as (_ & _ & _ & _ & _ & _ & Hst & _).
    unfold static in Hst. congruence.
  - apply write_train_inv in H
      as (s1 & c & Hrot & _ & _ & _ & _ & _ & _ & _ & _ & _ & Hst);
      [|apply Hwf].
    destruct (rotate_frame _ _ Hrot) as [(_ & Hst1 & _) _].
    unfold static in Hst, Hst1. congruence.
Qed.

Lemma writer_run_rows calls s s' :
  wf_sources s -> index_in_step s -> rows_in_step s ->
  Options.buffering (_meta s) = true ->
  1 <= Options.max_train_per_file (_meta s) ->
  for_each calls writer_step s = Ok s' ->
  wf_sources s' /\ index_in_step s' /\ rows_in_step s'.
Proof.
  revert s.
  induction calls as [|c calls IH]; simpl; intros s Hwf Hidx Hinv Hbuf Hmax H.
  - injection H as <-. auto.
  - apply bind_Ok in H as (s1 & H1 & H).
    destruct (writer_step_in_step _ _ _ Hwf Hidx H1) as [Hwf1 Hidx1].
    pose proof (writer_step_meta _ _ _ Hwf H1) as Hm.
    apply (IH s1); try assumption; [|rewrite Hm; assumption..].
    destruct c as [name value|kwargs|tid ts]; simpl in H1.
    + exact (add_value_rows _ _ _ _ Hwf Hinv H1).
    + exact (add_rows _ _ _ Hwf Hinv H1).
    + exact (write_train_rows _ _ _ _ Hwf Hidx Hinv Hbuf Hmax H1).
Qed.

End SessionRows.

(** X23: under buffering, data and index agree.  In a session of a new
    writer of a class with [buffering] on (any run of add_value, add
    and write_train calls that return, rotations included), every
    source has a buffered writer for each of its datasets; the writer
    has room in its staging block and holds, in its array and staged,
    exactly as many rows as the source has counted for the trains of
    the open file.  When the writer is closed then, the array of each
    dataset in the file put on disk has that many rows. *)
Theorem session_rows_match_index {Row}
    (los : list (string * string)) (dss : dict (Dataset.t Row))
    (meta : Options.t) (fn : Z -> string) (dk : list (File Row))
    (calls : list (writer_call Row)) (s0 s : FileWriterBase.t Row)
    (sname : string) (src : Source.t Row) :
  Options.buffering meta = true ->
  FileWriterBase.init los dss meta fn dk = Ok s0 ->
  for_each calls writer_step s0 = Ok s ->
  dict_get (FileWriterBase.sources s) sname = Ok src ->
  length (Source.file_ds src) = length (Source.datasets src)
  /\ (forall (dsno : nat) o,
        Source.file_ds src !! dsno = Some o ->
        exists w,
          o = Some (DatasetWriter.Buffered w)
          /\ DatasetBufferedWriter.nbuf w < DatasetBufferedWriter.size w
          /\ len (contents w) = total (Source.count src))
  /\ forall s',
       FileWriterBase.close s = Ok s' ->
       exists f,
         FileWriterBase.disk s' = FileWriterBase.disk s ++ [f]
         /\ forall (dsno : nat) wrt,
              Source.file_ds src !! dsno = Some (Some wrt) ->
              exists arr,
                arr ∈ DATA f
                /\ h5py.name arr = h5py.name (DatasetWriter.file_ds wrt)
                /\ len (h5py.rows arr) = total (Source.count src).
Proof.
  intros Hbuf Hinit Hrun Hget.
  pose proof (init_inv _ _ _ _ _ _ Hinit) as (Hwf0 & _ & Hst & _).
  assert (FileWriterBase._meta s0 = meta) as Hm
    by (unfold static in Hst; congruence).
  pose proof (new_writer_needs_capacity _ _ _ _ _ _ Hinit) as Hmax.
  destruct (writer_run_rows calls s0 s Hwf0 (init_in_step _ _ _ _ _ _ Hinit)
              (init_rows _ _ _ _ _ _ Hbuf Hinit)) as (Hwf & Hidx & Hrows);
    [rewrite Hm; assumption..|exact Hrun|].
  pose proof (dict_get_elem _ _ _ Hget) as Hin.
  apply (proj1 (Forall_forall _ _) Hidx) in Hin as Hsrc.
  destruct Hsrc as [_ [_ Hpos]].
  apply (proj1 (Forall_forall _ _) Hrows) in Hin as [[Hlen Hws] _].
  simpl in *.
  assert (forall (dsno : nat) o,
            Source.file_ds src !! dsno = Some o ->
            exists w, o = Some (DatasetWriter.Buffered w)
                      /\ idle w
                      /\ len (contents w) = total (Source.count src)) as Hall.
  { intros dsno o Ho.
    destruct (proj1 (Forall_lookup _ _) Hws dsno o Ho) as (w & -> & Hidle & Hp).
    exists w. rewrite Hp, Hpos. auto. }
  split; [exact Hlen|]. split.
  { intros dsno o Ho. destruct (Hall dsno o Ho) as (w & -> & [_ Hroom] & Hp).
    eauto. }
  intros s' Hclose.
  apply close_each in Hclose as [Hrel (f & Hdisk & Hdata)].
  exists f. split; [exact Hdisk|].
  intros dsno wrt Hwrt.
  destruct (Hall dsno _ Hwrt) as (w & [= ->] & [Hc _] & Hp).
  destruct (sources_rel_get_fwd _ _ _ _ _ Hrel Hget)
    as (b & Hgetb & a1 & g & g' & Hcl & Hidx').
  unfold Source.close_datasets in Hcl.
  apply bind_Ok in Hcl as (ws & Hloop & [= <-]).
  unfold Source.enumerate in Hloop.
  apply flush_loop in Hloop as [_ Hloop].
  destruct (Source.datasets src !! dsno) as [ds|] eqn:Hds.
  2:{ apply lookup_lt_Some in Hwrt. apply lookup_ge_None in Hds. lia. }
  destruct (Hloop dsno ds Hds) as (wrt0 & wrt' & Hw0 & Hf & Hw').
  simpl in Hw0. rewrite Hwrt in Hw0. injection Hw0 as <-.
  destruct (writer_flush_rows _ _ Hc Hf) as [Hr Hname].
  apply source_write_index_inv in Hidx' as (fi & co & po & ->).
  exists (DatasetWriter.file_ds wrt').
  split; [|split; [exact Hname|rewrite Hr; exact Hp]].
  rewrite Hdata. eapply data_of_elem; [exact Hgetb|]. exact Hw'.
Qed.

Lemma session_rows_match_index_witness :
  exists s0 s src,
    rotating_writer = Ok s0
    /\ for_each session_calls writer_step s0 = Ok s
    /\ dict_get (FileWriterBase.sources s) "dev:out/data" = Ok src
    /\ Source.count src = [3; 2]
    /\ length (Source.file_ds src) = length (Source.datasets src)
    /\ (forall (dsno : nat) o,
          Source.file_ds src !! dsno = Some o ->
          exists w,
            o = Some (DatasetWriter.Buffered w)
            /\ DatasetBufferedWriter.nbuf w < DatasetBufferedWriter.size w
            /\ len (contents w) = total (Source.count src))
    /\ forall s',
         FileWriterBase.close s = Ok s' ->
         exists f,
           FileWriterBase.disk s' = FileWriterBase.disk s ++ [f]
           /\ forall (dsno : nat) wrt,
                Source.file_ds src !! dsno = Some (Some wrt) ->
                exists arr,
                  arr ∈ DATA f
                  /\ h5py.name arr = h5py.name (DatasetWriter.file_ds wrt)
                  /\ len (h5py.rows arr) = total (Source.count src).
Proof.
  let r := returned rotating_writer in pose (s0 := r).
  let r := returned (for_each session_calls writer_step s0) in pose (s := r).
  let r := returned (dict_get (FileWriterBase.sources s) "dev:out/data") in
  pose (src := r).
  assert (FileWriterBase.init
            [("CONTROL", "dev"); ("INSTRUMENT", "dev:out/data")]%string
            [("x", control_x); ("v", scalar_instrument)]%string
            rotating_options run_name [] = Ok s0)
    as H0 by (vm_compute; reflexivity).
  assert (for_each session_calls writer_step s0 = Ok s)
    as H1 by (vm_compute; reflexivity).
  assert (dict_get (FileWriterBase.sources s) "dev:out/data" = Ok src)
    as H2 by (vm_compute; reflexivity).
  exists s0, s, src.
  split; [exact H0|]. split; [exact H1|]. split; [exact H2|].
  split; [vm_compute; reflexivity|].
  exact (session_rows_match_index _ _ rotating_options _ _ _ s0 s
           "dev:out/data" src eq_refl H0 H1 H2).
Defined.
